(** * AgroEcosystem: the seasonal population-dynamics simulator

    A shallow embedding of [Src/ecosystem.py] (class [AgroEcosystem]) and of
    the driver loop of [Src/main.py] ([run_simulation]).

    Numbers.  The Python program computes on [float]s; here every float is
    an exact rational ([Q]), so [+], [-], [*], [/] and the comparisons are
    the exact ones and no rounding takes place.  Python's [==] on numbers is
    numeric equality, which is [Qeq] ([==]) on [Q].  The integer year
    counter and the optional stop years are [Z]. *)

From Stdlib Require Import QArith Qminmax ZArith List Bool Lia Lqa Psatz
  Morphisms Sorted Qpower.
From Stdlib Require String.
Import String.StringSyntax.
Delimit Scope string_scope with string.
Import ListNotations.

Open Scope Q_scope.

(** ** Python's builtins on numbers *)

(** [a < b] on floats, as a boolean. *)
Definition Qltb (a b : Q) : bool :=
  match a ?= b with Lt => true | _ => false end.

(** [min(a, b)]: Python returns the first argument unless the second is
    strictly smaller. *)
Definition py_min (a b : Q) : Q := if Qltb b a then b else a.

(** [max(a, b)]: Python returns the first argument unless the second is
    strictly greater. *)
Definition py_max (a b : Q) : Q := if Qltb a b then b else a.

(** [abs(x)]. *)
Definition py_abs (x : Q) : Q := if Qltb x 0 then - x else x.

(** [min(a, b)] on integers. *)
Definition py_min_int (a b : Z) : Z := if (b <? a)%Z then b else a.

(** ** Data model *)

Inductive Season : Type := spring | summer | autumn | winter.

Inductive Chemical : Type := pesticide | herbicide.

Inductive Predator : Type := bird_p | bat_p.

(** [self.states]: a dict with nine fixed keys. *)
Record States : Type := mkStates {
  crop : Q;
  weed : Q;
  pest : Q;
  bird : Q;
  bat : Q;
  soil_nutrient : Q;
  soil_health : Q;
  herbicide_residue : Q;
  pesticide_residue : Q
}.

(** [scenario_config].  The keys read with [self.scenario[...]] are plain
    fields; the keys read with [self.scenario.get(...)] may be absent
    ([None]). *)
Record Scenario : Type := mkScenario {
  use_fertilizer : bool;
  use_herbicide : bool;
  use_pesticide : bool;
  introduce_birds : bool;
  introduce_bats : bool;
  use_organic_fertilizer : option bool;
  use_cover_crop : option bool;
  herbicide_stop_year : option Z;
  pesticide_stop_year : option Z
}.

(** [self.history]: one list per state key, plus ['year'] and ['season'].
    [list.append] adds at the end. *)
Record History : Type := mkHistory {
  h_crop : list Q;
  h_weed : list Q;
  h_pest : list Q;
  h_bird : list Q;
  h_bat : list Q;
  h_soil_nutrient : list Q;
  h_soil_health : list Q;
  h_herbicide_residue : list Q;
  h_pesticide_residue : list Q;
  h_year : list Z;
  h_season : list Season
}.

(** An [AgroEcosystem] instance. *)
Record Sim : Type := mkSim {
  scenario : Scenario;
  year : Z;
  states : States;
  history : History
}.

(** ** Class constants *)

Definition INITIAL_STATES : States :=
  {| crop := 0.0; weed := 30.0; pest := 5.0;
     bird := 0.0; bat := 0.0; soil_nutrient := 50.0;
     soil_health := 50.0; herbicide_residue := 0.0;
     pesticide_residue := 0.0 |}.

Module PARAMS.
Definition r_crop : Q := 0.8.
Definition r_weed : Q := 0.6.
Definition r_pest : Q := 0.5.
Definition r_bird : Q := 0.1.
Definition r_bat : Q := 0.08.
Definition K_crop : Q := 300.
Definition K_weed : Q := 100.
Definition K_pest : Q := 80.
Definition K_bird : Q := 20.
Definition K_bat : Q := 15.
Definition pest_on_crop : Q := -0.5.
Definition bird_on_pest : Q := -1.5.
Definition bat_on_pest : Q := -1.2.
Definition crop_weed_comp : Q := -2.0.
Definition herbicide_decay : Q := 0.3.
Definition pesticide_decay : Q := 0.25.
Definition organic_fertilizer_effect : Q := 0.2.
Definition chemical_fertilizer_effect : Q := 0.3.
Definition herbicide_effect : Q := 0.7.
Definition pesticide_effect : Q := 0.6.
Definition predator_pesticide_mortality : Q := 0.3.
End PARAMS.

Definition SEASON_FACTORS (season : Season) : Q :=
  match season with
  | spring => 0.8
  | summer => 1.2
  | autumn => 0.9
  | winter => 0.3
  end.

(** ** Field updates ([self.states[key] = v]) *)

Definition set_crop (v : Q) (s : States) : States :=
  mkStates v (weed s) (pest s) (bird s) (bat s) (soil_nutrient s)
           (soil_health s) (herbicide_residue s) (pesticide_residue s).
Definition set_weed (v : Q) (s : States) : States :=
  mkStates (crop s) v (pest s) (bird s) (bat s) (soil_nutrient s)
           (soil_health s) (herbicide_residue s) (pesticide_residue s).
Definition set_pest (v : Q) (s : States) : States :=
  mkStates (crop s) (weed s) v (bird s) (bat s) (soil_nutrient s)
           (soil_health s) (herbicide_residue s) (pesticide_residue s).
Definition set_bird (v : Q) (s : States) : States :=
  mkStates (crop s) (weed s) (pest s) v (bat s) (soil_nutrient s)
           (soil_health s) (herbicide_residue s) (pesticide_residue s).
Definition set_bat (v : Q) (s : States) : States :=
  mkStates (crop s) (weed s) (pest s) (bird s) v (soil_nutrient s)
           (soil_health s) (herbicide_residue s) (pesticide_residue s).
Definition set_soil_nutrient (v : Q) (s : States) : States :=
  mkStates (crop s) (weed s) (pest s) (bird s) (bat s) v
           (soil_health s) (herbicide_residue s) (pesticide_residue s).
Definition set_soil_health (v : Q) (s : States) : States :=
  mkStates (crop s) (weed s) (pest s) (bird s) (bat s) (soil_nutrient s)
           v (herbicide_residue s) (pesticide_residue s).
Definition set_herbicide_residue (v : Q) (s : States) : States :=
  mkStates (crop s) (weed s) (pest s) (bird s) (bat s) (soil_nutrient s)
           (soil_health s) v (pesticide_residue s).
Definition set_pesticide_residue (v : Q) (s : States) : States :=
  mkStates (crop s) (weed s) (pest s) (bird s) (bat s) (soil_nutrient s)
           (soil_health s) (herbicide_residue s) v.

(** The methods below mutate [self.states] only; [with_states] threads the
    new dict through the instance. *)
Definition with_states (f : States -> States) (sim : Sim) : Sim :=
  mkSim (scenario sim) (year sim) (f (states sim)) (history sim).

(** ** [__init__] *)

Definition empty_history : History :=
  mkHistory [] [] [] [] [] [] [] [] [] [] [].

Definition init (scenario_config : Scenario) : Sim :=
  {| scenario := scenario_config;
     year := 0%Z;
     states := INITIAL_STATES;
     history := empty_history |}.

(** ** Spring operations *)

Definition apply_fertilizer (sim : Sim) : Sim :=
  let is_organic :=
    match use_organic_fertilizer (scenario sim) with
    | Some b => b
    | None => false
    end in
  if is_organic then
    with_states (fun s =>
      let s := set_soil_nutrient (soil_nutrient s + 15) s in
      set_soil_health (py_min 100 (soil_health s + 2)) s) sim
  else
    with_states (fun s =>
      let s := set_soil_nutrient (soil_nutrient s + 30) s in
      set_soil_health (py_max 0 (soil_health s - 1)) s) sim.

Definition handle_spring_operations (sim : Sim) : Sim :=
  let sim := with_states (set_crop 80.0) sim in
  if use_fertilizer (scenario sim) then apply_fertilizer sim else sim.

(** ** Summer operations *)

Definition should_apply_chemical (chemical_type : Chemical) (sim : Sim)
  : bool :=
  let stop_year :=
    match chemical_type with
    | pesticide => pesticide_stop_year (scenario sim)
    | herbicide => herbicide_stop_year (scenario sim)
    end in
  let threshold : Q :=
    match chemical_type with pesticide => 8 | herbicide => 15 end in
  let state_key :=
    match chemical_type with pesticide => pest | herbicide => weed end in
  let use_flag :=
    match chemical_type with
    | pesticide => use_pesticide (scenario sim)
    | herbicide => use_herbicide (scenario sim)
    end in
  use_flag &&
  Qltb threshold (state_key (states sim)) &&
  match stop_year with
  | None => true
  | Some y => (year sim <? y)%Z
  end.

Definition apply_chemical (chemical_type : Chemical) (sim : Sim) : Sim :=
  match chemical_type with
  | pesticide =>
      with_states (fun s =>
        let s := set_pesticide_residue 50 s in
        let s := set_pest (pest s * (1 - PARAMS.pesticide_effect)) s in
        let mortality := PARAMS.predator_pesticide_mortality in
        let s := set_bird (bird s * (1 - mortality)) s in
        set_bat (bat s * (1 - mortality)) s) sim
  | herbicide =>
      with_states (fun s =>
        let s := set_herbicide_residue 40 s in
        set_weed (weed s * (1 - PARAMS.herbicide_effect)) s) sim
  end.

(** The efficiency of manual/mechanical weeding in a given year:
    [min(0.5, 0.25 + 0.03 * min(8, self.year))]. *)
Definition mechanical_efficiency (y : Z) : Q :=
  py_min 0.5 (0.25 + 0.03 * inject_Z (py_min_int 8 y)).

Definition apply_organic_weed_control (sim : Sim) : Sim :=
  let weed0 := weed (states sim) in
  (* 1. Manual/mechanical weeding *)
  let sim :=
    if Qltb 20 weed0 then
      let efficiency := mechanical_efficiency (year sim) in
      with_states (fun s => set_weed (weed s * (1 - efficiency)) s) sim
    else sim in
  (* 2. Cover crop competition *)
  let sim :=
    if match use_cover_crop (scenario sim) with
       | Some b => b
       | None => false
       end
    then with_states (fun s => set_weed (weed s * 0.8) s) sim
    else sim in
  (* 3. Crop density suppression *)
  let crop_density_effect := py_min 0.3 (crop (states sim) * 0.001) in
  let sim :=
    with_states (fun s => set_weed (weed s * (1 - crop_density_effect)) s)
                sim in
  with_states (fun s => set_weed (py_max 0 (weed s)) s) sim.

Definition handle_summer_operations (sim : Sim) : Sim :=
  let sim :=
    if should_apply_chemical pesticide sim
    then apply_chemical pesticide sim
    else sim in
  if should_apply_chemical herbicide sim
  then apply_chemical herbicide sim
  else apply_organic_weed_control sim.

Definition seasonal_operations (season : Season) (sim : Sim) : Sim :=
  match season with
  | spring => handle_spring_operations sim
  | summer => handle_summer_operations sim
  | _ => sim
  end.

(** ** Growth rates *)

(** The three intermediate quantities of [calculate_crop_growth]. *)
Definition crop_base (C : Q) : Q :=
  PARAMS.r_crop * C * (1 - C / PARAMS.K_crop).

Definition crop_pest_effect (P : Q) : Q :=
  py_min 0.6 (py_abs PARAMS.pest_on_crop * P * 0.02).

Definition crop_weed_effect (W : Q) : Q :=
  py_min 0.5 (py_abs PARAMS.crop_weed_comp * W * 0.03).

(** [net = max(0.05, base * (1 - pest_effect - weed_effect))]. *)
Definition crop_net (C W P : Q) : Q :=
  let base := crop_base C in
  let pest_effect := crop_pest_effect P in
  let weed_effect := crop_weed_effect W in
  py_max 0.05 (base * (1 - pest_effect - weed_effect)).

Definition calculate_crop_growth (sim : Sim) (C W P : Q) (season : Season)
  : Q :=
  let net := crop_net C W P in
  let soil_factor := 0.5 + (soil_health (states sim) / 100) * 0.5 in
  let fertilizer_bonus :=
    if use_fertilizer (scenario sim) then
      let effect :=
        match use_organic_fertilizer (scenario sim) with
        | Some true => PARAMS.organic_fertilizer_effect
        | _ => PARAMS.chemical_fertilizer_effect
        end in
      effect * soil_nutrient (states sim) * 0.01
    else 0 in
  net * soil_factor + fertilizer_bonus.

Definition calculate_weed_growth (sim : Sim) (W C : Q) : Q :=
  let base := PARAMS.r_weed * W * (1 - W / PARAMS.K_weed) in
  let crop_competition := py_min 0.5 (0.05 + C * 0.001) in
  let herbicide_effect := -0.05 * herbicide_residue (states sim) in
  base * (1 - crop_competition) + herbicide_effect.

Definition calculate_pest_growth (sim : Sim) (P B T : Q) : Q :=
  let base := PARAMS.r_pest * P * (1 - P / PARAMS.K_pest) in
  let bird_efficiency := py_min 0.6 (0.3 + 0.02 * inject_Z (year sim)) in
  let bat_efficiency := py_min 0.5 (0.25 + 0.015 * inject_Z (year sim)) in
  let predation := bird_efficiency * B * 0.05 + bat_efficiency * T * 0.04 in
  let pesticide_effect := -0.01 * pesticide_residue (states sim) in
  base * (1 - predation) + pesticide_effect.

(** [calculate_bird_growth] also writes [self.states['weed']]: it returns
    the rate together with the mutated instance. *)
Definition calculate_bird_growth (sim : Sim) (B P : Q) : Q * Sim :=
  let food_effect := py_min 0.2 (P / 50.0) in
  let growth := PARAMS.r_bird * B * (1 - B / PARAMS.K_bird) in
  let sim :=
    with_states (fun s => set_weed (weed s * (1 - py_min 0.1 (B * 0.005))) s)
                sim in
  (growth * (1 + 0.5 * food_effect), sim).

Definition calculate_bat_growth (T P : Q) : Q :=
  let food_effect := py_min 0.2 (P / 50.0) in
  PARAMS.r_bat * T * (1 - T / PARAMS.K_bat) * (1 + 0.4 * food_effect).

(** The dict [rates] of [calculate_growth_rates]. *)
Record Rates : Type := mkRates {
  rate_crop : Q;
  rate_weed : Q;
  rate_pest : Q;
  rate_bird : Q;
  rate_bat : Q
}.

Definition calculate_growth_rates (season : Season) (sim : Sim)
  : Rates * Sim :=
  let C := crop (states sim) in
  let W := weed (states sim) in
  let P := pest (states sim) in
  let B := bird (states sim) in
  let T := bat (states sim) in
  let r_c := calculate_crop_growth sim C W P season in
  let r_w := calculate_weed_growth sim W C in
  let r_p := calculate_pest_growth sim P B T in
  let '(r_b, sim) :=
    if Qltb 0 B then calculate_bird_growth sim B P else (0, sim) in
  let r_t := if Qltb 0 T then calculate_bat_growth T P else 0 in
  let f := SEASON_FACTORS season in
  (mkRates (r_c * f) (r_w * f) (r_p * f) (r_b * f) (r_t * f), sim).

(** ** Predator introduction and recovery *)

Definition update_predator_population (predator : Predator) (sim : Sim)
  : Sim :=
  let get := match predator with bird_p => bird | bat_p => bat end in
  let set := match predator with bird_p => set_bird | bat_p => set_bat end in
  if Qeq_bool (get (states sim)) 0 then
    with_states
      (set (match predator with bird_p => 2.0 | bat_p => 1.5 end)) sim
  else
    let current := get (states sim) in
    let r :=
      match predator with
      | bird_p => PARAMS.r_bird
      | bat_p => PARAMS.r_bat
      end in
    let K :=
      match predator with
      | bird_p => PARAMS.K_bird
      | bat_p => PARAMS.K_bat
      end in
    let pest_effect := py_min 0.3 (pest (states sim) / 100.0) in
    let growth := r * current * (1 - current / K) * (1 + pest_effect) in
    with_states (fun s => set (get s + growth * 0.5) s) sim.

Definition handle_predator_recovery (sim : Sim) : Sim :=
  let sim :=
    if introduce_birds (scenario sim)
    then update_predator_population bird_p sim
    else sim in
  if introduce_bats (scenario sim)
  then update_predator_population bat_p sim
  else sim.

(** ** Population update *)

(** The loop of [update_populations] over [growth_rates.items()]: every
    key of [rates] is a key of [self.states]. *)
Definition apply_growth_rates (rates : Rates) (sim : Sim) : Sim :=
  with_states (fun s =>
    let s := set_crop (py_max 0 (crop s + rate_crop rates)) s in
    let s := set_weed (py_max 0 (weed s + rate_weed rates)) s in
    let s := set_pest (py_max 0 (pest s + rate_pest rates)) s in
    let s := set_bird (py_max 0 (bird s + rate_bird rates)) s in
    set_bat (py_max 0 (bat s + rate_bat rates)) s) sim.

Definition update_populations (season : Season) (sim : Sim) : Sim :=
  let '(growth_rates, sim) := calculate_growth_rates season sim in
  let sim := apply_growth_rates growth_rates sim in
  handle_predator_recovery sim.

(** ** Chemical residues and soil nutrients *)

Definition update_chemicals (sim : Sim) : Sim :=
  with_states (fun s =>
    let s :=
      set_pesticide_residue
        (pesticide_residue s * (1 - PARAMS.pesticide_decay)) s in
    let s :=
      set_herbicide_residue
        (herbicide_residue s * (1 - PARAMS.herbicide_decay)) s in
    set_soil_nutrient (soil_nutrient s * 0.9) s) sim.

(** ** History *)

Definition record_state (season : Season) (sim : Sim) : Sim :=
  let s := states sim in
  let h := history sim in
  mkSim (scenario sim) (year sim) s
    {| h_crop := h_crop h ++ [crop s];
       h_weed := h_weed h ++ [weed s];
       h_pest := h_pest h ++ [pest s];
       h_bird := h_bird h ++ [bird s];
       h_bat := h_bat h ++ [bat s];
       h_soil_nutrient := h_soil_nutrient h ++ [soil_nutrient s];
       h_soil_health := h_soil_health h ++ [soil_health s];
       h_herbicide_residue := h_herbicide_residue h ++ [herbicide_residue s];
       h_pesticide_residue := h_pesticide_residue h ++ [pesticide_residue s];
       h_year := h_year h ++ [year sim];
       h_season := h_season h ++ [season] |}.

(** ** The driver *)

(** The body of the loop of [simulate_year]. *)
Definition season_step (season : Season) (sim : Sim) : Sim :=
  let sim := seasonal_operations season sim in
  let sim := update_populations season sim in
  let sim := update_chemicals sim in
  record_state season sim.

Definition SEASONS : list Season := [spring; summer; autumn; winter].

Definition run_seasons (l : list Season) (sim : Sim) : Sim :=
  fold_left (fun sim season => season_step season sim) l sim.

(** [self.year += 1]. *)
Definition next_year (sim : Sim) : Sim :=
  mkSim (scenario sim) (year sim + 1)%Z (states sim) (history sim).

Definition simulate_year (sim : Sim) : Sim :=
  let sim := run_seasons SEASONS sim in
  next_year sim.

(** [years] calls of [simulate_year]. *)
Definition simulate_years (years : nat) (sim : Sim) : Sim :=
  Nat.iter years simulate_year sim.

(** [run_simulation] of [main.py]. *)
Definition run_simulation (scenario_config : Scenario) (years : nat)
  : History :=
  history (simulate_years years (init scenario_config)).

(** The instance after [q] full years and the first [r] seasons of the
    next one: every state the simulation passes through between two season
    steps has this form with [r <= 4]. *)
Definition after (scenario_config : Scenario) (q r : nat) : Sim :=
  run_seasons (firstn r SEASONS) (simulate_years q (init scenario_config)).

(** * Notions used in the statements *)

(** The stop-year test shared by both chemicals. *)
Definition before_stop (stop_year : option Z) (y : Z) : Prop :=
  stop_year = None \/ exists stop, stop_year = Some stop /\ (y < stop)%Z.

(** The first statement of [handle_summer_operations]. *)
Definition pesticide_stage (sim : Sim) : Sim :=
  if should_apply_chemical pesticide sim
  then apply_chemical pesticide sim
  else sim.

(** The second statement of [handle_summer_operations]. *)
Definition weed_stage (sim : Sim) : Sim :=
  if should_apply_chemical herbicide sim
  then apply_chemical herbicide sim
  else apply_organic_weed_control sim.

(** The floor of the net rate as the specification words it: relative to
    the base rate, net >= 0.05 * base. *)
Definition net_floored_relative_to_base (C W P : Q) : Prop :=
  0.05 * crop_base C <= crop_net C W P.

(** What the three stages and the final clamp of
    [apply_organic_weed_control] compute, as one expression. *)
Definition organic_weed_result (sim : Sim) : Q :=
  let w := weed (states sim) in
  let mechanical :=
    if Qltb 20 w then 1 - mechanical_efficiency (year sim) else 1 in
  let cover :=
    match use_cover_crop (scenario sim) with
    | Some true => 0.8
    | _ => 1
    end in
  let density := 1 - py_min 0.3 (crop (states sim) * 0.001) in
  py_max 0 (((w * mechanical) * cover) * density).

(** The instance used to test the plateau: year 8, initial states, no
    cover crop. *)
Definition year8_sim : Sim :=
  mkSim (mkScenario false false false false false None None None None)
        8%Z INITIAL_STATES empty_history.

(** Scenario, year counter and history are only written by [record_state]
    and [simulate_year]. *)
Definition same_meta (a b : Sim) : Prop :=
  scenario a = scenario b /\ year a = year b /\ history a = history b.

(** The instance whose states [record_state] snapshots in a season step. *)
Definition before_record (season : Season) (sim : Sim) : Sim :=
  update_chemicals
    (update_populations season (seasonal_operations season sim)).

(** The lengths of the eleven lists of the history. *)
Definition history_lengths (h : History) : list nat :=
  [length (h_crop h); length (h_weed h); length (h_pest h);
   length (h_bird h); length (h_bat h); length (h_soil_nutrient h);
   length (h_soil_health h); length (h_herbicide_residue h);
   length (h_pesticide_residue h); length (h_year h); length (h_season h)].

(** The season step in the order the specification words it: the policy
    engine, predator recovery included, before the growth model. *)
Definition season_step_recovery_first (season : Season) (sim : Sim) : Sim :=
  let sim := seasonal_operations season sim in
  let sim := handle_predator_recovery sim in
  let '(growth_rates, sim) := calculate_growth_rates season sim in
  let sim := apply_growth_rates growth_rates sim in
  let sim := update_chemicals sim in
  record_state season sim.

(** A scenario that introduces birds and nothing else. *)
Definition birds_only : Scenario :=
  mkScenario false false false true false None None None None.

(** All nine fields non-negative, the predators below their carrying
    capacities, the residues below [hmax] and [pmax]. *)
Definition state_bounds (hmax pmax : Q) (s : States) : Prop :=
  0 <= crop s /\ 0 <= weed s /\ 0 <= pest s /\
  0 <= bird s <= 20 /\ 0 <= bat s <= 15 /\
  0 <= soil_nutrient s /\ 0 <= soil_health s /\
  0 <= herbicide_residue s <= hmax /\
  0 <= pesticide_residue s <= pmax.

(** Between two season steps the residues have decayed at least once. *)
Definition state_ok : States -> Prop := state_bounds 28 37.5.

(** Inside a season step the residues may be at the full dose. *)
Definition state_dosed : States -> Prop := state_bounds 40 50.

(** The instance after the clamped additions of [update_populations]. *)
Definition grown (season : Season) (sim : Sim) : Sim :=
  apply_growth_rates (fst (calculate_growth_rates season sim))
                     (snd (calculate_growth_rates season sim)).

(** What the recorded values satisfy when every recorded state satisfied
    [state_ok]. *)
Definition history_ok (h : History) : Prop :=
  Forall (fun x => 0 <= x) (h_crop h) /\
  Forall (fun x => 0 <= x) (h_weed h) /\
  Forall (fun x => 0 <= x) (h_pest h) /\
  Forall (fun x => 0 <= x <= 20) (h_bird h) /\
  Forall (fun x => 0 <= x <= 15) (h_bat h) /\
  Forall (fun x => 0 <= x) (h_soil_nutrient h) /\
  Forall (fun x => 0 <= x) (h_soil_health h) /\
  Forall (fun x => 0 <= x <= 28) (h_herbicide_residue h) /\
  Forall (fun x => 0 <= x <= 37.5) (h_pesticide_residue h).

Definition sim_ok (sim : Sim) : Prop :=
  state_ok (states sim) /\ history_ok (history sim).

(** A state whose pest level is above the pesticide threshold and whose
    weed level is above the herbicide threshold, under conventional
    farming. *)
Definition infested_sim : Sim :=
  mkSim (mkScenario true true true false false (Some false) (Some false)
                    None None)
        0%Z (set_pest 10 INITIAL_STATES) empty_history.

(** The invariant of a run once birds are there. *)
Definition birds_present (sim : Sim) : Prop :=
  sim_ok sim /\
  0 < bird (states sim) /\
  Forall (fun x => 0 < x) (h_bird (history sim)).

(** * Further notions: whole runs *)

(** Field-wise concatenation of two histories. *)
Definition history_app (h d : History) : History :=
  {| h_crop := h_crop h ++ h_crop d;
     h_weed := h_weed h ++ h_weed d;
     h_pest := h_pest h ++ h_pest d;
     h_bird := h_bird h ++ h_bird d;
     h_bat := h_bat h ++ h_bat d;
     h_soil_nutrient := h_soil_nutrient h ++ h_soil_nutrient d;
     h_soil_health := h_soil_health h ++ h_soil_health d;
     h_herbicide_residue := h_herbicide_residue h ++ h_herbicide_residue d;
     h_pesticide_residue := h_pesticide_residue h ++ h_pesticide_residue d;
     h_year := h_year h ++ h_year d;
     h_season := h_season h ++ h_season d |}.

(** The one-entry history that [record_state] appends. *)
Definition snapshot (season : Season) (sim : Sim) : History :=
  let s := states sim in
  {| h_crop := [crop s];
     h_weed := [weed s];
     h_pest := [pest s];
     h_bird := [bird s];
     h_bat := [bat s];
     h_soil_nutrient := [soil_nutrient s];
     h_soil_health := [soil_health s];
     h_herbicide_residue := [herbicide_residue s];
     h_pesticide_residue := [pesticide_residue s];
     h_year := [year sim];
     h_season := [season] |}.

(** Weed and pest below their carrying capacities, in a year that is not
    negative. *)
Definition capacity_ok (sim : Sim) : Prop :=
  (0 <= year sim)%Z /\
  weed (states sim) <= 100 /\ pest (states sim) <= 80.

(** The invariant behind the capacity bounds of a run. *)
Definition run_capacity_ok (sim : Sim) : Prop :=
  sim_ok sim /\ capacity_ok sim /\
  Forall (fun x => x <= 100) (h_weed (history sim)) /\
  Forall (fun x => x <= 80) (h_pest (history sim)).

(** Soil health in its range, now and in every record. *)
Definition soil_health_ok (sim : Sim) : Prop :=
  0 <= soil_health (states sim) <= 100 /\
  Forall (fun x => 0 <= x <= 100) (h_soil_health (history sim)).

(** The invariant of a run after its first spring: the crop stands above
    the planting level. *)
Definition crop_standing (sim : Sim) : Prop :=
  sim_ok sim /\
  80 < crop (states sim) /\
  Forall (fun x => 80 < x) (h_crop (history sim)).

(** The invariant of a run that never applies pesticide: the recorded
    predator series only go up. *)
Definition predators_rising (sim : Sim) : Prop :=
  sim_ok sim /\
  use_pesticide (scenario sim) = false /\
  Forall (fun x => x <= bird (states sim)) (h_bird (history sim)) /\
  Forall (fun x => x <= bat (states sim)) (h_bat (history sim)) /\
  StronglySorted Qle (h_bird (history sim)) /\
  StronglySorted Qle (h_bat (history sim)).

(** Whether the farming operations of a season step apply pesticide. *)
Definition pesticide_fires (season : Season) (sim : Sim) : bool :=
  match season with
  | summer => should_apply_chemical pesticide sim
  | _ => false
  end.

(** Whether the farming operations of a season step apply herbicide: the
    test is made after the pesticide statement. *)
Definition herbicide_fires (season : Season) (sim : Sim) : bool :=
  match season with
  | summer => should_apply_chemical herbicide (pesticide_stage sim)
  | _ => false
  end.

(** The invariant of a run once bats are there. *)
Definition bats_present (sim : Sim) : Prop :=
  sim_ok sim /\
  0 < bat (states sim) /\
  Forall (fun x => 0 < x) (h_bat (history sim)).

(** The invariant of a run without fertilizer: the nutrient level after
    [k] recorded season steps. *)
Definition nutrient_decayed (sim : Sim) : Prop :=
  use_fertilizer (scenario sim) = false /\
  soil_nutrient (states sim)
  == 50 * 0.9 ^ Z.of_nat (length (h_soil_nutrient (history sim))).

(** * Evaluation of a history ([Src/evaluation.py]) *)

(** ** numpy and list builtins *)

(** A float that came out of numpy: a number or [nan].  The functions
    below never divide by zero, so no infinity arises. *)
Inductive npfloat : Type :=
  | Fin (x : Q)
  | NaN.

Definition Qsum (l : list Q) : Q := fold_right Qplus 0 l.

(** [np.mean(l)] of a list of floats: [nan] on the empty list. *)
Definition np_mean (l : list Q) : npfloat :=
  match l with
  | [] => NaN
  | _ => Fin (Qsum l / inject_Z (Z.of_nat (length l)))
  end.

(** [x > t] and [x < t]: both false on [nan]. *)
Definition np_gt (x : npfloat) (t : Q) : bool :=
  match x with Fin q => Qltb t q | NaN => false end.

Definition np_lt (x : npfloat) (t : Q) : bool :=
  match x with Fin q => Qltb q t | NaN => false end.

(** [min(a, x)] with a plain number first: [x < a] is false on [nan], so
    the first argument is returned. *)
Definition py_min_np (a : Q) (x : npfloat) : Q :=
  match x with Fin q => py_min a q | NaN => a end.

(** [v[-n:]] for [n > 0]: the last [n] entries, or all of a shorter
    list. *)
Definition last_n {A : Type} (n : nat) (v : list A) : list A :=
  skipn (length v - n) v.

(** [v[-1]]: [None] is the IndexError on an empty list. *)
Definition py_last {A : Type} (v : list A) : option A :=
  match v with
  | [] => None
  | _ => nth_error v (length v - 1)
  end.

(** A list of results, or the first exception. *)
Fixpoint collect {A : Type} (l : list (option A)) : option (list A) :=
  match l with
  | [] => Some []
  | None :: _ => None
  | Some x :: l' =>
      match collect l' with
      | Some xs => Some (x :: xs)
      | None => None
      end
  end.

(** ** [extract_annual_data] *)

(** [[v[i * 4 + 3] for i in range(n_years)]]: [None] is the IndexError of
    an index past the end. *)
Definition annual_series {A : Type} (v : list A) (n_years : nat)
  : option (list A) :=
  collect (map (fun i => nth_error v (i * 4 + 3)) (seq 0 n_years)).

(** The dict comprehension over [history.items()]: the same eleven keys,
    each with its annual series. *)
Definition extract_annual_data (history : History) (n_years : nat)
  : option History :=
  match annual_series (h_crop history) n_years,
        annual_series (h_weed history) n_years,
        annual_series (h_pest history) n_years,
        annual_series (h_bird history) n_years,
        annual_series (h_bat history) n_years,
        annual_series (h_soil_nutrient history) n_years,
        annual_series (h_soil_health history) n_years,
        annual_series (h_herbicide_residue history) n_years,
        annual_series (h_pesticide_residue history) n_years,
        annual_series (h_year history) n_years,
        annual_series (h_season history) n_years with
  | Some c, Some w, Some p, Some b, Some t, Some sn, Some sh, Some hr,
    Some pr, Some y, Some s =>
      Some (mkHistory c w p b t sn sh hr pr y s)
  | _, _, _, _, _, _, _, _, _, _, _ => None
  end.

(** ** [calculate_economic_scores] *)

Module COST_FACTORS.
Definition herbicide : Z := 15.
Definition pesticide : Z := 20.
Definition bird : Z := 5.
Definition bat : Z := 3.
Definition labor : Z := 10.
End COST_FACTORS.

Record EconomicScores : Type := mkEconomicScores {
  yield : npfloat;
  cost_efficiency : Q
}.

(** The list summed into [costs]; the labor entry reads
    [annual_data['weed'][-1]] only when [use_herbicide] is off. *)
Definition cost_items (annual_data : History) (config : Scenario)
  : option (list Z) :=
  match
    (if negb (use_herbicide config) then
       match py_last (h_weed annual_data) with
       | Some w => Some (if Qltb 20 w then COST_FACTORS.labor else 0%Z)
       | None => None
       end
     else Some 0%Z)
  with
  | Some labor =>
      Some [ (if use_herbicide config then COST_FACTORS.herbicide else 0%Z);
             (if use_pesticide config then COST_FACTORS.pesticide else 0%Z);
             (if introduce_birds config then COST_FACTORS.bird else 0%Z);
             (if introduce_bats config then COST_FACTORS.bat else 0%Z);
             labor ]
  | None => None
  end.

Definition calculate_economic_scores (annual_data : History)
    (config : Scenario) : option EconomicScores :=
  let avg_yield := np_mean (last_n 10 (h_crop annual_data)) in
  match cost_items annual_data config with
  | Some items =>
      let costs := fold_right Z.add 0%Z items in
      let cost_efficiency :=
        match avg_yield with
        | Fin a =>
            if (0 <? costs)%Z
            then Fin (a / inject_Z costs * 10)
            else Fin (a * 15)
        | NaN => NaN
        end in
      Some {| yield := avg_yield;
              cost_efficiency := py_min_np 100 cost_efficiency |}
  | None => None
  end.

(** ** [calculate_productivity_change] *)


(** ** [generate_evaluation_summary] *)

Module THRESHOLDS.
Definition high_stability : Q := 80.
Definition low_stability : Q := 60.
Definition high_biodiversity : Q := 70.
Definition low_biodiversity : Q := 40.
End THRESHOLDS.

(** The three scores the summary reads:
    [scores['ecological']['productivity_stability']],
    [scores['ecological']['biodiversity']] and
    [scores['sustainability']['soil_trend']]. *)
Definition summaries (stability biodiversity soil_trend : npfloat)
  : list String.string :=
  (if np_gt stability THRESHOLDS.high_stability
   then ["Highly stable yield"%string]
   else if np_lt stability THRESHOLDS.low_stability
        then ["Significant yield fluctuation"%string]
        else [])
  ++ (if np_gt biodiversity THRESHOLDS.high_biodiversity
      then ["Good biodiversity"%string]
      else if np_lt biodiversity THRESHOLDS.low_biodiversity
           then ["Insufficient biodiversity"%string]
           else [])
  ++ (if np_gt soil_trend 0.5
      then ["Soil health improving"%string]
      else if np_lt soil_trend (-0.5)
           then ["Soil degradation"%string]
           else []).

Definition generate_evaluation_summary
    (stability biodiversity soil_trend : npfloat) : String.string :=
  match summaries stability biodiversity soil_trend with
  | [] => "System status average"%string
  | l => String.concat "; "%string l
  end.

(** * Properties *)

(** ** The builtins *)

Lemma Qltb_true (a b : Q) : Qltb a b = true <-> a < b.
Proof.
  unfold Qltb. rewrite Qlt_alt.
  destruct (a ?= b); split; congruence.
Qed.

Lemma Qltb_false (a b : Q) : Qltb a b = false <-> b <= a.
Proof.
  unfold Qltb. rewrite Qle_alt, <- Qgt_alt, Qlt_alt.
  destruct (a ?= b); split; congruence.
Qed.

Lemma Qltb_cases (a b : Q) :
  (Qltb a b = true /\ a < b) \/ (Qltb a b = false /\ b <= a).
Proof.
  destruct (Qltb a b) eqn:E.
  - left. split; [reflexivity | now apply Qltb_true].
  - right. split; [reflexivity | now apply Qltb_false].
Qed.

Lemma py_max_cases (a b : Q) :
  (a < b /\ py_max a b = b) \/ (b <= a /\ py_max a b = a).
Proof.
  unfold py_max.
  destruct (Qltb_cases a b) as [[E H] | [E H]]; rewrite E; auto.
Qed.

Lemma py_min_cases (a b : Q) :
  (b < a /\ py_min a b = b) \/ (a <= b /\ py_min a b = a).
Proof.
  unfold py_min.
  destruct (Qltb_cases b a) as [[E H] | [E H]]; rewrite E; auto.
Qed.

Lemma py_max_lower (a b : Q) : a <= py_max a b.
Proof. destruct (py_max_cases a b) as [[H E] | [H E]]; rewrite E; lra. Qed.

Lemma py_max_ge_arg (a b : Q) : b <= py_max a b.
Proof. destruct (py_max_cases a b) as [[H E] | [H E]]; rewrite E; lra. Qed.

Lemma py_min_upper (a b : Q) : py_min a b <= a.
Proof. destruct (py_min_cases a b) as [[H E] | [H E]]; rewrite E; lra. Qed.

Lemma py_min_le_arg (a b : Q) : py_min a b <= b.
Proof. destruct (py_min_cases a b) as [[H E] | [H E]]; rewrite E; lra. Qed.

Lemma py_min_glb (a b c : Q) : c <= a -> c <= b -> c <= py_min a b.
Proof.
  intros. destruct (py_min_cases a b) as [[H' E] | [H' E]]; rewrite E; lra.
Qed.

Lemma py_max_lub (a b c : Q) : a <= c -> b <= c -> py_max a b <= c.
Proof.
  intros. destruct (py_max_cases a b) as [[H' E] | [H' E]]; rewrite E; lra.
Qed.

Lemma py_max_is_Qmax (a b : Q) : py_max a b == Qmax a b.
Proof.
  destruct (py_max_cases a b) as [[H E] | [H E]]; rewrite E.
  - symmetry. apply Q.max_r. lra.
  - symmetry. apply Q.max_l. lra.
Qed.

Lemma py_min_is_Qmin (a b : Q) : py_min a b == Qmin a b.
Proof.
  destruct (py_min_cases a b) as [[H E] | [H E]]; rewrite E.
  - symmetry. apply Q.min_r. lra.
  - symmetry. apply Q.min_l. lra.
Qed.

#[export] Instance py_max_proper : Proper (Qeq ==> Qeq ==> Qeq) py_max.
Proof.
  intros a a' Ha b b' Hb.
  rewrite !py_max_is_Qmax. now rewrite Ha, Hb.
Qed.

#[export] Instance py_min_proper : Proper (Qeq ==> Qeq ==> Qeq) py_min.
Proof.
  intros a a' Ha b b' Hb.
  rewrite !py_min_is_Qmin. now rewrite Ha, Hb.
Qed.

(** Division by a numeric literal, as a multiplication. *)
Ltac div_consts :=
  unfold Qdiv in *;
  repeat match goal with
  | |- context [Qinv (?n # ?d)] =>
      let v := eval vm_compute in (Qinv (n # d)) in
      change (Qinv (n # d)) with v
  | H : context [Qinv (?n # ?d)] |- _ =>
      let v := eval vm_compute in (Qinv (n # d)) in
      change (Qinv (n # d)) with v in H
  end.

(** Unfolds the operations of the model down to field arithmetic. *)
Ltac unfold_ops :=
  cbv beta iota zeta delta
    [with_states set_crop set_weed set_pest set_bird set_bat
     set_soil_nutrient set_soil_health set_herbicide_residue
     set_pesticide_residue scenario year states history
     crop weed pest bird bat soil_nutrient soil_health
     herbicide_residue pesticide_residue
     use_fertilizer use_herbicide use_pesticide introduce_birds
     introduce_bats use_organic_fertilizer use_cover_crop
     herbicide_stop_year pesticide_stop_year
     PARAMS.r_crop PARAMS.r_weed PARAMS.r_pest PARAMS.r_bird PARAMS.r_bat
     PARAMS.K_crop PARAMS.K_weed PARAMS.K_pest PARAMS.K_bird PARAMS.K_bat
     PARAMS.pest_on_crop PARAMS.crop_weed_comp
     PARAMS.herbicide_decay PARAMS.pesticide_decay
     PARAMS.organic_fertilizer_effect PARAMS.chemical_fertilizer_effect
     PARAMS.herbicide_effect PARAMS.pesticide_effect
     PARAMS.predator_pesticide_mortality] in *.

(** ** Creation *)

(** C10: for every scenario configuration, a freshly created simulation
    holds the fixed initial state (crop 0, weed 30, pest 5, bird 0, bat 0,
    soil_nutrient 50, soil_health 50, both residues 0), its year is 0 and
    the history of every field, of the year and of the season is empty. *)
Theorem init_fixed_initial_state (scenario_config : Scenario) :
  let sim := init scenario_config in
  scenario sim = scenario_config /\
  year sim = 0%Z /\
  crop (states sim) = 0.0 /\ weed (states sim) = 30.0 /\
  pest (states sim) = 5.0 /\ bird (states sim) = 0.0 /\
  bat (states sim) = 0.0 /\ soil_nutrient (states sim) = 50.0 /\
  soil_health (states sim) = 50.0 /\
  herbicide_residue (states sim) = 0.0 /\
  pesticide_residue (states sim) = 0.0 /\
  h_crop (history sim) = [] /\ h_weed (history sim) = [] /\
  h_pest (history sim) = [] /\ h_bird (history sim) = [] /\
  h_bat (history sim) = [] /\ h_soil_nutrient (history sim) = [] /\
  h_soil_health (history sim) = [] /\
  h_herbicide_residue (history sim) = [] /\
  h_pesticide_residue (history sim) = [] /\
  h_year (history sim) = [] /\ h_season (history sim) = [].
Proof. cbn. repeat split; reflexivity. Qed.

(** ** Summer: chemical application *)

Lemma stop_test_true (stop_year : option Z) (y : Z) :
  match stop_year with None => true | Some stop => (y <? stop)%Z end = true
  <-> before_stop stop_year y.
Proof.
  unfold before_stop. destruct stop_year as [stop|].
  - rewrite Z.ltb_lt. split.
    + intros H. right. exists stop. auto.
    + intros [H | [stop' [H1 H2]]]; [discriminate | congruence].
  - split; auto.
Qed.

Lemma should_apply_pesticide_iff (sim : Sim) :
  should_apply_chemical pesticide sim = true <->
  use_pesticide (scenario sim) = true /\
  8 < pest (states sim) /\
  before_stop (pesticide_stop_year (scenario sim)) (year sim).
Proof.
  unfold should_apply_chemical.
  rewrite !andb_true_iff, Qltb_true, stop_test_true. tauto.
Qed.

Lemma should_apply_herbicide_iff (sim : Sim) :
  should_apply_chemical herbicide sim = true <->
  use_herbicide (scenario sim) = true /\
  15 < weed (states sim) /\
  before_stop (herbicide_stop_year (scenario sim)) (year sim).
Proof.
  unfold should_apply_chemical.
  rewrite !andb_true_iff, Qltb_true, stop_test_true. tauto.
Qed.

Lemma handle_summer_operations_stages (sim : Sim) :
  handle_summer_operations sim = weed_stage (pesticide_stage sim).
Proof. reflexivity. Qed.

(** The weed stage writes [weed] and [herbicide_residue] only. *)
Lemma weed_stage_frame (sim : Sim) :
  let s := states sim in
  let s' := states (weed_stage sim) in
  crop s' = crop s /\ pest s' = pest s /\ bird s' = bird s /\
  bat s' = bat s /\ soil_nutrient s' = soil_nutrient s /\
  soil_health s' = soil_health s /\
  pesticide_residue s' = pesticide_residue s.
Proof.
  destruct sim as [cfg y [c w p b t sn sh hr pr] h].
  unfold weed_stage, apply_organic_weed_control.
  destruct (should_apply_chemical herbicide _); cbn [apply_chemical].
  - unfold_ops. repeat split; reflexivity.
  - destruct cfg as [uf uh up ib it uof [[|]|] hs ps]; unfold_ops;
      destruct (Qltb 20 w); repeat split; reflexivity.
Qed.

(** The pesticide stage leaves the scenario, the year, and the fields of
    the weed stage alone. *)
Lemma pesticide_stage_frame (sim : Sim) :
  let sim' := pesticide_stage sim in
  scenario sim' = scenario sim /\ year sim' = year sim /\
  history sim' = history sim /\
  crop (states sim') = crop (states sim) /\
  weed (states sim') = weed (states sim) /\
  soil_nutrient (states sim') = soil_nutrient (states sim) /\
  soil_health (states sim') = soil_health (states sim) /\
  herbicide_residue (states sim') = herbicide_residue (states sim).
Proof.
  destruct sim as [cfg y [c w p b t sn sh hr pr] h].
  unfold pesticide_stage.
  destruct (should_apply_chemical pesticide _); cbn [apply_chemical];
    unfold_ops; repeat split; reflexivity.
Qed.

(** C1: in a summer step the pesticide is applied if and only if
    [use_pesticide] holds, the pest level is strictly above 8 and either no
    stop year is configured or the year is strictly below it; when it is
    applied, pesticide_residue becomes exactly 50, pest becomes 0.4 times
    its value before the application, and bird and bat become 0.7 times
    theirs; when it is not, these four fields are left as they were. *)
Theorem summer_pesticide_application (sim : Sim) :
  let s := states sim in
  let s' := states (seasonal_operations summer sim) in
  (should_apply_chemical pesticide sim = true <->
   use_pesticide (scenario sim) = true /\
   8 < pest s /\
   (pesticide_stop_year (scenario sim) = None \/
    exists stop,
      pesticide_stop_year (scenario sim) = Some stop /\
      (year sim < stop)%Z)) /\
  (if should_apply_chemical pesticide sim then
     pesticide_stage sim = apply_chemical pesticide sim /\
     pesticide_residue s' = 50 /\
     pest s' == pest s * 0.4 /\
     bird s' == bird s * 0.7 /\
     bat s' == bat s * 0.7
   else
     pesticide_stage sim = sim /\
     pesticide_residue s' = pesticide_residue s /\
     pest s' = pest s /\ bird s' = bird s /\ bat s' = bat s).
Proof.
  cbv zeta. cbn [seasonal_operations]. split.
  - apply should_apply_pesticide_iff.
  - rewrite handle_summer_operations_stages.
    destruct (weed_stage_frame (pesticide_stage sim))
      as (_ & Hp & Hb & Ht & _ & _ & Hr).
    rewrite Hp, Hb, Ht, Hr. clear Hp Hb Ht Hr.
    unfold pesticide_stage.
    destruct (should_apply_chemical pesticide sim).
    + destruct sim as [cfg y [c w p b t sn sh hr pr] h].
      cbn [apply_chemical]. unfold_ops.
      repeat split; try reflexivity; lra.
    + repeat split; reflexivity.
Qed.

(** ** Crop growth: the floor of the net rate *)

Lemma crop_pest_effect_cap (P : Q) : crop_pest_effect P <= 0.6.
Proof. apply py_min_upper. Qed.

Lemma crop_weed_effect_cap (W : Q) : crop_weed_effect W <= 0.5.
Proof. apply py_min_upper. Qed.

(** C2, counterexample: with crop 150, weed 30 and pest 60 the base rate is
    60 and both effects are at their caps, so the net value is the constant
    0.05, which is below 0.05 * base = 3. *)
Lemma net_floor_not_relative :
  crop_base 150 == 60 /\
  crop_net 150 30 60 == 0.05 /\
  ~ net_floored_relative_to_base 150 30 60.
Proof.
  split; [reflexivity | split; [reflexivity |]].
  unfold net_floored_relative_to_base. apply Qlt_not_le. reflexivity.
Qed.

(** C2, amended: the net value fed into the soil-health scaling is
    [max(0.05, base * (1 - pest_effect - weed_effect))] with the pest effect
    capped at 0.6 and the weed effect at 0.5; its floor is the constant
    0.05, whatever the base rate: for every state net >= 0.05, and net is
    the unfloored product whenever that product exceeds 0.05. *)
Theorem net_floor_absolute (sim : Sim) (C W P : Q) (season : Season) :
  let base := crop_base C in
  let pest_effect := crop_pest_effect P in
  let weed_effect := crop_weed_effect W in
  let net := crop_net C W P in
  base == PARAMS.r_crop * C * (1 - C / PARAMS.K_crop) /\
  pest_effect <= 0.6 /\
  weed_effect <= 0.5 /\
  0.05 <= net /\
  base * (1 - pest_effect - weed_effect) <= net /\
  (net == 0.05 \/ net == base * (1 - pest_effect - weed_effect)) /\
  exists soil_factor fertilizer_bonus,
    calculate_crop_growth sim C W P season =
    net * soil_factor + fertilizer_bonus.
Proof.
  cbv zeta. repeat split.
  - apply crop_pest_effect_cap.
  - apply crop_weed_effect_cap.
  - apply py_max_lower.
  - apply py_max_ge_arg.
  - unfold crop_net.
    destruct (py_max_cases 0.05
                (crop_base C * (1 - crop_pest_effect P - crop_weed_effect W)))
      as [[_ E] | [_ E]]; rewrite E; [right | left]; reflexivity.
  - unfold calculate_crop_growth. eauto.
Qed.

(** ** Summer: organic weed control *)

Lemma py_min_int_is_Zmin (a b : Z) : py_min_int a b = Z.min a b.
Proof. unfold py_min_int. destruct (Z.ltb_spec b a); lia. Qed.

Lemma mechanical_efficiency_ramp (y : Z) :
  (y <= 8)%Z -> mechanical_efficiency y == 0.25 + 0.03 * inject_Z y.
Proof.
  intros Hy. unfold mechanical_efficiency.
  rewrite py_min_int_is_Zmin, Z.min_r by assumption.
  rewrite Zle_Qle in Hy.
  destruct (py_min_cases 0.5 (0.25 + 0.03 * inject_Z y)) as [[H E] | [H E]];
    rewrite E; [reflexivity | ].
  change (inject_Z 8) with 8 in Hy. lra.
Qed.

Lemma mechanical_efficiency_late (y : Z) :
  (8 <= y)%Z -> mechanical_efficiency y == 0.49.
Proof.
  intros Hy. unfold mechanical_efficiency.
  rewrite py_min_int_is_Zmin, Z.min_l by assumption. reflexivity.
Qed.

Lemma organic_weed_closed_form (sim : Sim) :
  weed (states (apply_organic_weed_control sim)) == organic_weed_result sim /\
  herbicide_residue (states (apply_organic_weed_control sim)) =
  herbicide_residue (states sim).
Proof.
  destruct sim as [cfg y [c w p b t sn sh hr pr] h].
  unfold apply_organic_weed_control, organic_weed_result.
  destruct cfg as [uf uh up ib it uof [[|]|] hs ps]; unfold_ops;
    destruct (Qltb 20 w); unfold_ops;
    (split; [apply py_max_proper; [reflexivity | ring] | reflexivity]).
Qed.

(** C3, counterexample: in year 8 with weed = 30 > 20 mechanical weeding
    fires with efficiency 0.25 + 0.03 * 8 = 0.49, not 0.5, and leaves
    30 * 0.51 = 15.3 of the weed. *)
Lemma mechanical_plateau_is_not_half :
  (8 <= year year8_sim)%Z /\
  20 < weed (states year8_sim) /\
  ~ mechanical_efficiency (year year8_sim) == 0.5 /\
  weed (states (apply_organic_weed_control year8_sim)) == 15.3.
Proof.
  split; [cbn; lia |].
  split; [reflexivity |].
  split; [| reflexivity].
  intros H. vm_compute in H. discriminate.
Qed.

(** C3, amended: the mechanical-weeding efficiency equals
    min(0.5, 0.25 + 0.03 * min(8, year)); it ramps up over the first 8
    years and then plateaus at 0.49: for every year y >= 8 in which
    mechanical weeding fires (weed > 20) the efficiency applied is 0.49,
    and the cap 0.5 is never reached. *)
Theorem mechanical_efficiency_plateau (sim : Sim) :
  let y := year sim in
  mechanical_efficiency y
    == Qmin 0.5 (0.25 + 0.03 * inject_Z (Z.min 8 y)) /\
  mechanical_efficiency y < 0.5 /\
  ((y <= 8)%Z -> mechanical_efficiency y == 0.25 + 0.03 * inject_Z y) /\
  ((8 <= y)%Z ->
   mechanical_efficiency y == 0.49 /\
   (20 < weed (states sim) ->
    weed (states (apply_organic_weed_control sim)) ==
    py_max 0
      (weed (states sim) * (1 - 0.49)
       * match use_cover_crop (scenario sim) with
         | Some true => 0.8
         | _ => 1
         end
       * (1 - py_min 0.3 (crop (states sim) * 0.001))))).
Proof.
  cbv zeta. split; [| split; [| split]].
  - unfold mechanical_efficiency.
    now rewrite py_min_is_Qmin, py_min_int_is_Zmin.
  - destruct (Z.le_ge_cases (year sim) 8) as [H | H].
    + rewrite (mechanical_efficiency_ramp _ H).
      rewrite Zle_Qle in H. change (inject_Z 8) with 8 in H. lra.
    + rewrite (mechanical_efficiency_late _ H). reflexivity.
  - apply mechanical_efficiency_ramp.
  - intros H. split; [now apply mechanical_efficiency_late |].
    intros Hw.
    destruct (organic_weed_closed_form sim) as [E _]. rewrite E.
    unfold organic_weed_result.
    apply Qltb_true in Hw. rewrite Hw.
    apply py_max_proper; [reflexivity |].
    now rewrite (mechanical_efficiency_late _ H).
Qed.

Lemma mechanical_efficiency_plateau_witness :
  mechanical_efficiency 8 == 0.49 /\
  weed (states (apply_organic_weed_control year8_sim)) ==
  py_max 0 (30 * (1 - 0.49) * 1 * (1 - py_min 0.3 (0 * 0.001))).
Proof.
  destruct (mechanical_efficiency_plateau year8_sim) as (_ & _ & _ & H).
  destruct (H ltac:(cbn; lia)) as [H1 H2].
  split; [exact H1 |].
  rewrite (H2 ltac:(reflexivity)). reflexivity.
Defined.

(** C4: in a summer step exactly one of herbicide application and organic
    weed control runs, chosen by herbicide eligibility alone
    ([use_herbicide], weed > 15, stop-year test); when herbicide is not
    eligible, whatever the reason, organic weed control runs: mechanical
    weeding if weed > 20, then the cover-crop factor 0.8 if
    [use_cover_crop], then the factor 1 - min(0.3, crop * 0.001), then the
    clamp at 0. *)
Theorem summer_weed_control_exclusive (sim : Sim) :
  let sim1 := pesticide_stage sim in
  let s := states sim in
  let s' := states (seasonal_operations summer sim) in
  let w := weed s in
  (should_apply_chemical herbicide sim1 = true <->
   use_herbicide (scenario sim) = true /\
   15 < w /\
   (herbicide_stop_year (scenario sim) = None \/
    exists stop,
      herbicide_stop_year (scenario sim) = Some stop /\
      (year sim < stop)%Z)) /\
  (if should_apply_chemical herbicide sim1 then
     seasonal_operations summer sim = apply_chemical herbicide sim1 /\
     herbicide_residue s' = 40 /\
     weed s' == w * (1 - 0.7)
   else
     seasonal_operations summer sim = apply_organic_weed_control sim1 /\
     herbicide_residue s' = herbicide_residue s /\
     weed s' ==
     py_max 0
       (((w * (if Qltb 20 w
               then 1 - mechanical_efficiency (year sim)
               else 1))
         * match use_cover_crop (scenario sim) with
           | Some true => 0.8
           | _ => 1
           end)
        * (1 - py_min 0.3 (crop s * 0.001)))).
Proof.
  cbv zeta. cbn [seasonal_operations].
  destruct (pesticide_stage_frame sim)
    as (Hcfg & Hy & _ & Hc & Hw & _ & _ & Hr).
  split.
  - rewrite should_apply_herbicide_iff, Hcfg, Hy, Hw. reflexivity.
  - rewrite handle_summer_operations_stages. unfold weed_stage.
    destruct (should_apply_chemical herbicide (pesticide_stage sim)).
    + split; [reflexivity |]. rewrite <- Hw.
      destruct (pesticide_stage sim) as [cfg y [c w p b t sn sh hr pr] h].
      cbn [apply_chemical]. unfold_ops. split; reflexivity.
    + split; [reflexivity |].
      destruct (organic_weed_closed_form (pesticide_stage sim)) as [E1 E2].
      rewrite E1, E2. unfold organic_weed_result.
      rewrite Hcfg, Hy, Hw, Hc, Hr. split; reflexivity.
Qed.

(** ** Spring: fertilizer *)

(** C6: after a fertilizer operation started with soil_health in [0, 100],
    soil_health is in [0, 100] again: the organic branch yields
    min(100, soil_health + 2) and adds 15 to soil_nutrient, the chemical
    branch yields max(0, soil_health - 1) and adds 30 to soil_nutrient. *)
Theorem fertilizer_keeps_soil_health_in_range (sim : Sim) :
  0 <= soil_health (states sim) <= 100 ->
  let s := states sim in
  let s' := states (apply_fertilizer sim) in
  0 <= soil_health s' <= 100 /\
  match use_organic_fertilizer (scenario sim) with
  | Some true =>
      soil_health s' == Qmin 100 (soil_health s + 2) /\
      soil_nutrient s' = soil_nutrient s + 15
  | _ =>
      soil_health s' == Qmax 0 (soil_health s - 1) /\
      soil_nutrient s' = soil_nutrient s + 30
  end.
Proof.
  destruct sim as [cfg y [c w p b t sn sh hr pr] h].
  destruct cfg as [uf uh up ib it [[|]|] ucc hs ps];
    unfold apply_fertilizer; unfold_ops; intros [H0 H100];
    (split; [| split; [| reflexivity]]).
  - split; [apply py_min_glb; lra | apply py_min_upper].
  - apply py_min_is_Qmin.
  - split; [apply py_max_lower | apply py_max_lub; lra].
  - apply py_max_is_Qmax.
  - split; [apply py_max_lower | apply py_max_lub; lra].
  - apply py_max_is_Qmax.
Qed.

Lemma fertilizer_keeps_soil_health_in_range_witness :
  let sim :=
    init (mkScenario true true true false false (Some true) None None None) in
  0 <= soil_health (states (apply_fertilizer sim)) <= 100 /\
  soil_health (states (apply_fertilizer sim)) == 52 /\
  soil_nutrient (states (apply_fertilizer sim)) == 65.
Proof.
  cbv zeta.
  destruct (fertilizer_keeps_soil_health_in_range
              (init (mkScenario true true true false false (Some true)
                                None None None)))
    as [H1 [H2 H3]].
  - cbn. lra.
  - split; [exact H1 |]. split.
    + rewrite H2. reflexivity.
    + rewrite H3. reflexivity.
Defined.

(** ** What the operations leave alone *)

Lemma same_meta_refl (a : Sim) : same_meta a a.
Proof. repeat split. Qed.

Lemma same_meta_trans (a b c : Sim) :
  same_meta a b -> same_meta b c -> same_meta a c.
Proof.
  intros (H1 & H2 & H3) (H4 & H5 & H6).
  repeat split; congruence.
Qed.

Lemma with_states_meta (f : States -> States) (sim : Sim) :
  same_meta (with_states f sim) sim.
Proof. repeat split. Qed.

Create HintDb meta.
#[export] Hint Resolve same_meta_refl with_states_meta : meta.

Lemma apply_fertilizer_meta (sim : Sim) : same_meta (apply_fertilizer sim) sim.
Proof.
  unfold apply_fertilizer.
  destruct (use_organic_fertilizer (scenario sim)) as [[|]|]; auto with meta.
Qed.

Lemma handle_spring_operations_meta (sim : Sim) :
  same_meta (handle_spring_operations sim) sim.
Proof.
  unfold handle_spring_operations. cbv zeta.
  destruct (use_fertilizer _); [| auto with meta].
  eapply same_meta_trans; [apply apply_fertilizer_meta | auto with meta].
Qed.

Lemma apply_chemical_meta (chemical_type : Chemical) (sim : Sim) :
  same_meta (apply_chemical chemical_type sim) sim.
Proof. destruct chemical_type; cbn [apply_chemical]; auto with meta. Qed.

Lemma apply_organic_weed_control_meta (sim : Sim) :
  same_meta (apply_organic_weed_control sim) sim.
Proof.
  unfold apply_organic_weed_control. cbv zeta.
  do 2 (eapply same_meta_trans; [apply with_states_meta |]).
  match goal with
  | |- same_meta (if ?b then _ else _) _ => destruct b
  end;
    [eapply same_meta_trans; [apply with_states_meta |] |];
    destruct (Qltb 20 _); auto with meta.
Qed.

Lemma handle_summer_operations_meta (sim : Sim) :
  same_meta (handle_summer_operations sim) sim.
Proof.
  rewrite handle_summer_operations_stages.
  apply same_meta_trans with (b := pesticide_stage sim).
  - unfold weed_stage. destruct (should_apply_chemical herbicide _).
    + apply apply_chemical_meta.
    + apply apply_organic_weed_control_meta.
  - unfold pesticide_stage. destruct (should_apply_chemical pesticide _).
    + apply apply_chemical_meta.
    + apply same_meta_refl.
Qed.

Lemma seasonal_operations_meta (season : Season) (sim : Sim) :
  same_meta (seasonal_operations season sim) sim.
Proof.
  destruct season; cbn [seasonal_operations]; auto with meta.
  - apply handle_spring_operations_meta.
  - apply handle_summer_operations_meta.
Qed.

(** [update_populations], with the pair of [calculate_growth_rates] taken
    apart: growth with season scaling and clamping, then predator
    recovery. *)
Lemma update_populations_unfold (season : Season) (sim : Sim) :
  update_populations season sim =
  handle_predator_recovery
    (apply_growth_rates (fst (calculate_growth_rates season sim))
                        (snd (calculate_growth_rates season sim))).
Proof.
  unfold update_populations.
  destruct (calculate_growth_rates season sim) as [rates sim']. reflexivity.
Qed.

(** The instance returned by [calculate_growth_rates]: only weed may have
    been written, by the bird-rate computation. *)
Lemma calculate_growth_rates_sim (season : Season) (sim : Sim) :
  snd (calculate_growth_rates season sim) =
  if Qltb 0 (bird (states sim))
  then with_states
         (fun s =>
            set_weed
              (weed s * (1 - py_min 0.1 (bird (states sim) * 0.005))) s)
         sim
  else sim.
Proof.
  unfold calculate_growth_rates. cbv zeta.
  destruct (Qltb 0 (bird (states sim))); reflexivity.
Qed.

Lemma calculate_growth_rates_meta (season : Season) (sim : Sim) :
  same_meta (snd (calculate_growth_rates season sim)) sim.
Proof.
  rewrite calculate_growth_rates_sim.
  destruct (Qltb 0 _); auto with meta.
Qed.

Lemma update_predator_population_meta (predator : Predator) (sim : Sim) :
  same_meta (update_predator_population predator sim) sim.
Proof.
  unfold update_predator_population. cbv zeta.
  destruct (Qeq_bool _ 0); auto with meta.
Qed.

Lemma handle_predator_recovery_meta (sim : Sim) :
  same_meta (handle_predator_recovery sim) sim.
Proof.
  unfold handle_predator_recovery. cbv zeta.
  apply same_meta_trans
    with (b := if introduce_birds (scenario sim)
               then update_predator_population bird_p sim
               else sim).
  - destruct (introduce_bats _); auto with meta.
    apply update_predator_population_meta.
  - destruct (introduce_birds _); auto with meta.
    apply update_predator_population_meta.
Qed.

Lemma update_populations_meta (season : Season) (sim : Sim) :
  same_meta (update_populations season sim) sim.
Proof.
  rewrite update_populations_unfold.
  eapply same_meta_trans; [apply handle_predator_recovery_meta |].
  eapply same_meta_trans; [apply with_states_meta |].
  apply calculate_growth_rates_meta.
Qed.

Lemma update_chemicals_meta (sim : Sim) : same_meta (update_chemicals sim) sim.
Proof. apply with_states_meta. Qed.

Lemma before_record_meta (season : Season) (sim : Sim) :
  same_meta (before_record season sim) sim.
Proof.
  unfold before_record.
  eapply same_meta_trans; [apply update_chemicals_meta |].
  eapply same_meta_trans; [apply update_populations_meta |].
  apply seasonal_operations_meta.
Qed.

Lemma season_step_record (season : Season) (sim : Sim) :
  season_step season sim = record_state season (before_record season sim).
Proof. reflexivity. Qed.

Lemma season_step_scenario (season : Season) (sim : Sim) :
  scenario (season_step season sim) = scenario sim.
Proof.
  rewrite season_step_record. cbn [record_state scenario].
  apply before_record_meta.
Qed.

Lemma season_step_year (season : Season) (sim : Sim) :
  year (season_step season sim) = year sim.
Proof.
  rewrite season_step_record. cbn [record_state year].
  apply before_record_meta.
Qed.

Lemma season_step_states (season : Season) (sim : Sim) :
  states (season_step season sim) = states (before_record season sim).
Proof. reflexivity. Qed.

(** ** The driver: order of a season step, year counter, history length *)

Lemma season_step_labels (season : Season) (sim : Sim) :
  h_year (history (season_step season sim)) =
    h_year (history sim) ++ [year sim] /\
  h_season (history (season_step season sim)) =
    h_season (history sim) ++ [season].
Proof.
  rewrite season_step_record. cbn [record_state history h_year h_season].
  destruct (before_record_meta season sim) as (_ & Hy & Hh).
  now rewrite Hy, Hh.
Qed.

Lemma season_step_lengths (season : Season) (sim : Sim) :
  history_lengths (history (season_step season sim)) =
  map S (history_lengths (history sim)).
Proof.
  rewrite season_step_record.
  destruct (before_record_meta season sim) as (_ & _ & Hh).
  rewrite <- Hh.
  unfold history_lengths, record_state. cbn.
  now rewrite !last_length.
Qed.

Lemma run_seasons_cons (season : Season) (l : list Season) (sim : Sim) :
  run_seasons (season :: l) sim = run_seasons l (season_step season sim).
Proof. reflexivity. Qed.

Lemma run_seasons_nil (sim : Sim) : run_seasons [] sim = sim.
Proof. reflexivity. Qed.

Lemma next_year_fields (sim : Sim) :
  scenario (next_year sim) = scenario sim /\
  year (next_year sim) = (year sim + 1)%Z /\
  states (next_year sim) = states sim /\
  history (next_year sim) = history sim.
Proof. repeat split. Qed.

Lemma simulate_year_unfold (sim : Sim) :
  simulate_year sim =
  next_year
    (season_step winter
       (season_step autumn (season_step summer (season_step spring sim)))).
Proof.
  unfold simulate_year, SEASONS. cbv zeta.
  now rewrite !run_seasons_cons, run_seasons_nil.
Qed.

Lemma simulate_year_labels (sim : Sim) :
  year (simulate_year sim) = (year sim + 1)%Z /\
  h_year (history (simulate_year sim)) =
    h_year (history sim) ++ repeat (year sim) 4 /\
  h_season (history (simulate_year sim)) =
    h_season (history sim) ++ SEASONS.
Proof.
  rewrite simulate_year_unfold.
  match goal with
  | |- context [next_year ?s] =>
      destruct (next_year_fields s) as (_ & Hy & _ & Hh)
  end.
  rewrite Hy, Hh. clear Hy Hh.
  repeat match goal with
  | |- context [h_year (history (season_step ?x ?s))] =>
      rewrite (proj1 (season_step_labels x s))
  | |- context [h_season (history (season_step ?x ?s))] =>
      rewrite (proj2 (season_step_labels x s))
  end.
  rewrite !season_step_year, <- !app_assoc. repeat split.
Qed.

Lemma simulate_year_lengths (sim : Sim) :
  history_lengths (history (simulate_year sim)) =
  map (Nat.add 4) (history_lengths (history sim)).
Proof.
  rewrite simulate_year_unfold.
  match goal with
  | |- context [next_year ?s] =>
      destruct (next_year_fields s) as (_ & _ & _ & Hh)
  end.
  rewrite Hh, !season_step_lengths, !map_map. reflexivity.
Qed.

Lemma simulate_years_succ (n : nat) (sim : Sim) :
  simulate_years (S n) sim = simulate_year (simulate_years n sim).
Proof. reflexivity. Qed.

Lemma simulate_years_year (cfg : Scenario) (n : nat) :
  year (simulate_years n (init cfg)) = Z.of_nat n.
Proof.
  induction n as [| n IH]; [reflexivity |].
  rewrite simulate_years_succ.
  rewrite (proj1 (simulate_year_labels _)), IH. lia.
Qed.

(** C8, counterexample: predator recovery runs after the growth update, not
    before it with the policy engine.  In the first spring of a scenario
    that introduces birds the code records bird = 2.0 (growth sees no bird,
    recovery then seeds it); with recovery first, the seeded population
    would already have grown to 2.1512 in that step. *)
Lemma recovery_is_not_before_growth :
  h_bird (history (season_step spring (init birds_only))) = [2.0] /\
  bird (states (season_step_recovery_first spring (init birds_only)))
    == 2.1512 /\
  season_step spring (init birds_only)
    <> season_step_recovery_first spring (init birds_only).
Proof.
  split; [reflexivity |]. split; [vm_compute; reflexivity |].
  intros H.
  apply (f_equal (fun sim => Qred (bird (states sim)))) in H.
  vm_compute in H. discriminate.
Qed.

(** C8, amended: each simulated year executes the seasons spring, summer,
    autumn, winter in this order; within a season the order is farming
    operations, then the growth model with season scaling and clamping,
    then predator recovery, then chemical/soil decay, then one snapshot of
    the nine fields with the year and the season label; the year counter is
    incremented only after the four seasons, so the four snapshots of a
    year carry the same year; after N simulated years every list of the
    history holds exactly 4 * N entries. *)
Theorem year_order_and_history_length (scenario_config : Scenario) (N : nat) :
  (forall season sim,
     let sim1 := seasonal_operations season sim in
     let growth := calculate_growth_rates season sim1 in
     season_step season sim =
     record_state season
       (update_chemicals
          (handle_predator_recovery
             (apply_growth_rates (fst growth) (snd growth))))) /\
  (forall sim,
     let sim4 :=
       season_step winter
         (season_step autumn (season_step summer (season_step spring sim))) in
     simulate_year sim = next_year sim4 /\
     year sim4 = year sim /\
     year (simulate_year sim) = (year sim + 1)%Z /\
     h_year (history (simulate_year sim)) =
       h_year (history sim) ++ [year sim; year sim; year sim; year sim] /\
     h_season (history (simulate_year sim)) =
       h_season (history sim) ++ [spring; summer; autumn; winter]) /\
  let sim := simulate_years N (init scenario_config) in
  year sim = Z.of_nat N /\
  history_lengths (history sim) = repeat (4 * N)%nat 11 /\
  history_lengths (run_simulation scenario_config N) = repeat (4 * N)%nat 11.
Proof.
  split; [| split].
  - intros season sim. cbv zeta.
    unfold season_step. cbv zeta.
    now rewrite update_populations_unfold.
  - intros sim. cbv zeta.
    destruct (simulate_year_labels sim) as (Hn & Hy & Hs).
    rewrite !season_step_year.
    split; [apply simulate_year_unfold | auto].
  - cbv zeta. split; [apply simulate_years_year |].
    assert (H : history_lengths
                  (history (simulate_years N (init scenario_config)))
                = repeat (4 * N)%nat 11).
    { induction N as [| n IH]; [reflexivity |].
      rewrite simulate_years_succ, simulate_year_lengths, IH.
      cbn [repeat map].
      replace (4 + 4 * n)%nat with (4 * S n)%nat by lia. reflexivity. }
    split; exact H.
Qed.

(** ** Bounds kept by every season step *)

Lemma INITIAL_STATES_ok : state_ok INITIAL_STATES.
Proof. unfold state_ok, state_bounds. cbn. repeat split; lra. Qed.

Lemma season_factor_range (season : Season) :
  0 < SEASON_FACTORS season <= 1.2.
Proof. destruct season; cbn [SEASON_FACTORS]; lra. Qed.

(** One step of logistic growth with a rate coefficient [c] in [0, 1]
    neither decreases a population in [0, K] nor lifts it above [K]. *)
Lemma logistic_step (x K c : Q) :
  0 < K -> 0 <= x <= K -> 0 <= c <= 1 ->
  x <= x + c * (x * (1 - x / K)) <= K.
Proof.
  intros HK [Hx0 HxK] [Hc0 Hc1].
  assert (Hu : x == (x / K) * K) by (field; lra).
  set (u := x / K) in *.
  assert (Hu0 : 0 <= u) by nra.
  assert (Hu1 : u <= 1) by nra.
  assert (H1 : 0 <= x * (1 - u)) by nra.
  assert (H2 : 0 <= c * (x * (1 - u))) by nra.
  split; [lra |].
  assert (H3 : c * (x * (1 - u)) <= 1 * (x * (1 - u))) by nra.
  assert (H4 : x * (1 - u) <= K * (1 - u)) by nra.
  nra.
Qed.

Lemma logistic_growth_bounds (x r K m f : Q) :
  0 < K -> 0 <= x <= K -> 0 <= r * m * f <= 1 ->
  x <= x + r * x * (1 - x / K) * m * f <= K.
Proof.
  intros HK Hx Hc.
  assert (E : x + r * x * (1 - x / K) * m * f
              == x + (r * m * f) * (x * (1 - x / K))) by (field; lra).
  rewrite E. now apply logistic_step.
Qed.

(** The food effect [min(0.2, P / 50.0)] of the predator growth rates. *)
Lemma food_effect_range (P : Q) : 0 <= P -> 0 <= py_min 0.2 (P / 50.0) <= 0.2.
Proof.
  intros HP. split; [| apply py_min_upper].
  apply py_min_glb; [lra |]. div_consts. lra.
Qed.

(** The pest effect [min(0.3, pest / 100.0)] of predator recovery. *)
Lemma recovery_pest_effect_range (P : Q) :
  0 <= P -> 0 <= py_min 0.3 (P / 100.0) <= 0.3.
Proof.
  intros HP. split; [| apply py_min_upper].
  apply py_min_glb; [lra |]. div_consts. lra.
Qed.

(** *** Farming operations *)

Lemma handle_spring_operations_bounds (sim : Sim) :
  state_ok (states sim) -> state_dosed (states (handle_spring_operations sim)).
Proof.
  destruct sim as [cfg y [c w p b t sn sh hr pr] h].
  destruct cfg as [[|] uh up ib it [[|]|] ucc hs ps];
    unfold state_ok, state_dosed, state_bounds, handle_spring_operations,
      apply_fertilizer;
    unfold_ops; intros (Hc & Hw & Hp & Hb & Ht & Hsn & Hsh & Hhr & Hpr);
    repeat split;
    try lra; try apply py_max_lower; try (apply py_min_glb; lra).
Qed.

Lemma pesticide_stage_bounds (sim : Sim) :
  state_ok (states sim) -> state_bounds 28 50 (states (pesticide_stage sim)).
Proof.
  destruct sim as [cfg y [c w p b t sn sh hr pr] h].
  unfold pesticide_stage.
  destruct (should_apply_chemical pesticide _); cbn [apply_chemical];
    unfold state_ok, state_bounds; unfold_ops;
    intros (Hc & Hw & Hp & Hb & Ht & Hsn & Hsh & Hhr & Hpr);
    repeat split; lra.
Qed.

Lemma weed_stage_bounds (sim : Sim) :
  state_bounds 28 50 (states sim) -> state_dosed (states (weed_stage sim)).
Proof.
  intros (Hc & Hw & Hp & Hb & Ht & Hsn & Hsh & Hhr & Hpr).
  destruct (weed_stage_frame sim) as (Ec & Ep & Eb & Et & Esn & Esh & Epr).
  unfold state_dosed, state_bounds.
  rewrite Ec, Ep, Eb, Et, Esn, Esh, Epr.
  assert (Hweed : 0 <= weed (states (weed_stage sim))
                  /\ 0 <= herbicide_residue (states (weed_stage sim)) <= 40).
  { unfold weed_stage. destruct (should_apply_chemical herbicide sim).
    - destruct sim as [cfg y [c w p b t sn sh hr pr] h].
      cbn [apply_chemical]. unfold_ops. repeat split; lra.
    - destruct (organic_weed_closed_form sim) as [E1 E2].
      rewrite E1, E2. split; [apply py_max_lower | lra]. }
  repeat split; try tauto; lra.
Qed.

Lemma seasonal_operations_bounds (season : Season) (sim : Sim) :
  state_ok (states sim) ->
  state_dosed (states (seasonal_operations season sim)).
Proof.
  intros H. destruct season; cbn [seasonal_operations].
  - now apply handle_spring_operations_bounds.
  - rewrite handle_summer_operations_stages.
    now apply weed_stage_bounds, pesticide_stage_bounds.
  - unfold state_ok, state_dosed, state_bounds in *.
    repeat split; try tauto; lra.
  - unfold state_ok, state_dosed, state_bounds in *.
    repeat split; try tauto; lra.
Qed.

(** *** Growth with season scaling and clamping *)

Lemma calculate_growth_rates_bird (season : Season) (sim : Sim) :
  let B := bird (states sim) in
  let P := pest (states sim) in
  rate_bird (fst (calculate_growth_rates season sim)) =
  (if Qltb 0 B
   then PARAMS.r_bird * B * (1 - B / PARAMS.K_bird)
        * (1 + 0.5 * py_min 0.2 (P / 50.0))
   else 0) * SEASON_FACTORS season.
Proof.
  unfold calculate_growth_rates. cbv zeta.
  destruct (Qltb 0 (bird (states sim))); reflexivity.
Qed.

Lemma calculate_growth_rates_bat (season : Season) (sim : Sim) :
  let T := bat (states sim) in
  let P := pest (states sim) in
  rate_bat (fst (calculate_growth_rates season sim)) =
  (if Qltb 0 T
   then PARAMS.r_bat * T * (1 - T / PARAMS.K_bat)
        * (1 + 0.4 * py_min 0.2 (P / 50.0))
   else 0) * SEASON_FACTORS season.
Proof.
  unfold calculate_growth_rates. cbv zeta.
  destruct (Qltb 0 (bird (states sim))); reflexivity.
Qed.

(** The states handed to the clamped additions: every field but weed is
    as before the rate computation, and weed is still non-negative. *)
Lemma calculate_growth_rates_states (season : Season) (sim : Sim) :
  let s := states sim in
  let s' := states (snd (calculate_growth_rates season sim)) in
  crop s' = crop s /\ pest s' = pest s /\ bird s' = bird s /\
  bat s' = bat s /\ soil_nutrient s' = soil_nutrient s /\
  soil_health s' = soil_health s /\
  herbicide_residue s' = herbicide_residue s /\
  pesticide_residue s' = pesticide_residue s.
Proof.
  rewrite calculate_growth_rates_sim.
  destruct (Qltb 0 (bird (states sim))); repeat split.
Qed.

Lemma apply_growth_rates_fields (rates : Rates) (sim : Sim) :
  let s := states sim in
  let s' := states (apply_growth_rates rates sim) in
  crop s' = py_max 0 (crop s + rate_crop rates) /\
  weed s' = py_max 0 (weed s + rate_weed rates) /\
  pest s' = py_max 0 (pest s + rate_pest rates) /\
  bird s' = py_max 0 (bird s + rate_bird rates) /\
  bat s' = py_max 0 (bat s + rate_bat rates) /\
  soil_nutrient s' = soil_nutrient s /\
  soil_health s' = soil_health s /\
  herbicide_residue s' = herbicide_residue s /\
  pesticide_residue s' = pesticide_residue s.
Proof. repeat split. Qed.

Lemma grown_bird (season : Season) (sim : Sim) :
  state_dosed (states sim) ->
  bird (states sim) <= bird (states (grown season sim)) <= 20.
Proof.
  intros (_ & _ & Hp & Hb & _).
  unfold grown.
  destruct (apply_growth_rates_fields
              (fst (calculate_growth_rates season sim))
              (snd (calculate_growth_rates season sim)))
    as (_ & _ & _ & E & _).
  rewrite E. clear E.
  destruct (calculate_growth_rates_states season sim)
    as (_ & _ & E & _).
  rewrite E, calculate_growth_rates_bird. clear E. cbv zeta.
  set (b := bird (states sim)) in *.
  pose proof (food_effect_range _ Hp) as Hfe.
  set (fe := py_min 0.2 (pest (states sim) / 50.0)) in *.
  pose proof (season_factor_range season) as Hf.
  set (f := SEASON_FACTORS season) in *.
  unfold PARAMS.r_bird, PARAMS.K_bird.
  destruct (Qltb 0 b).
  - assert (H : b <= b + 0.1 * b * (1 - b / 20) * (1 + 0.5 * fe) * f <= 20).
    { apply logistic_growth_bounds; [lra | lra | nra]. }
    destruct (py_max_cases 0 (b + 0.1 * b * (1 - b / 20) * (1 + 0.5 * fe) * f))
      as [[H' E] | [H' E]]; rewrite E; lra.
  - destruct (py_max_cases 0 (b + 0 * f)) as [[H' E] | [H' E]];
      rewrite E; lra.
Qed.

Lemma grown_bat (season : Season) (sim : Sim) :
  state_dosed (states sim) ->
  bat (states sim) <= bat (states (grown season sim)) <= 15.
Proof.
  intros (_ & _ & Hp & _ & Ht & _).
  unfold grown.
  destruct (apply_growth_rates_fields
              (fst (calculate_growth_rates season sim))
              (snd (calculate_growth_rates season sim)))
    as (_ & _ & _ & _ & E & _).
  rewrite E. clear E.
  destruct (calculate_growth_rates_states season sim)
    as (_ & _ & _ & E & _).
  rewrite E, calculate_growth_rates_bat. clear E. cbv zeta.
  set (t := bat (states sim)) in *.
  pose proof (food_effect_range _ Hp) as Hfe.
  set (fe := py_min 0.2 (pest (states sim) / 50.0)) in *.
  pose proof (season_factor_range season) as Hf.
  set (f := SEASON_FACTORS season) in *.
  unfold PARAMS.r_bat, PARAMS.K_bat.
  destruct (Qltb 0 t).
  - assert (H : t <= t + 0.08 * t * (1 - t / 15) * (1 + 0.4 * fe) * f <= 15).
    { apply logistic_growth_bounds; [lra | lra | nra]. }
    destruct (py_max_cases 0 (t + 0.08 * t * (1 - t / 15) * (1 + 0.4 * fe) * f))
      as [[H' E] | [H' E]]; rewrite E; lra.
  - destruct (py_max_cases 0 (t + 0 * f)) as [[H' E] | [H' E]];
      rewrite E; lra.
Qed.

Lemma grown_bounds (season : Season) (sim : Sim) :
  state_dosed (states sim) -> state_dosed (states (grown season sim)).
Proof.
  intros H.
  pose proof (grown_bird season sim H) as Hb.
  pose proof (grown_bat season sim H) as Ht.
  destruct H as (_ & _ & _ & Hb0 & Ht0 & Hsn & Hsh & Hhr & Hpr).
  unfold grown in *.
  destruct (apply_growth_rates_fields
              (fst (calculate_growth_rates season sim))
              (snd (calculate_growth_rates season sim)))
    as (Ec & Ew & Ep & _ & _ & Esn & Esh & Ehr & Epr).
  destruct (calculate_growth_rates_states season sim)
    as (_ & _ & _ & _ & Fsn & Fsh & Fhr & Fpr).
  unfold state_dosed, state_bounds.
  rewrite Ec, Ew, Ep, Esn, Esh, Ehr, Epr, Fsn, Fsh, Fhr, Fpr.
  repeat split; try apply py_max_lower; lra.
Qed.

(** *** Predator recovery *)

Lemma update_predator_population_bird (sim : Sim) :
  let s := states sim in
  let s' := states (update_predator_population bird_p sim) in
  bird s' =
    (if Qeq_bool (bird s) 0 then 2.0
     else bird s
          + PARAMS.r_bird * bird s * (1 - bird s / PARAMS.K_bird)
            * (1 + py_min 0.3 (pest s / 100.0)) * 0.5) /\
  crop s' = crop s /\ weed s' = weed s /\ pest s' = pest s /\
  bat s' = bat s /\ soil_nutrient s' = soil_nutrient s /\
  soil_health s' = soil_health s /\
  herbicide_residue s' = herbicide_residue s /\
  pesticide_residue s' = pesticide_residue s.
Proof.
  unfold update_predator_population. cbv zeta.
  destruct (Qeq_bool (bird (states sim)) 0); repeat split.
Qed.

Lemma update_predator_population_bat (sim : Sim) :
  let s := states sim in
  let s' := states (update_predator_population bat_p sim) in
  bat s' =
    (if Qeq_bool (bat s) 0 then 1.5
     else bat s
          + PARAMS.r_bat * bat s * (1 - bat s / PARAMS.K_bat)
            * (1 + py_min 0.3 (pest s / 100.0)) * 0.5) /\
  crop s' = crop s /\ weed s' = weed s /\ pest s' = pest s /\
  bird s' = bird s /\ soil_nutrient s' = soil_nutrient s /\
  soil_health s' = soil_health s /\
  herbicide_residue s' = herbicide_residue s /\
  pesticide_residue s' = pesticide_residue s.
Proof.
  unfold update_predator_population. cbv zeta.
  destruct (Qeq_bool (bat (states sim)) 0); repeat split.
Qed.

(** Recovery of one predator: seeded when the population is zero, one
    half logistic step otherwise. *)
Lemma recovery_value_range (x r K seed P : Q) :
  0 < K -> 0 <= x <= K -> 0 < seed <= K -> 0 <= P ->
  0 <= r * 1.3 * 0.5 <= 1 -> 0 <= r ->
  let x' :=
    if Qeq_bool x 0 then seed
    else x + r * x * (1 - x / K) * (1 + py_min 0.3 (P / 100.0)) * 0.5 in
  0 <= x' <= K /\ (0 < x -> x <= x').
Proof.
  intros HK Hx Hseed HP Hr Hr0. cbv zeta.
  pose proof (recovery_pest_effect_range _ HP) as Hpe.
  set (pe := py_min 0.3 (P / 100.0)) in *.
  assert (H : x <= x + r * x * (1 - x / K) * (1 + pe) * 0.5 <= K).
  { apply logistic_growth_bounds; [lra | lra | nra]. }
  destruct (Qeq_bool x 0) eqn:E.
  - apply Qeq_bool_iff in E. split; [lra | intros; lra].
  - split; [lra | intros; lra].
Qed.

Lemma handle_predator_recovery_fields (sim : Sim) :
  let s := states sim in
  let s' := states (handle_predator_recovery sim) in
  bird s' =
    (if introduce_birds (scenario sim)
     then bird (states (update_predator_population bird_p sim))
     else bird s) /\
  bat s' =
    (if introduce_bats (scenario sim)
     then (if Qeq_bool (bat s) 0 then 1.5
           else bat s
                + PARAMS.r_bat * bat s * (1 - bat s / PARAMS.K_bat)
                  * (1 + py_min 0.3 (pest s / 100.0)) * 0.5)
     else bat s) /\
  crop s' = crop s /\ weed s' = weed s /\ pest s' = pest s /\
  soil_nutrient s' = soil_nutrient s /\
  soil_health s' = soil_health s /\
  herbicide_residue s' = herbicide_residue s /\
  pesticide_residue s' = pesticide_residue s.
Proof.
  unfold handle_predator_recovery. cbv zeta.
  destruct (introduce_birds (scenario sim)) eqn:Eb.
  - destruct (update_predator_population_meta bird_p sim) as (Hcfg & _ & _).
    rewrite Hcfg.
    destruct (update_predator_population_bird sim)
      as (Fb & Fc & Fw & Fp & Ft & Fsn & Fsh & Fhr & Fpr).
    destruct (introduce_bats (scenario sim)).
    + destruct (update_predator_population_bat
                  (update_predator_population bird_p sim))
        as (Gt & Gc & Gw & Gp & Gb & Gsn & Gsh & Ghr & Gpr).
      rewrite Gt, Gc, Gw, Gp, Gb, Gsn, Gsh, Ghr, Gpr.
      rewrite Fc, Fw, Fp, Ft, Fsn, Fsh, Fhr, Fpr.
      repeat split.
    + rewrite Fc, Fw, Fp, Ft, Fsn, Fsh, Fhr, Fpr. repeat split.
  - destruct (introduce_bats (scenario sim)).
    + destruct (update_predator_population_bat sim)
        as (Gt & Gc & Gw & Gp & Gb & Gsn & Gsh & Ghr & Gpr).
      rewrite Gt, Gc, Gw, Gp, Gb, Gsn, Gsh, Ghr, Gpr. repeat split.
    + repeat split.
Qed.

Lemma handle_predator_recovery_bounds (sim : Sim) :
  state_dosed (states sim) ->
  state_dosed (states (handle_predator_recovery sim)) /\
  (0 < bird (states sim) ->
   bird (states sim) <= bird (states (handle_predator_recovery sim))).
Proof.
  intros (Hc & Hw & Hp & Hb & Ht & Hsn & Hsh & Hhr & Hpr).
  destruct (handle_predator_recovery_fields sim)
    as (Eb & Et & Ec & Ew & Ep & Esn & Esh & Ehr & Epr).
  destruct (update_predator_population_bird sim) as (Fb & _).
  rewrite Fb in Eb. clear Fb.
  pose proof (recovery_value_range (bird (states sim)) PARAMS.r_bird
                PARAMS.K_bird 2.0 (pest (states sim))) as Rb.
  pose proof (recovery_value_range (bat (states sim)) PARAMS.r_bat
                PARAMS.K_bat 1.5 (pest (states sim))) as Rt.
  cbv zeta in Rb, Rt.
  unfold PARAMS.r_bird, PARAMS.K_bird in Rb, Eb.
  unfold PARAMS.r_bat, PARAMS.K_bat in Rt, Et.
  destruct Rb as [Rb1 Rb2]; try lra.
  destruct Rt as [Rt1 Rt2]; try lra.
  unfold state_dosed, state_bounds.
  rewrite Eb, Et, Ec, Ew, Ep, Esn, Esh, Ehr, Epr.
  destruct (introduce_birds (scenario sim));
    destruct (introduce_bats (scenario sim));
    (split; [repeat split; lra | intros; try apply Rb2; lra]).
Qed.

(** *** Decay *)

Lemma update_chemicals_fields (sim : Sim) :
  let s := states sim in
  let s' := states (update_chemicals sim) in
  crop s' = crop s /\ weed s' = weed s /\ pest s' = pest s /\
  bird s' = bird s /\ bat s' = bat s /\
  soil_nutrient s' = soil_nutrient s * 0.9 /\
  soil_health s' = soil_health s /\
  herbicide_residue s' =
    herbicide_residue s * (1 - PARAMS.herbicide_decay) /\
  pesticide_residue s' =
    pesticide_residue s * (1 - PARAMS.pesticide_decay).
Proof. repeat split. Qed.

Lemma update_chemicals_bounds (sim : Sim) :
  state_dosed (states sim) -> state_ok (states (update_chemicals sim)).
Proof.
  intros (Hc & Hw & Hp & Hb & Ht & Hsn & Hsh & Hhr & Hpr).
  destruct (update_chemicals_fields sim)
    as (Ec & Ew & Ep & Eb & Et & Esn & Esh & Ehr & Epr).
  unfold state_ok, state_bounds.
  rewrite Ec, Ew, Ep, Eb, Et, Esn, Esh, Ehr, Epr.
  unfold PARAMS.herbicide_decay, PARAMS.pesticide_decay.
  repeat split; lra.
Qed.

(** *** One season step *)

Lemma before_record_unfold (season : Season) (sim : Sim) :
  before_record season sim =
  update_chemicals
    (handle_predator_recovery
       (grown season (seasonal_operations season sim))).
Proof.
  unfold before_record, grown. now rewrite update_populations_unfold.
Qed.

Lemma before_record_bounds (season : Season) (sim : Sim) :
  state_ok (states sim) -> state_ok (states (before_record season sim)).
Proof.
  intros H. rewrite before_record_unfold.
  apply update_chemicals_bounds, handle_predator_recovery_bounds,
    grown_bounds, seasonal_operations_bounds, H.
Qed.

Lemma season_step_bounds (season : Season) (sim : Sim) :
  state_ok (states sim) -> state_ok (states (season_step season sim)).
Proof.
  rewrite season_step_states. apply before_record_bounds.
Qed.

(** ** Invariants of a run *)

Section Invariant.

Variable P : Sim -> Prop.
Hypothesis P_step : forall season sim, P sim -> P (season_step season sim).
Hypothesis P_next : forall sim, P sim -> P (next_year sim).

Lemma run_seasons_inv (l : list Season) (sim : Sim) :
  P sim -> P (run_seasons l sim).
Proof.
  revert sim. induction l as [| season l IH]; intros sim H.
  - now rewrite run_seasons_nil.
  - rewrite run_seasons_cons. apply IH, P_step, H.
Qed.

Lemma simulate_year_inv (sim : Sim) : P sim -> P (simulate_year sim).
Proof.
  intros H. unfold simulate_year. cbv zeta.
  apply P_next, run_seasons_inv, H.
Qed.

Lemma simulate_years_inv (n : nat) (sim : Sim) :
  P sim -> P (simulate_years n sim).
Proof.
  intros H. induction n as [| n IH]; [exact H |].
  rewrite simulate_years_succ. now apply simulate_year_inv.
Qed.

(** An invariant that holds at creation holds throughout. *)
Lemma after_inv (cfg : Scenario) (q r : nat) :
  P (init cfg) -> P (after cfg q r).
Proof.
  intros H. unfold after. now apply run_seasons_inv, simulate_years_inv.
Qed.

(** An invariant that holds after the first season step holds from then
    on. *)
Lemma after_inv_from_first (cfg : Scenario) (q r : nat) :
  P (season_step spring (init cfg)) ->
  (1 <= 4 * q + r)%nat ->
  P (after cfg q r).
Proof.
  intros H Hk. unfold after.
  destruct q as [| q].
  - destruct r as [| r]; [lia |].
    unfold SEASONS. rewrite firstn_cons, run_seasons_cons.
    change (simulate_years 0 (init cfg)) with (init cfg).
    now apply run_seasons_inv.
  - apply run_seasons_inv.
    induction q as [| q IH].
    + change (simulate_years 1 (init cfg)) with (simulate_year (init cfg)).
      unfold simulate_year, SEASONS. cbv zeta.
      rewrite run_seasons_cons.
      now apply P_next, run_seasons_inv.
    + rewrite simulate_years_succ. apply simulate_year_inv, IH. lia.
Qed.

End Invariant.

Lemma Forall_snoc {A : Type} (Q : A -> Prop) (l : list A) (x : A) :
  Forall Q l -> Q x -> Forall Q (l ++ [x]).
Proof. intros Hl Hx. apply Forall_app. auto. Qed.

Lemma record_state_ok (season : Season) (sim : Sim) :
  sim_ok sim -> sim_ok (record_state season sim).
Proof.
  intros [Hs Hh]. split; [exact Hs |].
  destruct Hs as (Hc & Hw & Hp & Hb & Ht & Hsn & Hsh & Hhr & Hpr).
  destruct Hh as (Gc & Gw & Gp & Gb & Gt & Gsn & Gsh & Ghr & Gpr).
  unfold history_ok, record_state.
  cbn [history h_crop h_weed h_pest h_bird h_bat h_soil_nutrient
       h_soil_health h_herbicide_residue h_pesticide_residue].
  repeat split; now apply Forall_snoc.
Qed.

Lemma init_ok (cfg : Scenario) : sim_ok (init cfg).
Proof.
  split; [apply INITIAL_STATES_ok |].
  unfold history_ok. cbn. repeat split; constructor.
Qed.

Lemma season_step_ok (season : Season) (sim : Sim) :
  sim_ok sim -> sim_ok (season_step season sim).
Proof.
  intros [Hs Hh]. rewrite season_step_record.
  apply record_state_ok. split.
  - now apply before_record_bounds.
  - destruct (before_record_meta season sim) as (_ & _ & E). now rewrite E.
Qed.

Lemma next_year_ok (sim : Sim) : sim_ok sim -> sim_ok (next_year sim).
Proof. intros H. exact H. Qed.

Lemma after_ok (cfg : Scenario) (q r : nat) : sim_ok (after cfg q r).
Proof.
  apply after_inv.
  - apply season_step_ok.
  - apply next_year_ok.
  - apply init_ok.
Qed.

(** ** Non-negativity *)

(** C5: for every scenario configuration, in the state reached after any
    number of full years and further season steps every one of the nine
    fields is >= 0, and so is every value recorded in the history; the
    growth update writes each of crop, weed, pest, bird and bat through
    max(0, .). *)
Theorem all_fields_nonnegative (scenario_config : Scenario) (q r : nat) :
  let sim := after scenario_config q r in
  let s := states sim in
  let h := history sim in
  (forall rates sim0,
     let s0 := states sim0 in
     let s1 := states (apply_growth_rates rates sim0) in
     crop s1 = py_max 0 (crop s0 + rate_crop rates) /\
     weed s1 = py_max 0 (weed s0 + rate_weed rates) /\
     pest s1 = py_max 0 (pest s0 + rate_pest rates) /\
     bird s1 = py_max 0 (bird s0 + rate_bird rates) /\
     bat s1 = py_max 0 (bat s0 + rate_bat rates)) /\
  (0 <= crop s /\ 0 <= weed s /\ 0 <= pest s /\ 0 <= bird s /\
   0 <= bat s /\ 0 <= soil_nutrient s /\ 0 <= soil_health s /\
   0 <= herbicide_residue s /\ 0 <= pesticide_residue s) /\
  (Forall (fun x => 0 <= x) (h_crop h) /\
   Forall (fun x => 0 <= x) (h_weed h) /\
   Forall (fun x => 0 <= x) (h_pest h) /\
   Forall (fun x => 0 <= x) (h_bird h) /\
   Forall (fun x => 0 <= x) (h_bat h) /\
   Forall (fun x => 0 <= x) (h_soil_nutrient h) /\
   Forall (fun x => 0 <= x) (h_soil_health h) /\
   Forall (fun x => 0 <= x) (h_herbicide_residue h) /\
   Forall (fun x => 0 <= x) (h_pesticide_residue h)).
Proof.
  cbv zeta.
  destruct (after_ok scenario_config q r) as [Hs Hh].
  destruct Hs as (Hc & Hw & Hp & Hb & Ht & Hsn & Hsh & Hhr & Hpr).
  destruct Hh as (Gc & Gw & Gp & Gb & Gt & Gsn & Gsh & Ghr & Gpr).
  split; [| split].
  - intros rates sim0. repeat split.
  - repeat split; tauto.
  - repeat split; try assumption;
      match goal with
      | H : Forall _ ?l |- Forall _ ?l =>
          refine (Forall_impl _ _ H); cbv beta; intros; tauto
      end.
Qed.

(** ** Residues in the history *)

(** Neither growth nor predator recovery writes a residue: what a season
    step records is the residue left by the farming operations, decayed
    once. *)
Lemma season_step_residues (season : Season) (sim : Sim) :
  let s1 := states (seasonal_operations season sim) in
  let s' := states (season_step season sim) in
  pesticide_residue s' =
    pesticide_residue s1 * (1 - PARAMS.pesticide_decay) /\
  herbicide_residue s' =
    herbicide_residue s1 * (1 - PARAMS.herbicide_decay).
Proof.
  cbv zeta. rewrite season_step_states, before_record_unfold.
  set (sim1 := seasonal_operations season sim).
  destruct (update_chemicals_fields
              (handle_predator_recovery (grown season sim1)))
    as (_ & _ & _ & _ & _ & _ & _ & Ehr & Epr).
  rewrite Ehr, Epr. clear Ehr Epr.
  destruct (handle_predator_recovery_fields (grown season sim1))
    as (_ & _ & _ & _ & _ & _ & _ & Ehr & Epr).
  rewrite Ehr, Epr. clear Ehr Epr.
  unfold grown.
  destruct (apply_growth_rates_fields
              (fst (calculate_growth_rates season sim1))
              (snd (calculate_growth_rates season sim1)))
    as (_ & _ & _ & _ & _ & _ & _ & Ehr & Epr).
  rewrite Ehr, Epr. clear Ehr Epr.
  destruct (calculate_growth_rates_states season sim1)
    as (_ & _ & _ & _ & _ & _ & Ehr & Epr).
  rewrite Ehr, Epr. split; reflexivity.
Qed.

Lemma apply_chemical_residue (sim : Sim) :
  pesticide_residue (states (apply_chemical pesticide sim)) = 50 /\
  herbicide_residue (states (apply_chemical herbicide sim)) = 40.
Proof. split; reflexivity. Qed.

(** C9: every recorded pesticide_residue is at most 37.5 and every recorded
    herbicide_residue at most 28: a dose of 50 or 40 set by the summer
    operations is decayed once, by 0.75 or 0.7, before the snapshot of
    that season is taken, so a summer step that applies pesticide records
    37.5 and one that applies herbicide records 28. *)
Theorem recorded_residues_decayed (scenario_config : Scenario) (q r : nat) :
  (forall sim,
     should_apply_chemical pesticide sim = true ->
     pesticide_residue (states (season_step summer sim)) == 37.5) /\
  (forall sim,
     should_apply_chemical herbicide (pesticide_stage sim) = true ->
     herbicide_residue (states (season_step summer sim)) == 28) /\
  let h := history (after scenario_config q r) in
  Forall (fun x => x <= 37.5) (h_pesticide_residue h) /\
  Forall (fun x => x <= 28) (h_herbicide_residue h).
Proof.
  split; [| split].
  - intros sim H.
    destruct (season_step_residues summer sim) as [E _].
    rewrite E. cbn [seasonal_operations].
    rewrite handle_summer_operations_stages.
    destruct (weed_stage_frame (pesticide_stage sim))
      as (_ & _ & _ & _ & _ & _ & F).
    rewrite F. unfold pesticide_stage. rewrite H.
    rewrite (proj1 (apply_chemical_residue sim)). reflexivity.
  - intros sim H.
    destruct (season_step_residues summer sim) as [_ E].
    rewrite E. cbn [seasonal_operations].
    rewrite handle_summer_operations_stages.
    unfold weed_stage. rewrite H.
    rewrite (proj2 (apply_chemical_residue (pesticide_stage sim))).
    reflexivity.
  - cbv zeta.
    destruct (after_ok scenario_config q r) as [_ Hh].
    destruct Hh as (_ & _ & _ & _ & _ & _ & _ & Ghr & Gpr).
    split.
    + refine (Forall_impl _ _ Gpr). cbv beta. intros; tauto.
    + refine (Forall_impl _ _ Ghr). cbv beta. intros; tauto.
Qed.

Lemma recorded_residues_decayed_witness :
  pesticide_residue (states (season_step summer infested_sim)) == 37.5 /\
  herbicide_residue (states (season_step summer infested_sim)) == 28.
Proof.
  destruct (recorded_residues_decayed (scenario infested_sim) 0 0)
    as (Hp & Hh & _).
  split.
  - apply Hp. reflexivity.
  - apply Hh. reflexivity.
Defined.

(** ** Introduction of birds *)

(** A population at zero is not touched by the summer operations or by
    growth, so recovery finds it at zero and seeds it. *)
Lemma first_step_seeds_birds (season : Season) (sim : Sim) :
  introduce_birds (scenario sim) = true ->
  bird (states sim) == 0 ->
  bird (states (season_step season sim)) = 2.0.
Proof.
  intros Hflag Hb.
  rewrite season_step_states, before_record_unfold.
  set (sim1 := seasonal_operations season sim).
  assert (H1 : bird (states sim1) == 0).
  { subst sim1. destruct season; cbn [seasonal_operations]; try exact Hb.
    - destruct sim as [cfg y [c w p b t sn sh hr pr] h].
      unfold handle_spring_operations, apply_fertilizer. cbv zeta.
      destruct (use_fertilizer _);
        [destruct (use_organic_fertilizer _) as [[|]|] |]; exact Hb.
    - rewrite handle_summer_operations_stages.
      destruct (weed_stage_frame (pesticide_stage sim))
        as (_ & _ & E & _).
      rewrite E. unfold pesticide_stage.
      destruct (should_apply_chemical pesticide sim); [| exact Hb].
      destruct sim as [cfg y [c w p b t sn sh hr pr] h].
      cbn [apply_chemical]. unfold_ops. lra. }
  assert (Hcfg : scenario (grown season sim1) = scenario sim).
  { unfold grown.
    destruct (calculate_growth_rates_meta season sim1) as (E & _).
    destruct (seasonal_operations_meta season sim) as (E' & _).
    cbn [apply_growth_rates with_states scenario].
    fold sim1 in E'. congruence. }
  assert (H2 : bird (states (grown season sim1)) == 0).
  { unfold grown.
    destruct (apply_growth_rates_fields
                (fst (calculate_growth_rates season sim1))
                (snd (calculate_growth_rates season sim1)))
      as (_ & _ & _ & E & _).
    rewrite E. clear E.
    destruct (calculate_growth_rates_states season sim1)
      as (_ & _ & E & _).
    rewrite E, calculate_growth_rates_bird. clear E. cbv zeta.
    assert (F : Qltb 0 (bird (states sim1)) = false)
      by (apply Qltb_false; lra).
    rewrite F.
    destruct (py_max_cases 0 (bird (states sim1) + 0 * SEASON_FACTORS season))
      as [[H' E] | [H' E]]; rewrite E; lra. }
  destruct (update_chemicals_fields
              (handle_predator_recovery (grown season sim1)))
    as (_ & _ & _ & E & _).
  rewrite E. clear E.
  destruct (handle_predator_recovery_fields (grown season sim1))
    as (E & _).
  rewrite E, Hcfg, Hflag. clear E.
  destruct (update_predator_population_bird (grown season sim1)) as (E & _).
  rewrite E. clear E.
  apply Qeq_bool_iff in H2. now rewrite H2.
Qed.

(** A positive bird population stays positive through a season step. *)
Lemma bird_stays_positive (season : Season) (sim : Sim) :
  state_ok (states sim) ->
  0 < bird (states sim) ->
  0 < bird (states (season_step season sim)).
Proof.
  intros Hok Hb.
  rewrite season_step_states, before_record_unfold.
  set (sim1 := seasonal_operations season sim).
  pose proof (seasonal_operations_bounds season sim Hok) as Hok1.
  fold sim1 in Hok1.
  assert (H1 : 0 < bird (states sim1)).
  { subst sim1. destruct season; cbn [seasonal_operations]; try exact Hb.
    - destruct sim as [cfg y [c w p b t sn sh hr pr] h].
      unfold handle_spring_operations, apply_fertilizer. cbv zeta.
      destruct (use_fertilizer _);
        [destruct (use_organic_fertilizer _) as [[|]|] |]; exact Hb.
    - rewrite handle_summer_operations_stages.
      destruct (weed_stage_frame (pesticide_stage sim))
        as (_ & _ & E & _).
      rewrite E. unfold pesticide_stage.
      destruct (should_apply_chemical pesticide sim); [| exact Hb].
      destruct sim as [cfg y [c w p b t sn sh hr pr] h].
      cbn [apply_chemical]. unfold_ops. lra. }
  pose proof (grown_bird season sim1 Hok1) as H2.
  pose proof (grown_bounds season sim1 Hok1) as Hok2.
  destruct (handle_predator_recovery_bounds (grown season sim1) Hok2)
    as [_ H3].
  destruct (update_chemicals_fields
              (handle_predator_recovery (grown season sim1)))
    as (_ & _ & _ & E & _).
  rewrite E.
  assert (H4 : 0 < bird (states (grown season sim1))) by lra.
  specialize (H3 H4). lra.
Qed.

Lemma birds_present_step (season : Season) (sim : Sim) :
  birds_present sim -> birds_present (season_step season sim).
Proof.
  intros (Hok & Hb & Hh).
  assert (Hb' : 0 < bird (states (season_step season sim)))
    by (apply bird_stays_positive; [apply Hok | exact Hb]).
  split; [now apply season_step_ok |]. split; [exact Hb' |].
  rewrite season_step_record in *.
  cbn [record_state history h_bird states] in *.
  destruct (before_record_meta season sim) as (_ & _ & E). rewrite E.
  now apply Forall_snoc.
Qed.

(** C7: in a scenario with [introduce_birds], a season step started with
    bird = 0 leaves bird at exactly 2.0, so the first step of a run does;
    after that first step the bird population is never 0 again, neither
    in the state nor in any recorded value. *)
Theorem birds_seeded_then_never_extinct (scenario_config : Scenario) :
  introduce_birds scenario_config = true ->
  (forall season sim,
     scenario sim = scenario_config ->
     bird (states sim) == 0 ->
     bird (states (season_step season sim)) = 2.0) /\
  bird (states (init scenario_config)) == 0 /\
  h_bird (history (after scenario_config 0 1)) = [2.0] /\
  (forall q r : nat,
     (1 <= 4 * q + r)%nat ->
     let sim := after scenario_config q r in
     0 < bird (states sim) /\
     ~ bird (states sim) == 0 /\
     Forall (fun x => ~ x == 0) (h_bird (history sim))).
Proof.
  intros Hflag.
  assert (Hfirst :
            bird (states (season_step spring (init scenario_config))) = 2.0).
  { apply first_step_seeds_birds; [exact Hflag | reflexivity]. }
  split; [| split; [| split]].
  - intros season sim Hcfg Hb.
    apply first_step_seeds_birds; [now rewrite Hcfg | exact Hb].
  - reflexivity.
  - unfold after, SEASONS.
    change (simulate_years 0 (init scenario_config))
      with (init scenario_config).
    rewrite firstn_cons, firstn_O, run_seasons_cons, run_seasons_nil.
    rewrite season_step_record in *.
    cbn [record_state history h_bird states] in *.
    destruct (before_record_meta spring (init scenario_config))
      as (_ & _ & E).
    rewrite E, Hfirst. reflexivity.
  - intros q r Hk. cbv zeta.
    assert (H : birds_present (after scenario_config q r)).
    { apply after_inv_from_first; [apply birds_present_step | | | exact Hk].
      - intros sim H. exact H.
      - split; [apply season_step_ok, init_ok |].
        split; [rewrite Hfirst; reflexivity |].
        rewrite season_step_record in *.
        cbn [record_state history h_bird states] in *.
        destruct (before_record_meta spring (init scenario_config))
          as (_ & _ & E).
        rewrite E, Hfirst. repeat constructor. }
    destruct H as (_ & Hb & Hh).
    split; [exact Hb |]. split; [lra |].
    refine (Forall_impl _ _ Hh). cbv beta. intros; lra.
Qed.

Lemma birds_seeded_then_never_extinct_witness :
  bird (states (season_step spring (init birds_only))) = 2.0 /\
  0 < bird (states (after birds_only 0 2)).
Proof.
  destruct (birds_seeded_then_never_extinct birds_only eq_refl)
    as (H1 & _ & _ & H2).
  split.
  - apply H1; reflexivity.
  - apply (H2 0%nat 2%nat). cbn. lia.
Defined.

(** * Further properties of the simulator *)

(** ** Year counter and scenario of a run *)

Lemma run_seasons_meta (l : list Season) (sim : Sim) :
  scenario (run_seasons l sim) = scenario sim /\
  year (run_seasons l sim) = year sim.
Proof.
  revert sim. induction l as [| season l IH]; intros sim.
  - rewrite run_seasons_nil. split; reflexivity.
  - rewrite run_seasons_cons.
    destruct (IH (season_step season sim)) as [E1 E2].
    rewrite E1, E2, season_step_scenario, season_step_year.
    split; reflexivity.
Qed.

Lemma simulate_years_scenario (cfg : Scenario) (n : nat) :
  scenario (simulate_years n (init cfg)) = cfg.
Proof.
  induction n as [| n IH]; [reflexivity |].
  rewrite simulate_years_succ. unfold simulate_year. cbv zeta.
  rewrite (proj1 (next_year_fields _)).
  now rewrite (proj1 (run_seasons_meta _ _)).
Qed.

Lemma after_meta (cfg : Scenario) (q r : nat) :
  scenario (after cfg q r) = cfg /\ year (after cfg q r) = Z.of_nat q.
Proof.
  unfold after.
  destruct (run_seasons_meta (firstn r SEASONS)
              (simulate_years q (init cfg))) as [E1 E2].
  rewrite E1, E2, simulate_years_scenario, simulate_years_year.
  split; reflexivity.
Qed.

(** ** Rates and states of the growth update *)

Lemma calculate_growth_rates_rates (season : Season) (sim : Sim) :
  let C := crop (states sim) in
  let W := weed (states sim) in
  let P := pest (states sim) in
  let B := bird (states sim) in
  let T := bat (states sim) in
  let rates := fst (calculate_growth_rates season sim) in
  rate_crop rates =
    calculate_crop_growth sim C W P season * SEASON_FACTORS season /\
  rate_weed rates = calculate_weed_growth sim W C * SEASON_FACTORS season /\
  rate_pest rates = calculate_pest_growth sim P B T * SEASON_FACTORS season.
Proof.
  unfold calculate_growth_rates. cbv zeta.
  destruct (Qltb 0 (bird (states sim))); repeat split.
Qed.

Lemma calculate_growth_rates_weed (season : Season) (sim : Sim) :
  weed (states (snd (calculate_growth_rates season sim))) =
  if Qltb 0 (bird (states sim))
  then weed (states sim) * (1 - py_min 0.1 (bird (states sim) * 0.005))
  else weed (states sim).
Proof.
  rewrite calculate_growth_rates_sim.
  destruct (Qltb 0 (bird (states sim))); reflexivity.
Qed.

(** Everything after the farming operations leaves crop, weed and pest as
    the growth update wrote them, and soil_health as it was. *)
Lemma season_step_after_growth (season : Season) (sim : Sim) :
  let sim1 := seasonal_operations season sim in
  let s' := states (season_step season sim) in
  crop s' = crop (states (grown season sim1)) /\
  weed s' = weed (states (grown season sim1)) /\
  pest s' = pest (states (grown season sim1)) /\
  soil_health s' = soil_health (states sim1).
Proof.
  cbv zeta. rewrite season_step_states, before_record_unfold.
  set (sim1 := seasonal_operations season sim).
  destruct (update_chemicals_fields
              (handle_predator_recovery (grown season sim1)))
    as (Ec & Ew & Ep & _ & _ & _ & Esh & _).
  rewrite Ec, Ew, Ep, Esh. clear Ec Ew Ep Esh.
  destruct (handle_predator_recovery_fields (grown season sim1))
    as (_ & _ & Ec & Ew & Ep & _ & Esh & _).
  rewrite Ec, Ew, Ep, Esh. clear Ec Ew Ep Esh.
  repeat split.
  unfold grown.
  destruct (apply_growth_rates_fields
              (fst (calculate_growth_rates season sim1))
              (snd (calculate_growth_rates season sim1)))
    as (_ & _ & _ & _ & _ & _ & Esh & _).
  rewrite Esh.
  destruct (calculate_growth_rates_states season sim1)
    as (_ & _ & _ & _ & _ & Fsh & _).
  exact Fsh.
Qed.

(** ** Soil health *)

Lemma seasonal_operations_soil_health (season : Season) (sim : Sim) :
  let sh := soil_health (states sim) in
  let sh' := soil_health (states (seasonal_operations season sim)) in
  match season with
  | spring =>
      if use_fertilizer (scenario sim) then
        match use_organic_fertilizer (scenario sim) with
        | Some true => sh' = py_min 100 (sh + 2)
        | _ => sh' = py_max 0 (sh - 1)
        end
      else sh' = sh
  | _ => sh' = sh
  end.
Proof.
  cbv zeta. destruct season; cbn [seasonal_operations]; try reflexivity.
  - destruct sim as [cfg y [c w p b t sn sh hr pr] h].
    destruct cfg as [[|] uh up ib it [[|]|] ucc hs ps]; reflexivity.
  - rewrite handle_summer_operations_stages.
    destruct (weed_stage_frame (pesticide_stage sim))
      as (_ & _ & _ & _ & _ & E & _).
    destruct (pesticide_stage_frame sim) as (_ & _ & _ & _ & _ & _ & F & _).
    now rewrite E, F.
Qed.

Lemma season_step_soil_health_range (season : Season) (sim : Sim) :
  0 <= soil_health (states sim) <= 100 ->
  0 <= soil_health (states (season_step season sim)) <= 100.
Proof.
  intros [H0 H100].
  destruct (season_step_after_growth season sim) as (_ & _ & _ & E).
  rewrite E. clear E.
  pose proof (seasonal_operations_soil_health season sim) as H.
  cbv zeta in H.
  destruct season;
    try (rewrite H; split; assumption).
  destruct (use_fertilizer (scenario sim));
    [| rewrite H; split; assumption].
  destruct (use_organic_fertilizer (scenario sim)) as [[|]|]; rewrite H.
  - split; [apply py_min_glb; lra | apply py_min_upper].
  - split; [apply py_max_lower | apply py_max_lub; lra].
  - split; [apply py_max_lower | apply py_max_lub; lra].
Qed.

Lemma season_step_h_soil_health (season : Season) (sim : Sim) :
  h_soil_health (history (season_step season sim)) =
  h_soil_health (history sim)
    ++ [soil_health (states (season_step season sim))].
Proof.
  rewrite season_step_states, season_step_record.
  cbn [record_state history h_soil_health].
  destruct (before_record_meta season sim) as (_ & _ & E). now rewrite E.
Qed.

Lemma soil_health_ok_step (season : Season) (sim : Sim) :
  soil_health_ok sim -> soil_health_ok (season_step season sim).
Proof.
  intros [Hs Hh].
  pose proof (season_step_soil_health_range season sim Hs) as Hs'.
  split; [exact Hs' |].
  rewrite season_step_h_soil_health. now apply Forall_snoc.
Qed.

(** X1: in every run, whatever the scenario, soil_health stays within
    [0, 100]: in the state after any number of years and season steps and
    in every recorded value.  Only [apply_fertilizer] writes it, and it
    clamps. *)
Theorem soil_health_in_range_throughout (scenario_config : Scenario)
    (q r : nat) :
  let sim := after scenario_config q r in
  0 <= soil_health (states sim) <= 100 /\
  Forall (fun x => 0 <= x <= 100) (h_soil_health (history sim)).
Proof.
  cbv zeta.
  apply (after_inv soil_health_ok).
  - apply soil_health_ok_step.
  - intros sim H. exact H.
  - split; [cbn; lra | constructor].
Qed.

(** X2: a season step leaves soil_health untouched unless it is a spring
    step of a scenario that uses fertilizer; so in a run without
    fertilizer soil_health is 50.0 in every state and every record. *)
Theorem soil_health_written_by_fertilizer_only (scenario_config : Scenario)
    (q r : nat) :
  (forall season sim,
     season <> spring \/ use_fertilizer (scenario sim) = false ->
     soil_health (states (season_step season sim))
     = soil_health (states sim)) /\
  (use_fertilizer scenario_config = false ->
   let run := after scenario_config q r in
   soil_health (states run) = 50.0 /\
   Forall (fun x => x = 50.0) (h_soil_health (history run))).
Proof.
  assert (Hstep : forall season sim,
             season <> spring \/ use_fertilizer (scenario sim) = false ->
             soil_health (states (season_step season sim))
             = soil_health (states sim)).
  { intros season sim Hc.
    destruct (season_step_after_growth season sim) as (_ & _ & _ & E).
    rewrite E.
    pose proof (seasonal_operations_soil_health season sim) as H.
    cbv zeta in H.
    destruct season; try exact H.
    destruct Hc as [Hc | Hc]; [congruence |].
    now rewrite Hc in H. }
  split; [exact Hstep |].
  intros Hflag. cbv zeta.
  apply (after_inv
           (fun s => scenario s = scenario_config /\
                     soil_health (states s) = 50.0 /\
                     Forall (fun x => x = 50.0) (h_soil_health (history s)))).
  - intros season sim (Hc & Hs & Hh).
    assert (Hs' : soil_health (states (season_step season sim)) = 50.0).
    { rewrite Hstep; [exact Hs | right; now rewrite Hc]. }
    split; [now rewrite season_step_scenario |].
    split; [exact Hs' |].
    rewrite season_step_h_soil_health. apply Forall_snoc; assumption.
  - intros sim H. exact H.
  - split; [reflexivity |]. split; [reflexivity | constructor].
Qed.

Lemma soil_health_written_by_fertilizer_only_witness :
  soil_health (states (season_step summer infested_sim)) = 50.0 /\
  soil_health (states (after birds_only 0 3)) = 50.0.
Proof.
  destruct (soil_health_written_by_fertilizer_only birds_only 0 3)
    as [H1 H2].
  split.
  - apply (H1 summer infested_sim). left. discriminate.
  - apply (H2 eq_refl).
Defined.

(** ** Carrying capacities *)

(** Logistic growth with a rate coefficient at most 1 does not lift a
    population in [0, K] above [K]. *)
Lemma logistic_upper (x K c : Q) :
  0 < K -> 0 <= x <= K -> c <= 1 ->
  x + c * (x * (1 - x / K)) <= K.
Proof.
  intros HK [Hx0 HxK] Hc.
  assert (Hu : x == (x / K) * K) by (field; lra).
  set (u := x / K) in *.
  assert (Hu0 : 0 <= u) by nra.
  assert (Hu1 : u <= 1) by nra.
  assert (H1 : 0 <= x * (1 - u)) by nra.
  assert (H3 : c * (x * (1 - u)) <= 1 * (x * (1 - u))) by nra.
  assert (H4 : x * (1 - u) <= K * (1 - u)) by nra.
  nra.
Qed.

(** The same with a loss term [d] and a start [x0] that another effect
    has already lowered. *)
Lemma growth_capped (x x0 K r m f d : Q) :
  0 < K -> 0 <= x <= K -> x0 <= x -> r * m * f <= 1 -> d <= 0 -> 0 < f ->
  x0 + (r * x * (1 - x / K) * m + d) * f <= K.
Proof.
  intros HK Hx Hx0 Hc Hd Hf.
  pose proof (logistic_upper x K (r * m * f) HK Hx Hc) as H.
  assert (E : x0 + (r * x * (1 - x / K) * m + d) * f
              == (x + (r * m * f) * (x * (1 - x / K))) + (x0 - x) + d * f)
    by (field; lra).
  rewrite E.
  assert (Hdf : d * f <= 0) by nra.
  lra.
Qed.

Lemma bird_efficiency_range (y : Z) :
  (0 <= y)%Z -> 0 <= py_min 0.6 (0.3 + 0.02 * inject_Z y) <= 0.6.
Proof.
  intros Hy. rewrite Zle_Qle in Hy. change (inject_Z 0) with 0 in Hy.
  split; [apply py_min_glb; lra | apply py_min_upper].
Qed.

Lemma bat_efficiency_range (y : Z) :
  (0 <= y)%Z -> 0 <= py_min 0.5 (0.25 + 0.015 * inject_Z y) <= 0.5.
Proof.
  intros Hy. rewrite Zle_Qle in Hy. change (inject_Z 0) with 0 in Hy.
  split; [apply py_min_glb; lra | apply py_min_upper].
Qed.

Lemma crop_competition_range (C : Q) :
  0 <= C -> 0.05 <= py_min 0.5 (0.05 + C * 0.001) <= 0.5.
Proof.
  intros HC. split; [apply py_min_glb; lra | apply py_min_upper].
Qed.

Lemma seed_predation_range (B : Q) :
  0 <= B -> 0 <= py_min 0.1 (B * 0.005) <= 0.1.
Proof.
  intros HB. split; [apply py_min_glb; lra | apply py_min_upper].
Qed.

Lemma grown_pest (season : Season) (sim : Sim) :
  state_dosed (states sim) -> (0 <= year sim)%Z ->
  pest (states sim) <= 80 ->
  pest (states (grown season sim)) <= 80.
Proof.
  intros (_ & _ & Hp & Hb & Ht & _ & _ & _ & Hpr) Hy Hp80.
  unfold grown.
  destruct (apply_growth_rates_fields
              (fst (calculate_growth_rates season sim))
              (snd (calculate_growth_rates season sim)))
    as (_ & _ & E & _).
  rewrite E. clear E.
  destruct (calculate_growth_rates_states season sim) as (_ & E & _).
  rewrite E. clear E.
  destruct (calculate_growth_rates_rates season sim) as (_ & _ & E).
  rewrite E. clear E.
  unfold calculate_pest_growth. cbv zeta.
  pose proof (bird_efficiency_range _ Hy) as Hbe.
  pose proof (bat_efficiency_range _ Hy) as Hte.
  set (be := py_min 0.6 (0.3 + 0.02 * inject_Z (year sim))) in *.
  set (te := py_min 0.5 (0.25 + 0.015 * inject_Z (year sim))) in *.
  pose proof (season_factor_range season) as Hf.
  set (f := SEASON_FACTORS season) in *.
  set (P := pest (states sim)) in *.
  set (B := bird (states sim)) in *.
  set (T := bat (states sim)) in *.
  set (pr := pesticide_residue (states sim)) in *.
  unfold PARAMS.r_pest, PARAMS.K_pest.
  apply py_max_lub; [lra |].
  assert (H1 : 0 <= be * B) by nra.
  assert (H2 : 0 <= te * T) by nra.
  apply growth_capped; try lra.
  assert (H3 : 0.5 * (1 - (be * B * 0.05 + te * T * 0.04)) <= 0.5) by lra.
  assert (H4 : 0.5 * (1 - (be * B * 0.05 + te * T * 0.04)) * f <= 0.5 * f)
    by nra.
  lra.
Qed.

Lemma grown_weed (season : Season) (sim : Sim) :
  state_dosed (states sim) ->
  weed (states sim) <= 100 ->
  weed (states (grown season sim)) <= 100.
Proof.
  intros (Hc & Hw & _ & Hb & _ & _ & _ & Hhr & _) Hw100.
  unfold grown.
  destruct (apply_growth_rates_fields
              (fst (calculate_growth_rates season sim))
              (snd (calculate_growth_rates season sim)))
    as (_ & E & _).
  rewrite E. clear E.
  rewrite calculate_growth_rates_weed.
  destruct (calculate_growth_rates_rates season sim) as (_ & E & _).
  rewrite E. clear E.
  unfold calculate_weed_growth. cbv zeta.
  pose proof (crop_competition_range _ Hc) as Hcc.
  set (cc := py_min 0.5 (0.05 + crop (states sim) * 0.001)) in *.
  pose proof (seed_predation_range _ (proj1 Hb)) as Hsp.
  set (sp := py_min 0.1 (bird (states sim) * 0.005)) in *.
  pose proof (season_factor_range season) as Hf.
  set (f := SEASON_FACTORS season) in *.
  set (W := weed (states sim)) in *.
  set (hr := herbicide_residue (states sim)) in *.
  unfold PARAMS.r_weed, PARAMS.K_weed.
  apply py_max_lub; [lra |].
  assert (Hc1 : 0.6 * (1 - cc) * f <= 1) by nra.
  destruct (Qltb 0 (bird (states sim))).
  - apply growth_capped; try lra. nra.
  - apply growth_capped; lra.
Qed.

Lemma mechanical_efficiency_range (y : Z) :
  (0 <= y)%Z -> 0.25 <= mechanical_efficiency y <= 0.49.
Proof.
  intros Hy. destruct (Z.le_ge_cases y 8) as [H | H].
  - rewrite (mechanical_efficiency_ramp _ H).
    rewrite Zle_Qle in Hy, H.
    change (inject_Z 0) with 0 in Hy. change (inject_Z 8) with 8 in H. lra.
  - rewrite (mechanical_efficiency_late _ H). lra.
Qed.

(** Organic weed control keeps between 28.56% and 100% of the weed, and
    at most 75% when mechanical weeding fires. *)
Lemma organic_weed_result_range (sim : Sim) :
  (0 <= year sim)%Z -> 0 <= weed (states sim) -> 0 <= crop (states sim) ->
  0.2856 * weed (states sim) <= organic_weed_result sim <= weed (states sim)
  /\ (20 < weed (states sim) ->
      organic_weed_result sim <= 0.75 * weed (states sim)).
Proof.
  intros Hy Hw Hc. unfold organic_weed_result. cbv zeta.
  pose proof (mechanical_efficiency_range _ Hy) as He.
  set (e := mechanical_efficiency (year sim)) in *.
  assert (Hd : 0 <= py_min 0.3 (crop (states sim) * 0.001) <= 0.3)
    by (split; [apply py_min_glb; lra | apply py_min_upper]).
  set (d := py_min 0.3 (crop (states sim) * 0.001)) in *.
  set (w := weed (states sim)) in *.
  assert (Hcov : exists c,
             match use_cover_crop (scenario sim) with
             | Some true => 0.8
             | _ => 1
             end = c /\ 0.8 <= c <= 1).
  { destruct (use_cover_crop (scenario sim)) as [[|]|];
      eexists; (split; [reflexivity | lra]). }
  destruct Hcov as (c & Ec & Hcr). rewrite Ec. clear Ec.
  destruct (Qltb_cases 20 w) as [[E H20] | [E H20]]; rewrite E.
  - assert (H1 : 0.51 * w <= w * (1 - e) <= 0.75 * w) by nra.
    assert (H2 : 0.8 * (w * (1 - e)) <= w * (1 - e) * c <= w * (1 - e))
      by nra.
    assert (H3 : 0.7 * (w * (1 - e) * c) <= w * (1 - e) * c * (1 - d)
                 <= w * (1 - e) * c) by nra.
    destruct (py_max_cases 0 (w * (1 - e) * c * (1 - d)))
      as [[H' E'] | [H' E']]; rewrite E'; repeat split; intros; lra.
  - assert (H2 : 0.8 * (w * 1) <= w * 1 * c <= w * 1) by nra.
    assert (H3 : 0.7 * (w * 1 * c) <= w * 1 * c * (1 - d) <= w * 1 * c)
      by nra.
    destruct (py_max_cases 0 (w * 1 * c * (1 - d)))
      as [[H' E'] | [H' E']]; rewrite E'; repeat split; intros; lra.
Qed.

Lemma seasonal_operations_weed_pest (season : Season) (sim : Sim) :
  state_ok (states sim) -> (0 <= year sim)%Z ->
  weed (states (seasonal_operations season sim)) <= weed (states sim) /\
  pest (states (seasonal_operations season sim)) <= pest (states sim).
Proof.
  intros (Hc & Hw & Hp & _) Hy.
  destruct season; cbn [seasonal_operations]; try (split; lra).
  - destruct sim as [cfg y [c w p b t sn sh hr pr] h].
    destruct cfg as [[|] uh up ib it [[|]|] ucc hs ps];
      unfold handle_spring_operations, apply_fertilizer; unfold_ops;
      split; lra.
  - rewrite handle_summer_operations_stages.
    destruct (weed_stage_frame (pesticide_stage sim)) as (_ & Ep & _).
    rewrite Ep. clear Ep.
    destruct (pesticide_stage_frame sim)
      as (_ & Ey & _ & Ec & Ew & _).
    split.
    + unfold weed_stage.
      destruct (should_apply_chemical herbicide (pesticide_stage sim)).
      * rewrite <- Ew in Hw. rewrite <- Ew. clear Ew Ey Ec.
        destruct (pesticide_stage sim) as [cfg y [c w p b t sn sh hr pr] h].
        cbn [apply_chemical]. unfold_ops. lra.
      * destruct (organic_weed_closed_form (pesticide_stage sim)) as [E _].
        rewrite E.
        destruct (organic_weed_result_range (pesticide_stage sim))
          as [[_ H] _]; rewrite ?Ey, ?Ew, ?Ec; try assumption.
        now rewrite Ew in H.
    + unfold pesticide_stage.
      destruct (should_apply_chemical pesticide sim); [| lra].
      destruct sim as [cfg y [c w p b t sn sh hr pr] h].
      cbn [apply_chemical]. unfold_ops. lra.
Qed.

Lemma capacity_ok_step (season : Season) (sim : Sim) :
  state_ok (states sim) -> capacity_ok sim ->
  capacity_ok (season_step season sim).
Proof.
  intros Hok (Hy & Hw & Hp).
  destruct (seasonal_operations_weed_pest season sim Hok Hy) as [Hw1 Hp1].
  pose proof (seasonal_operations_bounds season sim Hok) as Hok1.
  destruct (seasonal_operations_meta season sim) as (_ & Ey & _).
  destruct (season_step_after_growth season sim) as (_ & Ew & Ep & _).
  unfold capacity_ok.
  rewrite season_step_year, Ew, Ep.
  split; [exact Hy |]. split.
  - apply grown_weed; [exact Hok1 | lra].
  - apply grown_pest; [exact Hok1 | now rewrite Ey | lra].
Qed.

(** What a season step appends to the history: one snapshot of the
    states it ends in. *)
Lemma season_step_history (season : Season) (sim : Sim) :
  history (season_step season sim) =
  history_app (history sim) (snapshot season (season_step season sim)).
Proof.
  rewrite season_step_record.
  destruct (before_record_meta season sim) as (_ & _ & E).
  set (b := before_record season sim) in *. clearbody b.
  destruct b as [cfg y s h]. cbn in E. subst h. reflexivity.
Qed.

Lemma season_step_series (season : Season) (sim : Sim) :
  let sim' := season_step season sim in
  h_crop (history sim') = h_crop (history sim) ++ [crop (states sim')] /\
  h_weed (history sim') = h_weed (history sim) ++ [weed (states sim')] /\
  h_pest (history sim') = h_pest (history sim) ++ [pest (states sim')] /\
  h_bird (history sim') = h_bird (history sim) ++ [bird (states sim')] /\
  h_bat (history sim') = h_bat (history sim) ++ [bat (states sim')] /\
  h_herbicide_residue (history sim') =
    h_herbicide_residue (history sim)
      ++ [herbicide_residue (states sim')] /\
  h_pesticide_residue (history sim') =
    h_pesticide_residue (history sim)
      ++ [pesticide_residue (states sim')].
Proof.
  cbv zeta. pose proof (season_step_history season sim) as E.
  set (sim' := season_step season sim) in *. clearbody sim'.
  rewrite E. repeat split.
Qed.

Lemma run_capacity_ok_step (season : Season) (sim : Sim) :
  run_capacity_ok sim -> run_capacity_ok (season_step season sim).
Proof.
  intros (Hok & Hcap & Hhw & Hhp).
  pose proof (capacity_ok_step season sim (proj1 Hok) Hcap) as Hcap'.
  split; [now apply season_step_ok |]. split; [exact Hcap' |].
  destruct (season_step_series season sim) as (_ & Ew & Ep & _).
  rewrite Ew, Ep. destruct Hcap' as (_ & Hw & Hp).
  split; now apply Forall_snoc.
Qed.

Lemma run_capacity_ok_next (sim : Sim) :
  run_capacity_ok sim -> run_capacity_ok (next_year sim).
Proof.
  intros (Hok & (Hy & Hw & Hp) & Hhw & Hhp).
  split; [exact Hok |]. split; [| split; assumption].
  unfold capacity_ok. rewrite (proj1 (proj2 (next_year_fields sim))).
  split; [lia | split; assumption].
Qed.

(** X3: in every run each population stays within its carrying capacity:
    weed <= 100, pest <= 80, bird <= 20 and bat <= 15, in the state after
    any number of years and season steps and in every recorded value. *)
Theorem populations_within_capacity (scenario_config : Scenario)
    (q r : nat) :
  let sim := after scenario_config q r in
  let s := states sim in
  let h := history sim in
  (weed s <= PARAMS.K_weed /\ pest s <= PARAMS.K_pest /\
   bird s <= PARAMS.K_bird /\ bat s <= PARAMS.K_bat) /\
  Forall (fun x => x <= PARAMS.K_weed) (h_weed h) /\
  Forall (fun x => x <= PARAMS.K_pest) (h_pest h) /\
  Forall (fun x => x <= PARAMS.K_bird) (h_bird h) /\
  Forall (fun x => x <= PARAMS.K_bat) (h_bat h).
Proof.
  cbv zeta.
  assert (H : run_capacity_ok (after scenario_config q r)).
  { apply after_inv.
    - apply run_capacity_ok_step.
    - apply run_capacity_ok_next.
    - split; [apply init_ok |].
      split; [| split; constructor].
      unfold capacity_ok. cbn. split; [lia | split; lra]. }
  destruct H as ([Hs Hh] & (_ & Hw & Hp) & Hhw & Hhp).
  destruct Hs as (_ & _ & _ & Hb & Ht & _).
  destruct Hh as (_ & _ & _ & Gb & Gt & _).
  unfold PARAMS.K_weed, PARAMS.K_pest, PARAMS.K_bird, PARAMS.K_bat.
  repeat split; try tauto.
  - refine (Forall_impl _ _ Gb). cbv beta. intros; tauto.
  - refine (Forall_impl _ _ Gt). cbv beta. intros; tauto.
Qed.

(** ** Crop *)

(** With soil_health and soil_nutrient non-negative the crop growth rate
    is at least 0.05 * 0.5: the floored net rate times the least soil
    factor. *)
Lemma crop_growth_positive (sim : Sim) (C W P : Q) (season : Season) :
  0 <= soil_health (states sim) -> 0 <= soil_nutrient (states sim) ->
  0.025 <= calculate_crop_growth sim C W P season.
Proof.
  intros Hsh Hsn. unfold calculate_crop_growth. cbv zeta.
  assert (Hnet : 0.05 <= crop_net C W P) by apply py_max_lower.
  set (net := crop_net C W P) in *.
  set (sh := soil_health (states sim)) in *.
  set (sn := soil_nutrient (states sim)) in *.
  assert (Hsf : 0.5 <= 0.5 + sh / 100 * 0.5) by (div_consts; lra).
  set (sf := 0.5 + sh / 100 * 0.5) in *.
  assert (Hprod : 0.025 <= net * sf) by nra.
  unfold PARAMS.organic_fertilizer_effect, PARAMS.chemical_fertilizer_effect.
  destruct (use_fertilizer (scenario sim)); [| lra].
  destruct (use_organic_fertilizer (scenario sim)) as [[|]|]; lra.
Qed.

Lemma grown_crop (season : Season) (sim : Sim) :
  state_dosed (states sim) ->
  crop (states sim) < crop (states (grown season sim)).
Proof.
  intros (Hc & _ & _ & _ & _ & Hsn & Hsh & _).
  unfold grown.
  destruct (apply_growth_rates_fields
              (fst (calculate_growth_rates season sim))
              (snd (calculate_growth_rates season sim)))
    as (E & _).
  rewrite E. clear E.
  destruct (calculate_growth_rates_states season sim) as (E & _).
  rewrite E. clear E.
  destruct (calculate_growth_rates_rates season sim) as (E & _).
  rewrite E. clear E.
  pose proof (crop_growth_positive sim (crop (states sim))
                (weed (states sim)) (pest (states sim)) season Hsh Hsn) as Hr.
  set (rate := calculate_crop_growth _ _ _ _ _) in *.
  pose proof (season_factor_range season) as Hf.
  set (f := SEASON_FACTORS season) in *.
  assert (Hrf : 0 < rate * f) by nra.
  destruct (py_max_cases 0 (crop (states sim) + rate * f))
    as [[H' E] | [H' E]]; rewrite E; lra.
Qed.

Lemma seasonal_operations_crop (season : Season) (sim : Sim) :
  crop (states (seasonal_operations season sim)) =
  match season with
  | spring => 80.0
  | _ => crop (states sim)
  end.
Proof.
  destruct season; cbn [seasonal_operations]; try reflexivity.
  - destruct sim as [cfg y [c w p b t sn sh hr pr] h].
    destruct cfg as [[|] uh up ib it [[|]|] ucc hs ps]; reflexivity.
  - rewrite handle_summer_operations_stages.
    destruct (weed_stage_frame (pesticide_stage sim)) as (E & _).
    destruct (pesticide_stage_frame sim) as (_ & _ & _ & F & _).
    now rewrite E, F.
Qed.

Lemma season_step_crop (season : Season) (sim : Sim) :
  state_ok (states sim) ->
  match season with
  | spring => 80
  | _ => crop (states sim)
  end < crop (states (season_step season sim)).
Proof.
  intros Hok.
  destruct (season_step_after_growth season sim) as (E & _).
  rewrite E. clear E.
  pose proof (seasonal_operations_bounds season sim Hok) as Hok1.
  pose proof (grown_crop season _ Hok1) as H.
  rewrite seasonal_operations_crop in H.
  destruct season; try exact H.
  assert (E : 80.0 == 80) by reflexivity. now rewrite <- E.
Qed.

Lemma crop_standing_step (season : Season) (sim : Sim) :
  crop_standing sim -> crop_standing (season_step season sim).
Proof.
  intros (Hok & Hc & Hh).
  pose proof (season_step_crop season sim (proj1 Hok)) as H.
  assert (Hc' : 80 < crop (states (season_step season sim)))
    by (destruct season; lra).
  split; [now apply season_step_ok |]. split; [exact Hc' |].
  destruct (season_step_series season sim) as (E & _).
  rewrite E. now apply Forall_snoc.
Qed.

(** X4: the crop growth rate is positive in every reachable state, so a
    spring step ends above the planting level 80, every other season step
    ends strictly above the crop it started with, and every recorded crop
    value of a run is strictly above 80. *)
Theorem crop_always_grows (scenario_config : Scenario) (q r : nat) :
  let sim := after scenario_config q r in
  80 < crop (states (season_step spring sim)) /\
  crop (states sim) < crop (states (season_step summer sim)) /\
  crop (states sim) < crop (states (season_step autumn sim)) /\
  crop (states sim) < crop (states (season_step winter sim)) /\
  Forall (fun x => 80 < x) (h_crop (history sim)) /\
  ((1 <= 4 * q + r)%nat -> 80 < crop (states sim)).
Proof.
  cbv zeta.
  destruct (after_ok scenario_config q r) as [Hok _].
  split; [exact (season_step_crop spring _ Hok) |].
  split; [exact (season_step_crop summer _ Hok) |].
  split; [exact (season_step_crop autumn _ Hok) |].
  split; [exact (season_step_crop winter _ Hok) |].
  assert (Hfirst : crop_standing (season_step spring (init scenario_config))).
  { split; [apply season_step_ok, init_ok |].
    pose proof (season_step_crop spring (init scenario_config)
                  INITIAL_STATES_ok) as H.
    split; [exact H |].
    destruct (season_step_series spring (init scenario_config)) as (E & _).
    rewrite E. apply Forall_snoc; [constructor | exact H]. }
  destruct (Nat.eq_dec (4 * q + r) 0) as [Hz | Hnz].
  - assert (q = 0%nat) by lia. assert (r = 0%nat) by lia. subst.
    split; [constructor | lia].
  - assert (H : crop_standing (after scenario_config q r)).
    { apply after_inv_from_first;
        [apply crop_standing_step | | exact Hfirst | lia].
      intros sim H. exact H. }
    destruct H as (_ & Hc & Hh). split; [exact Hh | intros _; exact Hc].
Qed.

Lemma crop_always_grows_witness :
  80 < crop (states (after birds_only 0 1)).
Proof.
  destruct (crop_always_grows birds_only 0 1) as (_ & _ & _ & _ & _ & H).
  apply H. cbn. lia.
Defined.

(** ** Chemicals and predators through a season step *)

Lemma seasonal_operations_chemical_effects (season : Season) (sim : Sim) :
  let s := states sim in
  let s1 := states (seasonal_operations season sim) in
  let mortality := PARAMS.predator_pesticide_mortality in
  pest s1 = (if pesticide_fires season sim
             then pest s * (1 - PARAMS.pesticide_effect)
             else pest s) /\
  bird s1 = (if pesticide_fires season sim
             then bird s * (1 - mortality)
             else bird s) /\
  bat s1 = (if pesticide_fires season sim
            then bat s * (1 - mortality)
            else bat s) /\
  pesticide_residue s1 = (if pesticide_fires season sim
                          then 50
                          else pesticide_residue s) /\
  herbicide_residue s1 = (if herbicide_fires season sim
                          then 40
                          else herbicide_residue s).
Proof.
  cbv zeta.
  destruct season;
    cbn [seasonal_operations pesticide_fires herbicide_fires];
    [| | repeat split | repeat split].
  - destruct sim as [cfg y [c w p b t sn sh hr pr] h].
    destruct cfg as [[|] uh up ib it [[|]|] ucc hs ps]; repeat split.
  - rewrite handle_summer_operations_stages.
    destruct (weed_stage_frame (pesticide_stage sim))
      as (_ & Ep & Eb & Et & _ & _ & Epr).
    rewrite Ep, Eb, Et, Epr. clear Ep Eb Et Epr.
    assert (Hh : herbicide_residue (states (weed_stage (pesticide_stage sim)))
                 = if should_apply_chemical herbicide (pesticide_stage sim)
                   then 40
                   else herbicide_residue (states (pesticide_stage sim))).
    { unfold weed_stage.
      destruct (should_apply_chemical herbicide (pesticide_stage sim)).
      - apply apply_chemical_residue.
      - apply organic_weed_closed_form. }
    rewrite Hh. clear Hh.
    destruct (pesticide_stage_frame sim) as (_ & _ & _ & _ & _ & _ & _ & Ehr).
    rewrite Ehr. clear Ehr.
    unfold pesticide_stage.
    destruct (should_apply_chemical pesticide sim); repeat split.
Qed.

Lemma grown_meta (season : Season) (sim : Sim) :
  same_meta (grown season sim) sim.
Proof.
  unfold grown.
  eapply same_meta_trans; [apply with_states_meta |].
  apply calculate_growth_rates_meta.
Qed.

(** A predator population at zero has rate 0 and stays at zero in the
    growth update. *)
Lemma grown_zero_predators (season : Season) (sim : Sim) :
  (bird (states sim) == 0 -> bird (states (grown season sim)) == 0) /\
  (bat (states sim) == 0 -> bat (states (grown season sim)) == 0).
Proof.
  unfold grown.
  destruct (apply_growth_rates_fields
              (fst (calculate_growth_rates season sim))
              (snd (calculate_growth_rates season sim)))
    as (_ & _ & _ & Eb & Et & _).
  rewrite Eb, Et. clear Eb Et.
  destruct (calculate_growth_rates_states season sim)
    as (_ & _ & Eb & Et & _).
  rewrite Eb, Et, calculate_growth_rates_bird, calculate_growth_rates_bat.
  clear Eb Et. cbv zeta. split; intros H.
  - assert (F : Qltb 0 (bird (states sim)) = false)
      by (apply Qltb_false; lra).
    rewrite F.
    destruct (py_max_cases 0 (bird (states sim) + 0 * SEASON_FACTORS season))
      as [[H' E] | [H' E]]; rewrite E; lra.
  - assert (F : Qltb 0 (bat (states sim)) = false)
      by (apply Qltb_false; lra).
    rewrite F.
    destruct (py_max_cases 0 (bat (states sim) + 0 * SEASON_FACTORS season))
      as [[H' E] | [H' E]]; rewrite E; lra.
Qed.

(** The predators at the end of a season step, from the growth update
    on. *)
Lemma season_step_predators (season : Season) (sim : Sim) :
  let g := grown season (seasonal_operations season sim) in
  bird (states (season_step season sim)) =
    (if introduce_birds (scenario sim)
     then bird (states (update_predator_population bird_p g))
     else bird (states g)) /\
  bat (states (season_step season sim)) =
    bat (states (handle_predator_recovery g)).
Proof.
  cbv zeta. rewrite season_step_states, before_record_unfold.
  set (g := grown season (seasonal_operations season sim)).
  destruct (update_chemicals_fields (handle_predator_recovery g))
    as (_ & _ & _ & Eb & Et & _).
  rewrite Eb, Et. clear Eb Et.
  destruct (handle_predator_recovery_fields g) as (Eb & _).
  rewrite Eb. clear Eb.
  assert (Hcfg : scenario g = scenario sim).
  { subst g.
    destruct (grown_meta season (seasonal_operations season sim)) as (E & _).
    destruct (seasonal_operations_meta season sim) as (E' & _).
    congruence. }
  rewrite Hcfg. split; reflexivity.
Qed.

Lemma season_step_no_predators (season : Season) (sim : Sim) :
  (introduce_birds (scenario sim) = false ->
   bird (states sim) == 0 ->
   bird (states (season_step season sim)) == 0) /\
  (introduce_bats (scenario sim) = false ->
   bat (states sim) == 0 ->
   bat (states (season_step season sim)) == 0).
Proof.
  destruct (season_step_predators season sim) as [Eb Et].
  cbv zeta in Eb, Et.
  set (sim1 := seasonal_operations season sim) in *.
  destruct (seasonal_operations_chemical_effects season sim)
    as (_ & Fb & Ft & _).
  fold sim1 in Fb, Ft.
  destruct (grown_zero_predators season sim1) as [Gb Gt].
  assert (Hcfg : scenario (grown season sim1) = scenario sim).
  { destruct (grown_meta season sim1) as (E & _).
    destruct (seasonal_operations_meta season sim) as (E' & _).
    fold sim1 in E'. congruence. }
  split; intros Hflag Hz.
  - rewrite Eb, Hflag. apply Gb. rewrite Fb.
    unfold PARAMS.predator_pesticide_mortality.
    destruct (pesticide_fires season sim); lra.
  - rewrite Et.
    destruct (handle_predator_recovery_fields (grown season sim1))
      as (_ & E & _).
    rewrite E, Hcfg, Hflag. apply Gt. rewrite Ft.
    unfold PARAMS.predator_pesticide_mortality.
    destruct (pesticide_fires season sim); lra.
Qed.

(** X5: a predator that the scenario does not introduce is never there:
    without [introduce_birds] bird is 0 in every state and every record of
    a run, and without [introduce_bats] so is bat. *)
Theorem predators_absent_unless_introduced (scenario_config : Scenario)
    (q r : nat) :
  let sim := after scenario_config q r in
  (introduce_birds scenario_config = false ->
   bird (states sim) == 0 /\
   Forall (fun x => x == 0) (h_bird (history sim))) /\
  (introduce_bats scenario_config = false ->
   bat (states sim) == 0 /\
   Forall (fun x => x == 0) (h_bat (history sim))).
Proof.
  cbv zeta. split; intros Hflag.
  - apply (after_inv
             (fun s => scenario s = scenario_config /\
                       bird (states s) == 0 /\
                       Forall (fun x => x == 0) (h_bird (history s)))).
    + intros season sim (Hc & Hz & Hh).
      assert (Hz' : bird (states (season_step season sim)) == 0).
      { apply season_step_no_predators; [now rewrite Hc | exact Hz]. }
      split; [now rewrite season_step_scenario |]. split; [exact Hz' |].
      destruct (season_step_series season sim) as (_ & _ & _ & E & _).
      rewrite E. now apply Forall_snoc.
    + intros sim H. exact H.
    + split; [reflexivity |]. split; [reflexivity | constructor].
  - apply (after_inv
             (fun s => scenario s = scenario_config /\
                       bat (states s) == 0 /\
                       Forall (fun x => x == 0) (h_bat (history s)))).
    + intros season sim (Hc & Hz & Hh).
      assert (Hz' : bat (states (season_step season sim)) == 0).
      { apply season_step_no_predators; [now rewrite Hc | exact Hz]. }
      split; [now rewrite season_step_scenario |]. split; [exact Hz' |].
      destruct (season_step_series season sim) as (_ & _ & _ & _ & E & _).
      rewrite E. now apply Forall_snoc.
    + intros sim H. exact H.
    + split; [reflexivity |]. split; [reflexivity | constructor].
Qed.

Lemma predators_absent_unless_introduced_witness :
  bird (states (after (scenario infested_sim) 0 2)) == 0 /\
  bat (states (after birds_only 0 2)) == 0.
Proof.
  pose proof (predators_absent_unless_introduced
                (scenario infested_sim) 0 2) as H.
  pose proof (predators_absent_unless_introduced birds_only 0 2) as H'.
  cbv zeta in H, H'.
  split.
  - exact (proj1 (proj1 H eq_refl)).
  - exact (proj1 (proj2 H' eq_refl)).
Defined.

(** ** Residues *)

Lemma season_step_residue_values (season : Season) (sim : Sim) :
  let s := states sim in
  let s' := states (season_step season sim) in
  pesticide_residue s' =
    (if pesticide_fires season sim then 50 else pesticide_residue s)
    * (1 - PARAMS.pesticide_decay) /\
  herbicide_residue s' =
    (if herbicide_fires season sim then 40 else herbicide_residue s)
    * (1 - PARAMS.herbicide_decay).
Proof.
  cbv zeta.
  destruct (season_step_residues season sim) as [Ep Eh].
  destruct (seasonal_operations_chemical_effects season sim)
    as (_ & _ & _ & Fp & Fh).
  rewrite Ep, Eh, Fp, Fh. split; reflexivity.
Qed.

Lemma should_apply_chemical_needs_flag (sim : Sim) :
  (use_pesticide (scenario sim) = false ->
   should_apply_chemical pesticide sim = false) /\
  (use_herbicide (scenario sim) = false ->
   should_apply_chemical herbicide sim = false).
Proof.
  unfold should_apply_chemical. split; intros H; rewrite H; reflexivity.
Qed.

Lemma should_apply_chemical_stopped (sim : Sim) (stop : Z) :
  (stop <= year sim)%Z ->
  (pesticide_stop_year (scenario sim) = Some stop ->
   should_apply_chemical pesticide sim = false) /\
  (herbicide_stop_year (scenario sim) = Some stop ->
   should_apply_chemical herbicide sim = false).
Proof.
  intros Hy. unfold should_apply_chemical.
  assert (F : (year sim <? stop)%Z = false) by (apply Z.ltb_ge; exact Hy).
  split; intros H; rewrite H, F; apply andb_false_r.
Qed.

Lemma fires_needs_flag (season : Season) (sim : Sim) :
  (use_pesticide (scenario sim) = false ->
   pesticide_fires season sim = false) /\
  (use_herbicide (scenario sim) = false ->
   herbicide_fires season sim = false).
Proof.
  destruct season; cbn [pesticide_fires herbicide_fires];
    try (split; reflexivity).
  split; intros H.
  - now apply should_apply_chemical_needs_flag.
  - apply should_apply_chemical_needs_flag.
    destruct (pesticide_stage_frame sim) as (E & _). now rewrite E.
Qed.

Lemma fires_stopped (season : Season) (sim : Sim) (stop : Z) :
  (stop <= year sim)%Z ->
  (pesticide_stop_year (scenario sim) = Some stop ->
   pesticide_fires season sim = false) /\
  (herbicide_stop_year (scenario sim) = Some stop ->
   herbicide_fires season sim = false).
Proof.
  intros Hy.
  destruct season; cbn [pesticide_fires herbicide_fires];
    try (split; reflexivity).
  split; intros H.
  - now apply (should_apply_chemical_stopped sim stop).
  - destruct (pesticide_stage_frame sim) as (Ec & Ey & _).
    apply (should_apply_chemical_stopped (pesticide_stage sim) stop);
      [now rewrite Ey | now rewrite Ec].
Qed.

(** X6: a chemical that the scenario does not use leaves no residue:
    without [use_pesticide] pesticide_residue is 0 in every state and
    every record of a run, and without [use_herbicide] so is
    herbicide_residue. *)
Theorem no_chemical_no_residue (scenario_config : Scenario) (q r : nat) :
  let sim := after scenario_config q r in
  (use_pesticide scenario_config = false ->
   pesticide_residue (states sim) == 0 /\
   Forall (fun x => x == 0) (h_pesticide_residue (history sim))) /\
  (use_herbicide scenario_config = false ->
   herbicide_residue (states sim) == 0 /\
   Forall (fun x => x == 0) (h_herbicide_residue (history sim))).
Proof.
  cbv zeta. split; intros Hflag.
  - apply (after_inv
             (fun s => scenario s = scenario_config /\
                       pesticide_residue (states s) == 0 /\
                       Forall (fun x => x == 0)
                              (h_pesticide_residue (history s)))).
    + intros season sim (Hc & Hz & Hh).
      assert (Hz' : pesticide_residue (states (season_step season sim)) == 0).
      { destruct (season_step_residue_values season sim) as [E _].
        rewrite E.
        rewrite (proj1 (fires_needs_flag season sim)) by now rewrite Hc.
        rewrite Hz. reflexivity. }
      split; [now rewrite season_step_scenario |]. split; [exact Hz' |].
      destruct (season_step_series season sim)
        as (_ & _ & _ & _ & _ & _ & E).
      rewrite E. now apply Forall_snoc.
    + intros sim H. exact H.
    + split; [reflexivity |]. split; [reflexivity | constructor].
  - apply (after_inv
             (fun s => scenario s = scenario_config /\
                       herbicide_residue (states s) == 0 /\
                       Forall (fun x => x == 0)
                              (h_herbicide_residue (history s)))).
    + intros season sim (Hc & Hz & Hh).
      assert (Hz' : herbicide_residue (states (season_step season sim)) == 0).
      { destruct (season_step_residue_values season sim) as [_ E].
        rewrite E.
        rewrite (proj2 (fires_needs_flag season sim)) by now rewrite Hc.
        rewrite Hz. reflexivity. }
      split; [now rewrite season_step_scenario |]. split; [exact Hz' |].
      destruct (season_step_series season sim)
        as (_ & _ & _ & _ & _ & E & _).
      rewrite E. now apply Forall_snoc.
    + intros sim H. exact H.
    + split; [reflexivity |]. split; [reflexivity | constructor].
Qed.

Lemma no_chemical_no_residue_witness :
  pesticide_residue (states (after birds_only 1 2)) == 0 /\
  herbicide_residue (states (after birds_only 1 2)) == 0.
Proof.
  pose proof (no_chemical_no_residue birds_only 1 2) as H.
  cbv zeta in H. destruct H as [H1 H2].
  split.
  - exact (proj1 (H1 eq_refl)).
  - exact (proj1 (H2 eq_refl)).
Defined.

(** X7: from its stop year on a chemical is never applied again: in a run
    with [pesticide_stop_year = stop], in every year >= stop the pesticide
    test fails whatever the pest level, no season step touches pest, bird
    or bat through pesticide, and each season step multiplies
    pesticide_residue by 0.75; likewise for herbicide with its own stop
    year and the factor 0.7. *)
Theorem chemical_stops_at_stop_year (scenario_config : Scenario)
    (stop : Z) (q r : nat) (season : Season) :
  (stop <= Z.of_nat q)%Z ->
  let sim := after scenario_config q r in
  (pesticide_stop_year scenario_config = Some stop ->
   should_apply_chemical pesticide sim = false /\
   pest (states (seasonal_operations season sim)) = pest (states sim) /\
   bird (states (seasonal_operations season sim)) = bird (states sim) /\
   bat (states (seasonal_operations season sim)) = bat (states sim) /\
   pesticide_residue (states (season_step season sim))
   == pesticide_residue (states sim) * 0.75) /\
  (herbicide_stop_year scenario_config = Some stop ->
   should_apply_chemical herbicide (pesticide_stage sim) = false /\
   seasonal_operations summer sim
   = apply_organic_weed_control (pesticide_stage sim) /\
   herbicide_residue (states (season_step season sim))
   == herbicide_residue (states sim) * 0.7).
Proof.
  intros Hq. cbv zeta.
  destruct (after_meta scenario_config q r) as [Hcfg Hyear].
  set (sim := after scenario_config q r) in *.
  assert (Hy : (stop <= year sim)%Z) by now rewrite Hyear.
  split; intros Hstop.
  - assert (Hs : pesticide_stop_year (scenario sim) = Some stop)
      by now rewrite Hcfg.
    pose proof (proj1 (fires_stopped season sim stop Hy) Hs) as Hf.
    destruct (seasonal_operations_chemical_effects season sim)
      as (Ep & Eb & Et & _).
    cbv zeta in Eb, Et. rewrite Hf in Ep, Eb, Et.
    destruct (season_step_residue_values season sim) as [Er _].
    rewrite Hf in Er.
    split; [now apply (should_apply_chemical_stopped sim stop) |].
    repeat split; try assumption.
    rewrite Er. reflexivity.
  - assert (Hs : herbicide_stop_year (scenario sim) = Some stop)
      by now rewrite Hcfg.
    pose proof (proj2 (fires_stopped season sim stop Hy) Hs) as Hf.
    pose proof (proj2 (fires_stopped summer sim stop Hy) Hs) as Hf'.
    cbn [herbicide_fires] in Hf'.
    destruct (season_step_residue_values season sim) as [_ Er].
    rewrite Hf in Er.
    split; [exact Hf' |]. split.
    + cbn [seasonal_operations]. rewrite handle_summer_operations_stages.
      unfold weed_stage. now rewrite Hf'.
    + rewrite Er. reflexivity.
Qed.

Lemma chemical_stops_at_stop_year_witness :
  let cfg :=
    mkScenario true true true false false (Some false) (Some false)
               (Some 1%Z) (Some 1%Z) in
  should_apply_chemical pesticide (after cfg 1 1) = false /\
  should_apply_chemical herbicide (pesticide_stage (after cfg 1 1)) = false.
Proof.
  cbv zeta.
  pose proof (chemical_stops_at_stop_year
                (mkScenario true true true false false (Some false)
                            (Some false) (Some 1%Z) (Some 1%Z))
                1%Z 1 1 summer ltac:(cbn; lia)) as H.
  cbv zeta in H. destruct H as [H1 H2].
  split.
  - exact (proj1 (H1 eq_refl)).
  - exact (proj1 (H2 eq_refl)).
Defined.

(** ** Weed control *)

(** X8: in a year that is not negative, organic weed control never
    increases the weed: of a weed level w >= 0 it leaves at least
    0.2856 * w (= 0.51 * 0.8 * 0.7) and at most w, and at most 0.75 * w
    when mechanical weeding fires (w > 20); it writes no other field. *)
Theorem organic_weed_control_range (sim : Sim) :
  (0 <= year sim)%Z -> 0 <= weed (states sim) -> 0 <= crop (states sim) ->
  let s := states sim in
  let s' := states (apply_organic_weed_control sim) in
  0.2856 * weed s <= weed s' <= weed s /\
  (20 < weed s -> weed s' <= 0.75 * weed s) /\
  crop s' = crop s /\ pest s' = pest s /\ bird s' = bird s /\
  bat s' = bat s /\ soil_nutrient s' = soil_nutrient s /\
  soil_health s' = soil_health s /\
  herbicide_residue s' = herbicide_residue s /\
  pesticide_residue s' = pesticide_residue s.
Proof.
  intros Hy Hw Hc. cbv zeta.
  destruct (organic_weed_closed_form sim) as [E Ehr].
  destruct (organic_weed_result_range sim Hy Hw Hc) as [H1 H2].
  rewrite E. split; [exact H1 |]. split; [exact H2 |].
  rewrite Ehr. clear E Ehr H1 H2 Hy Hw Hc.
  destruct sim as [cfg y [c w p b t sn sh hr pr] h].
  destruct cfg as [uf uh up ib it uof [[|]|] hs ps];
    unfold apply_organic_weed_control; unfold_ops;
    destruct (Qltb 20 w); repeat split.
Qed.

Lemma organic_weed_control_range_witness :
  0.2856 * 30 <= weed (states (apply_organic_weed_control year8_sim)) <= 30.
Proof.
  pose proof (organic_weed_control_range year8_sim) as H.
  cbv zeta in H.
  apply H.
  - cbn. lia.
  - cbn. lra.
  - cbn. lra.
Defined.

(** X9: computing the growth rates has one side effect, the seed predation
    of the bird rate: with bird >= 0 and weed >= 0 it takes at most 10% of
    the weed (weed * (1 - min(0.1, bird * 0.005))), nothing when there is
    no bird, and it leaves every other field, the scenario, the year and
    the history as they were. *)
Theorem growth_rates_side_effect (season : Season) (sim : Sim) :
  0 <= bird (states sim) -> 0 <= weed (states sim) ->
  let s := states sim in
  let sim' := snd (calculate_growth_rates season sim) in
  let s' := states sim' in
  0.9 * weed s <= weed s' <= weed s /\
  (bird s == 0 -> weed s' = weed s) /\
  (0 < bird s -> weed s' = weed s * (1 - py_min 0.1 (bird s * 0.005))) /\
  crop s' = crop s /\ pest s' = pest s /\ bird s' = bird s /\
  bat s' = bat s /\ soil_nutrient s' = soil_nutrient s /\
  soil_health s' = soil_health s /\
  herbicide_residue s' = herbicide_residue s /\
  pesticide_residue s' = pesticide_residue s /\
  scenario sim' = scenario sim /\ year sim' = year sim /\
  history sim' = history sim.
Proof.
  intros Hb Hw. cbv zeta.
  destruct (calculate_growth_rates_states season sim)
    as (Ec & Ep & Eb & Et & Esn & Esh & Ehr & Epr).
  destruct (calculate_growth_rates_meta season sim) as (Mc & My & Mh).
  rewrite calculate_growth_rates_weed.
  pose proof (seed_predation_range _ Hb) as Hsp.
  set (sp := py_min 0.1 (bird (states sim) * 0.005)) in *.
  destruct (Qltb_cases 0 (bird (states sim))) as [[E Hlt] | [E Hle]];
    rewrite E.
  - split; [split; nra |].
    split; [intros Hz; lra |]. split; [reflexivity |].
    repeat split; assumption.
  - split; [split; lra |].
    split; [reflexivity |]. split; [intros Hlt; lra |].
    repeat split; assumption.
Qed.

Lemma growth_rates_side_effect_witness :
  weed (states (snd (calculate_growth_rates spring (init birds_only))))
  = weed (states (init birds_only)).
Proof.
  pose proof (growth_rates_side_effect spring (init birds_only)) as H.
  cbv zeta in H.
  destruct H as (_ & H & _).
  - cbn. lra.
  - cbn. lra.
  - apply H. reflexivity.
Defined.

(** ** Predators without pesticide *)

Lemma recovery_value_monotone (x r K seed P : Q) :
  0 < K -> 0 <= x <= K -> 0 < seed <= K -> 0 <= P ->
  0 <= r * 1.3 * 0.5 <= 1 -> 0 <= r ->
  x <= (if Qeq_bool x 0 then seed
        else x + r * x * (1 - x / K) * (1 + py_min 0.3 (P / 100.0)) * 0.5).
Proof.
  intros HK Hx Hseed HP Hr Hr0.
  destruct (recovery_value_range x r K seed P HK Hx Hseed HP Hr Hr0)
    as [H1 H2].
  destruct (Qlt_le_dec 0 x) as [Hpos | Hz]; [now apply H2 | lra].
Qed.

Lemma handle_predator_recovery_monotone (sim : Sim) :
  state_dosed (states sim) ->
  bird (states sim) <= bird (states (handle_predator_recovery sim)) /\
  bat (states sim) <= bat (states (handle_predator_recovery sim)).
Proof.
  intros (Hc & Hw & Hp & Hb & Ht & _).
  destruct (handle_predator_recovery_fields sim) as (Eb & Et & _).
  destruct (update_predator_population_bird sim) as (Fb & _).
  rewrite Fb in Eb. clear Fb.
  pose proof (recovery_value_monotone (bird (states sim)) PARAMS.r_bird
                PARAMS.K_bird 2.0 (pest (states sim))) as Rb.
  pose proof (recovery_value_monotone (bat (states sim)) PARAMS.r_bat
                PARAMS.K_bat 1.5 (pest (states sim))) as Rt.
  unfold PARAMS.r_bird, PARAMS.K_bird in Rb, Eb.
  unfold PARAMS.r_bat, PARAMS.K_bat in Rt, Et.
  rewrite Eb, Et.
  split.
  - destruct (introduce_birds (scenario sim)); [apply Rb; lra | lra].
  - destruct (introduce_bats (scenario sim)); [apply Rt; lra | lra].
Qed.

Lemma season_step_predators_rise (season : Season) (sim : Sim) :
  state_ok (states sim) ->
  pesticide_fires season sim = false ->
  bird (states sim) <= bird (states (season_step season sim)) /\
  bat (states sim) <= bat (states (season_step season sim)).
Proof.
  intros Hok Hf.
  rewrite season_step_states, before_record_unfold.
  set (sim1 := seasonal_operations season sim).
  pose proof (seasonal_operations_bounds season sim Hok) as Hok1.
  fold sim1 in Hok1.
  destruct (seasonal_operations_chemical_effects season sim)
    as (_ & Fb & Ft & _).
  cbv zeta in Fb, Ft. fold sim1 in Fb, Ft. rewrite Hf in Fb, Ft.
  pose proof (grown_bird season sim1 Hok1) as Gb.
  pose proof (grown_bat season sim1 Hok1) as Gt.
  pose proof (grown_bounds season sim1 Hok1) as Hok2.
  destruct (handle_predator_recovery_monotone (grown season sim1) Hok2)
    as [Rb Rt].
  destruct (update_chemicals_fields
              (handle_predator_recovery (grown season sim1)))
    as (_ & _ & _ & Eb & Et & _).
  rewrite Eb, Et. rewrite Fb in Gb. rewrite Ft in Gt. split; lra.
Qed.

Lemma StronglySorted_snoc (l : list Q) (x : Q) :
  StronglySorted Qle l -> Forall (fun y => y <= x) l ->
  StronglySorted Qle (l ++ [x]).
Proof.
  induction 1 as [| a l Hl IH Ha]; intros Hx; cbn.
  - repeat constructor.
  - inversion_clear Hx as [| ? ? Hax Hlx].
    constructor; [now apply IH |].
    apply Forall_app. split; [exact Ha | now repeat constructor].
Qed.

Lemma predators_rising_step (season : Season) (sim : Sim) :
  predators_rising sim -> predators_rising (season_step season sim).
Proof.
  intros (Hok & Hflag & Hb & Ht & Sb & St).
  destruct (season_step_predators_rise season sim (proj1 Hok)) as [Rb Rt].
  { now apply fires_needs_flag. }
  split; [now apply season_step_ok |].
  split; [now rewrite season_step_scenario |].
  destruct (season_step_series season sim) as (_ & _ & _ & Eb & Et & _).
  rewrite Eb, Et.
  repeat split.
  - apply Forall_snoc; [| lra].
    refine (Forall_impl _ _ Hb). cbv beta. intros; lra.
  - apply Forall_snoc; [| lra].
    refine (Forall_impl _ _ Ht). cbv beta. intros; lra.
  - apply StronglySorted_snoc; [exact Sb |].
    refine (Forall_impl _ _ Hb). cbv beta. intros; lra.
  - apply StronglySorted_snoc; [exact St |].
    refine (Forall_impl _ _ Ht). cbv beta. intros; lra.
Qed.

(** X10: pesticide is the only thing that lowers a predator population:
    a season step that applies none ends with bird and bat at least where
    they started, so in a run of a scenario without [use_pesticide] the
    recorded bird and bat series never go down. *)
Theorem predators_decline_only_by_pesticide (scenario_config : Scenario)
    (q r : nat) (season : Season) :
  let sim := after scenario_config q r in
  (pesticide_fires season sim = false ->
   bird (states sim) <= bird (states (season_step season sim)) /\
   bat (states sim) <= bat (states (season_step season sim))) /\
  (use_pesticide scenario_config = false ->
   StronglySorted Qle (h_bird (history sim)) /\
   StronglySorted Qle (h_bat (history sim))).
Proof.
  cbv zeta. split.
  - intros Hf. apply season_step_predators_rise; [| exact Hf].
    apply after_ok.
  - intros Hflag.
    assert (H : predators_rising (after scenario_config q r)).
    { apply after_inv.
      - apply predators_rising_step.
      - intros sim H. exact H.
      - split; [apply init_ok |]. split; [exact Hflag |].
        repeat split; constructor. }
    destruct H as (_ & _ & _ & _ & Sb & St). split; assumption.
Qed.

Lemma predators_decline_only_by_pesticide_witness :
  bird (states (after birds_only 0 1))
  <= bird (states (season_step summer (after birds_only 0 1))) /\
  StronglySorted Qle (h_bird (history (after birds_only 0 2))).
Proof.
  pose proof (predators_decline_only_by_pesticide birds_only 0 1 summer)
    as H.
  pose proof (predators_decline_only_by_pesticide birds_only 0 2 summer)
    as H'.
  cbv zeta in H, H'.
  split.
  - refine (proj1 (proj1 H _)).
    apply (proj1 (fires_needs_flag summer (after birds_only 0 1))).
    now rewrite (proj1 (after_meta birds_only 0 1)).
  - exact (proj1 (proj2 H' eq_refl)).
Defined.

(** ** The history as a log *)

Lemma history_app_empty (h : History) : history_app h empty_history = h.
Proof.
  destruct h. unfold history_app, empty_history. cbn.
  now rewrite !app_nil_r.
Qed.

Lemma history_app_assoc (h d e : History) :
  history_app (history_app h d) e = history_app h (history_app d e).
Proof.
  unfold history_app. cbn. now rewrite <- !app_assoc.
Qed.

Lemma history_lengths_app (h d : History) :
  history_lengths (history_app h d) =
  map (fun p => (fst p + snd p)%nat)
      (combine (history_lengths h) (history_lengths d)).
Proof.
  unfold history_lengths, history_app. cbn. now rewrite !length_app.
Qed.

Lemma run_seasons_appends (l : list Season) (sim : Sim) :
  exists d : History,
    history (run_seasons l sim) = history_app (history sim) d /\
    history_lengths d = repeat (length l) 11 /\
    h_season d = l /\
    h_year d = repeat (year sim) (length l).
Proof.
  revert sim. induction l as [| season l IH]; intros sim.
  - exists empty_history. rewrite run_seasons_nil, history_app_empty.
    repeat split.
  - rewrite run_seasons_cons.
    destruct (IH (season_step season sim)) as (d & E & Hlen & Hs & Hy).
    exists (history_app (snapshot season (season_step season sim)) d).
    rewrite E, season_step_history, history_app_assoc.
    split; [reflexivity |]. rewrite history_lengths_app, Hlen.
    rewrite season_step_year in Hy.
    cbn [history_app h_season h_year snapshot]. rewrite Hs, Hy.
    rewrite season_step_year. repeat split.
Qed.

(** X11: the history is an append-only log.  A season step appends to
    each of the eleven lists exactly one entry, the value the state has at
    the end of that step, and changes no earlier entry; any sequence of
    season steps therefore extends every list of the history it started
    from by one entry per step, labelled with the seasons run and the
    year they ran in. *)
Theorem history_is_append_only (l : list Season) (sim : Sim) :
  (forall season,
     history (season_step season sim) =
     history_app (history sim) (snapshot season (season_step season sim))) /\
  exists d : History,
    history (run_seasons l sim) = history_app (history sim) d /\
    history_lengths d = repeat (length l) 11 /\
    h_season d = l /\
    h_year d = repeat (year sim) (length l).
Proof.
  split.
  - intros season. apply season_step_history.
  - apply run_seasons_appends.
Qed.

(** ** Labels of a run *)

Lemma repeat_snoc {A : Type} (x : A) (n : nat) :
  repeat x (S n) = repeat x n ++ [x].
Proof.
  induction n as [| n IH]; [reflexivity |].
  cbn [repeat app] in *. now rewrite <- IH.
Qed.

Lemma simulate_years_seasons (cfg : Scenario) (N : nat) :
  h_season (history (simulate_years N (init cfg))) = concat (repeat SEASONS N).
Proof.
  induction N as [| n IH]; [reflexivity |].
  rewrite simulate_years_succ.
  destruct (simulate_year_labels (simulate_years n (init cfg)))
    as (_ & _ & E).
  rewrite E, IH, repeat_snoc, concat_app. cbn [concat].
  now rewrite app_nil_r.
Qed.

Lemma simulate_years_years (cfg : Scenario) (N : nat) :
  h_year (history (simulate_years N (init cfg))) =
  flat_map (fun y => repeat (Z.of_nat y) 4) (seq 0 N).
Proof.
  induction N as [| n IH]; [reflexivity |].
  rewrite simulate_years_succ.
  destruct (simulate_year_labels (simulate_years n (init cfg)))
    as (_ & E & _).
  rewrite E, IH, simulate_years_year, seq_S, flat_map_app.
  cbn [flat_map Nat.add]. now rewrite app_nil_r.
Qed.

Lemma simulate_years_lengths (cfg : Scenario) (N : nat) :
  history_lengths (history (simulate_years N (init cfg)))
  = repeat (4 * N)%nat 11.
Proof.
  induction N as [| n IH]; [reflexivity |].
  rewrite simulate_years_succ, simulate_year_lengths, IH.
  cbn [repeat map].
  replace (4 + 4 * n)%nat with (4 * S n)%nat by lia. reflexivity.
Qed.

(** X12: the labels of a run of N years: the season list is N times
    spring, summer, autumn, winter, and the year list holds each year
    0 .. N-1 four times, in order; the year counter ends at N and the
    scenario is the one the simulation was created with. *)
Theorem run_labels (scenario_config : Scenario) (N : nat) :
  let sim := simulate_years N (init scenario_config) in
  h_season (run_simulation scenario_config N) = concat (repeat SEASONS N) /\
  h_year (run_simulation scenario_config N) =
    flat_map (fun y => repeat (Z.of_nat y) 4) (seq 0 N) /\
  year sim = Z.of_nat N /\
  scenario sim = scenario_config.
Proof.
  cbv zeta. unfold run_simulation.
  split; [apply simulate_years_seasons |].
  split; [apply simulate_years_years |].
  split; [apply simulate_years_year | apply simulate_years_scenario].
Qed.

(** ** Introduction of bats *)

Lemma season_step_bat (season : Season) (sim : Sim) :
  let g := grown season (seasonal_operations season sim) in
  bat (states (season_step season sim)) =
  if introduce_bats (scenario sim)
  then (if Qeq_bool (bat (states g)) 0 then 1.5
        else bat (states g)
             + PARAMS.r_bat * bat (states g)
               * (1 - bat (states g) / PARAMS.K_bat)
               * (1 + py_min 0.3 (pest (states g) / 100.0)) * 0.5)
  else bat (states g).
Proof.
  cbv zeta. destruct (season_step_predators season sim) as [_ E].
  cbv zeta in E. rewrite E. clear E.
  set (g := grown season (seasonal_operations season sim)).
  destruct (handle_predator_recovery_fields g) as (_ & E & _).
  rewrite E. clear E.
  assert (Hcfg : scenario g = scenario sim).
  { subst g.
    destruct (grown_meta season (seasonal_operations season sim)) as (E & _).
    destruct (seasonal_operations_meta season sim) as (E' & _).
    congruence. }
  now rewrite Hcfg.
Qed.

Lemma first_step_seeds_bats (season : Season) (sim : Sim) :
  introduce_bats (scenario sim) = true ->
  bat (states sim) == 0 ->
  bat (states (season_step season sim)) = 1.5.
Proof.
  intros Hflag Hz.
  rewrite season_step_bat, Hflag.
  destruct (seasonal_operations_chemical_effects season sim)
    as (_ & _ & Ft & _).
  cbv zeta in Ft.
  assert (H1 : bat (states (seasonal_operations season sim)) == 0).
  { rewrite Ft. unfold PARAMS.predator_pesticide_mortality.
    destruct (pesticide_fires season sim); lra. }
  pose proof (proj2 (grown_zero_predators season _) H1) as H2.
  apply Qeq_bool_iff in H2. now rewrite H2.
Qed.

Lemma bat_stays_positive (season : Season) (sim : Sim) :
  state_ok (states sim) ->
  0 < bat (states sim) ->
  0 < bat (states (season_step season sim)).
Proof.
  intros Hok Hpos.
  rewrite season_step_states, before_record_unfold.
  set (sim1 := seasonal_operations season sim).
  pose proof (seasonal_operations_bounds season sim Hok) as Hok1.
  fold sim1 in Hok1.
  destruct (seasonal_operations_chemical_effects season sim)
    as (_ & _ & Ft & _).
  cbv zeta in Ft. fold sim1 in Ft.
  assert (H1 : 0 < bat (states sim1)).
  { rewrite Ft. unfold PARAMS.predator_pesticide_mortality.
    destruct (pesticide_fires season sim); lra. }
  pose proof (grown_bat season sim1 Hok1) as Gt.
  pose proof (grown_bounds season sim1 Hok1) as Hok2.
  destruct (handle_predator_recovery_monotone (grown season sim1) Hok2)
    as [_ Rt].
  destruct (update_chemicals_fields
              (handle_predator_recovery (grown season sim1)))
    as (_ & _ & _ & _ & Et & _).
  rewrite Et. lra.
Qed.

Lemma bats_present_step (season : Season) (sim : Sim) :
  bats_present sim -> bats_present (season_step season sim).
Proof.
  intros (Hok & Hb & Hh).
  assert (Hb' : 0 < bat (states (season_step season sim)))
    by (apply bat_stays_positive; [apply Hok | exact Hb]).
  split; [now apply season_step_ok |]. split; [exact Hb' |].
  destruct (season_step_series season sim) as (_ & _ & _ & _ & E & _).
  rewrite E. now apply Forall_snoc.
Qed.

(** X18: in a scenario with [introduce_bats], a season step started with
    bat = 0 leaves bat at exactly 1.5, so the first step of a run does;
    after that first step the bat population is never 0 again, neither in
    the state nor in any recorded value. *)
Theorem bats_seeded_then_never_extinct (scenario_config : Scenario) :
  introduce_bats scenario_config = true ->
  (forall season sim,
     scenario sim = scenario_config ->
     bat (states sim) == 0 ->
     bat (states (season_step season sim)) = 1.5) /\
  h_bat (history (after scenario_config 0 1)) = [1.5] /\
  (forall q r : nat,
     (1 <= 4 * q + r)%nat ->
     let sim := after scenario_config q r in
     0 < bat (states sim) /\
     Forall (fun x => ~ x == 0) (h_bat (history sim))).
Proof.
  intros Hflag.
  assert (Hfirst :
            bat (states (season_step spring (init scenario_config))) = 1.5).
  { apply first_step_seeds_bats; [exact Hflag | reflexivity]. }
  assert (Hhist :
            h_bat (history (season_step spring (init scenario_config)))
            = [1.5]).
  { destruct (season_step_series spring (init scenario_config))
      as (_ & _ & _ & _ & E & _).
    rewrite E, Hfirst. reflexivity. }
  split; [| split].
  - intros season sim Hcfg Hb.
    apply first_step_seeds_bats; [now rewrite Hcfg | exact Hb].
  - unfold after, SEASONS.
    change (simulate_years 0 (init scenario_config))
      with (init scenario_config).
    now rewrite firstn_cons, firstn_O, run_seasons_cons, run_seasons_nil.
  - intros q r Hk. cbv zeta.
    assert (H : bats_present (after scenario_config q r)).
    { apply after_inv_from_first; [apply bats_present_step | | | exact Hk].
      - intros sim H. exact H.
      - split; [apply season_step_ok, init_ok |].
        split; [rewrite Hfirst; reflexivity |].
        rewrite Hhist. repeat constructor. }
    destruct H as (_ & Hb & Hh).
    split; [exact Hb |].
    refine (Forall_impl _ _ Hh). cbv beta. intros; lra.
Qed.

Lemma bats_seeded_then_never_extinct_witness :
  let cfg := mkScenario false false false false true None None None None in
  bat (states (season_step spring (init cfg))) = 1.5 /\
  0 < bat (states (after cfg 0 2)).
Proof.
  cbv zeta.
  destruct (bats_seeded_then_never_extinct
              (mkScenario false false false false true None None None None)
              eq_refl) as (H1 & _ & H2).
  split.
  - apply H1; reflexivity.
  - apply (H2 0%nat 2%nat). cbn. lia.
Defined.

(** ** Soil nutrients without fertilizer *)

Lemma season_step_soil_nutrient (season : Season) (sim : Sim) :
  soil_nutrient (states (season_step season sim)) =
  soil_nutrient (states (seasonal_operations season sim)) * 0.9 /\
  h_soil_nutrient (history (season_step season sim)) =
  h_soil_nutrient (history sim)
    ++ [soil_nutrient (states (season_step season sim))].
Proof.
  split.
  - rewrite season_step_states, before_record_unfold.
    set (sim1 := seasonal_operations season sim).
    destruct (update_chemicals_fields
                (handle_predator_recovery (grown season sim1)))
      as (_ & _ & _ & _ & _ & E & _).
    rewrite E. clear E.
    destruct (handle_predator_recovery_fields (grown season sim1))
      as (_ & _ & _ & _ & _ & E & _).
    rewrite E. clear E. unfold grown.
    destruct (apply_growth_rates_fields
                (fst (calculate_growth_rates season sim1))
                (snd (calculate_growth_rates season sim1)))
      as (_ & _ & _ & _ & _ & E & _).
    rewrite E. clear E.
    destruct (calculate_growth_rates_states season sim1)
      as (_ & _ & _ & _ & E & _).
    now rewrite E.
  - pose proof (season_step_history season sim) as E.
    set (sim' := season_step season sim) in *. clearbody sim'.
    now rewrite E.
Qed.

Lemma seasonal_operations_soil_nutrient (season : Season) (sim : Sim) :
  use_fertilizer (scenario sim) = false ->
  soil_nutrient (states (seasonal_operations season sim))
  = soil_nutrient (states sim).
Proof.
  intros Hflag. destruct season; cbn [seasonal_operations]; try reflexivity.
  - destruct sim as [cfg y [c w p b t sn sh hr pr] h].
    destruct cfg as [uf uh up ib it uof ucc hs ps].
    cbn in Hflag. subst uf. reflexivity.
  - rewrite handle_summer_operations_stages.
    destruct (weed_stage_frame (pesticide_stage sim))
      as (_ & _ & _ & _ & E & _).
    destruct (pesticide_stage_frame sim) as (_ & _ & _ & _ & _ & F & _).
    now rewrite E, F.
Qed.

Lemma nutrient_decayed_step (season : Season) (sim : Sim) :
  nutrient_decayed sim -> nutrient_decayed (season_step season sim).
Proof.
  intros [Hflag H]. split; [now rewrite season_step_scenario |].
  destruct (season_step_soil_nutrient season sim) as [E1 E2].
  rewrite E2, last_length, E1, seasonal_operations_soil_nutrient, H
    by exact Hflag.
  rewrite Nat2Z.inj_succ, <- Z.add_1_r, Qpower_plus by discriminate.
  change (0.9 ^ 1) with 0.9. ring.
Qed.

(** X19: without fertilizer nothing feeds the soil: each season step
    multiplies soil_nutrient by 0.9, so after k recorded season steps of
    such a run soil_nutrient is 50 * 0.9^k, and k = 4 * q + r after q
    years and r <= 4 further seasons. *)
Theorem nutrients_decay_without_fertilizer (scenario_config : Scenario)
    (q r : nat) :
  use_fertilizer scenario_config = false ->
  let sim := after scenario_config q r in
  (forall season,
     soil_nutrient (states (season_step season sim))
     = soil_nutrient (states sim) * 0.9) /\
  soil_nutrient (states sim)
  == 50 * 0.9 ^ Z.of_nat (length (h_soil_nutrient (history sim))) /\
  ((r <= 4)%nat ->
   length (h_soil_nutrient (history sim)) = (4 * q + r)%nat).
Proof.
  intros Hflag. cbv zeta.
  assert (H : nutrient_decayed (after scenario_config q r)).
  { apply after_inv.
    - apply nutrient_decayed_step.
    - intros sim H. exact H.
    - split; [exact Hflag | reflexivity]. }
  destruct H as [Hf H].
  split; [| split; [exact H |]].
  - intros season.
    rewrite (proj1 (season_step_soil_nutrient season _)).
    now rewrite seasonal_operations_soil_nutrient.
  - intros Hr. unfold after.
    destruct (run_seasons_appends (firstn r SEASONS)
                (simulate_years q (init scenario_config)))
      as (d & E & Hlen & _).
    rewrite E. cbn [history_app h_soil_nutrient]. rewrite length_app.
    pose proof (simulate_years_lengths scenario_config q) as Hq.
    unfold history_lengths in Hq, Hlen.
    injection Hq as _ _ _ _ _ Hq _ _ _ _ _.
    injection Hlen as _ _ _ _ _ Hlen _ _ _ _ _.
    rewrite Hq, Hlen, length_firstn. cbn [SEASONS length]. lia.
Qed.

Lemma nutrients_decay_without_fertilizer_witness :
  soil_nutrient (states (season_step spring (after birds_only 0 0)))
  = soil_nutrient (states (after birds_only 0 0)) * 0.9.
Proof.
  pose proof (nutrients_decay_without_fertilizer birds_only 0 0 eq_refl)
    as H.
  cbv zeta in H. apply H.
Defined.

(** X20: in a run the farming operations of a season never raise weed or
    pest: weed and pest after [seasonal_operations] are at most what they
    were before, whichever of pesticide, herbicide and organic weed
    control runs. *)
Theorem farming_operations_never_raise_weed_or_pest
    (scenario_config : Scenario) (q r : nat) (season : Season) :
  let sim := after scenario_config q r in
  weed (states (seasonal_operations season sim)) <= weed (states sim) /\
  pest (states (seasonal_operations season sim)) <= pest (states sim).
Proof.
  cbv zeta. apply seasonal_operations_weed_pest.
  - apply after_ok.
  - rewrite (proj2 (after_meta scenario_config q r)). lia.
Qed.

(** * Properties of the evaluation *)

(** ** Annual data *)

Lemma collect_some {A : Type} (l : list (option A)) (xs : list A) :
  collect l = Some xs <-> l = map Some xs.
Proof.
  revert xs. induction l as [| [x |] l IH]; intros xs; cbn.
  - split.
    + intros H. injection H as <-. reflexivity.
    + destruct xs; [reflexivity | discriminate].
  - destruct (collect l) as [ys |] eqn:E.
    + split.
      * intros H. injection H as <-. cbn. f_equal. now apply IH.
      * destruct xs as [| y ys']; [discriminate |]. cbn.
        intros H. injection H as -> H. apply IH in H.
        congruence.
    + split; [discriminate |].
      destruct xs as [| y ys']; [discriminate |]. cbn.
      intros H. injection H as -> H. apply IH in H. discriminate.
  - split; [discriminate |].
    destruct xs; discriminate.
Qed.

(** The annual series exists as soon as every index [4 i + 3], [i < n],
    is inside the list, and then lists those entries. *)
Lemma annual_series_intro {A : Type} (v : list A) (n : nat) (g : nat -> A) :
  (forall i, (i < n)%nat -> nth_error v (i * 4 + 3) = Some (g i)) ->
  annual_series v n = Some (map g (seq 0 n)).
Proof.
  intros H. unfold annual_series. apply collect_some.
  rewrite map_map. apply map_ext_in.
  intros i Hi. apply in_seq in Hi. apply H. lia.
Qed.

Lemma annual_series_some {A : Type} (v : list A) (n : nat) (l : list A) :
  annual_series v n = Some l ->
  length l = n /\
  forall i, (i < n)%nat -> nth_error l i = nth_error v (i * 4 + 3).
Proof.
  unfold annual_series. intros H. apply collect_some in H.
  assert (Hlen : length l = n).
  { apply (f_equal (@length _)) in H.
    rewrite !length_map, length_seq in H. congruence. }
  split; [exact Hlen |].
  intros i Hi.
  apply (f_equal (fun m => nth_error m i)) in H.
  rewrite !nth_error_map in H.
  rewrite nth_error_seq in H.
  destruct (Nat.ltb_spec i n) as [_ | Hge]; [| lia].
  cbn in H. destruct (nth_error l i) as [x |] eqn:E.
  - cbn in H. congruence.
  - apply nth_error_None in E. lia.
Qed.

Lemma annual_series_none {A : Type} (v : list A) (n : nat) :
  annual_series v n = None <-> (0 < n /\ length v < 4 * n)%nat.
Proof.
  split.
  - intros H.
    destruct (Nat.eq_dec n 0) as [-> | Hn]; [discriminate |].
    destruct (Nat.lt_ge_cases (length v) (4 * n)) as [Hlt | Hge];
      [lia |].
    exfalso.
    destruct v as [| d v']; [cbn in Hge; lia |].
    rewrite (annual_series_intro (d :: v') n
               (fun i => nth (i * 4 + 3) (d :: v') d)) in H;
      [discriminate |].
    intros i Hi. apply nth_error_nth'. lia.
  - intros [Hn Hlt].
    destruct (annual_series v n) as [l |] eqn:E; [| reflexivity].
    exfalso. destruct (annual_series_some v n l E) as [Hlen Hnth].
    specialize (Hnth (n - 1)%nat ltac:(lia)).
    assert (Hin : (n - 1 < length l)%nat) by lia.
    apply nth_error_Some in Hin. rewrite Hnth in Hin.
    apply Hin. apply nth_error_None. lia.
Qed.

(** The eleven lists of a history, as propositions about each length. *)
Lemma Exists_history_lengths (P : nat -> Prop) (h : History) :
  Exists P (history_lengths h) <->
  P (length (h_crop h)) \/ P (length (h_weed h)) \/ P (length (h_pest h)) \/
  P (length (h_bird h)) \/ P (length (h_bat h)) \/
  P (length (h_soil_nutrient h)) \/ P (length (h_soil_health h)) \/
  P (length (h_herbicide_residue h)) \/
  P (length (h_pesticide_residue h)) \/
  P (length (h_year h)) \/ P (length (h_season h)).
Proof.
  unfold history_lengths. rewrite !Exists_cons, Exists_nil. tauto.
Qed.

Lemma extract_annual_data_none (h : History) (n : nat) :
  extract_annual_data h n = None <->
  (0 < n)%nat /\
  Exists (fun len => (len < 4 * n)%nat) (history_lengths h).
Proof.
  rewrite Exists_history_lengths.
  pose proof (annual_series_none (h_crop h) n) as H1.
  pose proof (annual_series_none (h_weed h) n) as H2.
  pose proof (annual_series_none (h_pest h) n) as H3.
  pose proof (annual_series_none (h_bird h) n) as H4.
  pose proof (annual_series_none (h_bat h) n) as H5.
  pose proof (annual_series_none (h_soil_nutrient h) n) as H6.
  pose proof (annual_series_none (h_soil_health h) n) as H7.
  pose proof (annual_series_none (h_herbicide_residue h) n) as H8.
  pose proof (annual_series_none (h_pesticide_residue h) n) as H9.
  pose proof (annual_series_none (h_year h) n) as H10.
  pose proof (annual_series_none (h_season h) n) as H11.
  unfold extract_annual_data.
  destruct (annual_series (h_crop h) n);
    [| split; [intros _; tauto | reflexivity]].
  destruct (annual_series (h_weed h) n);
    [| split; [intros _; tauto | reflexivity]].
  destruct (annual_series (h_pest h) n);
    [| split; [intros _; tauto | reflexivity]].
  destruct (annual_series (h_bird h) n);
    [| split; [intros _; tauto | reflexivity]].
  destruct (annual_series (h_bat h) n);
    [| split; [intros _; tauto | reflexivity]].
  destruct (annual_series (h_soil_nutrient h) n);
    [| split; [intros _; tauto | reflexivity]].
  destruct (annual_series (h_soil_health h) n);
    [| split; [intros _; tauto | reflexivity]].
  destruct (annual_series (h_herbicide_residue h) n);
    [| split; [intros _; tauto | reflexivity]].
  destruct (annual_series (h_pesticide_residue h) n);
    [| split; [intros _; tauto | reflexivity]].
  destruct (annual_series (h_year h) n);
    [| split; [intros _; tauto | reflexivity]].
  destruct (annual_series (h_season h) n);
    [| split; [intros _; tauto | reflexivity]].
  split; [discriminate |].
  intros [Hn Hex]. exfalso.
  assert (D : forall (A : Type) (x : A), Some x = None -> False)
    by (intros; discriminate).
  repeat match goal with
  | H : Some _ = None <-> _ |- _ =>
      apply proj2 in H;
      let H' := fresh in
      assert (H' := fun p => D _ _ (H p)); clear H
  end.
  tauto.
Qed.

Lemma extract_annual_data_some (h a : History) (n : nat) :
  extract_annual_data h n = Some a ->
  annual_series (h_crop h) n = Some (h_crop a) /\
  annual_series (h_weed h) n = Some (h_weed a) /\
  annual_series (h_pest h) n = Some (h_pest a) /\
  annual_series (h_bird h) n = Some (h_bird a) /\
  annual_series (h_bat h) n = Some (h_bat a) /\
  annual_series (h_soil_nutrient h) n = Some (h_soil_nutrient a) /\
  annual_series (h_soil_health h) n = Some (h_soil_health a) /\
  annual_series (h_herbicide_residue h) n = Some (h_herbicide_residue a) /\
  annual_series (h_pesticide_residue h) n = Some (h_pesticide_residue a) /\
  annual_series (h_year h) n = Some (h_year a) /\
  annual_series (h_season h) n = Some (h_season a).
Proof.
  unfold extract_annual_data.
  destruct (annual_series (h_crop h) n); [| discriminate].
  destruct (annual_series (h_weed h) n); [| discriminate].
  destruct (annual_series (h_pest h) n); [| discriminate].
  destruct (annual_series (h_bird h) n); [| discriminate].
  destruct (annual_series (h_bat h) n); [| discriminate].
  destruct (annual_series (h_soil_nutrient h) n); [| discriminate].
  destruct (annual_series (h_soil_health h) n); [| discriminate].
  destruct (annual_series (h_herbicide_residue h) n); [| discriminate].
  destruct (annual_series (h_pesticide_residue h) n); [| discriminate].
  destruct (annual_series (h_year h) n); [| discriminate].
  destruct (annual_series (h_season h) n); [| discriminate].
  intros H. injection H as <-. repeat split.
Qed.

(** X13: [extract_annual_data] raises IndexError exactly when some list of
    the history is shorter than 4 * n_years (and n_years > 0); otherwise
    each of the eleven result lists has n_years entries, the i-th being
    entry 4 i + 3 of the list it came from. *)
Theorem extract_annual_data_index_error (h : History) (n_years : nat) :
  (extract_annual_data h n_years = None <->
   (0 < n_years)%nat /\
   Exists (fun len => (len < 4 * n_years)%nat) (history_lengths h)) /\
  forall a,
    extract_annual_data h n_years = Some a ->
    history_lengths a = repeat n_years 11 /\
    forall i, (i < n_years)%nat ->
      nth_error (h_crop a) i = nth_error (h_crop h) (i * 4 + 3) /\
      nth_error (h_weed a) i = nth_error (h_weed h) (i * 4 + 3) /\
      nth_error (h_pest a) i = nth_error (h_pest h) (i * 4 + 3) /\
      nth_error (h_bird a) i = nth_error (h_bird h) (i * 4 + 3) /\
      nth_error (h_bat a) i = nth_error (h_bat h) (i * 4 + 3) /\
      nth_error (h_soil_nutrient a) i =
        nth_error (h_soil_nutrient h) (i * 4 + 3) /\
      nth_error (h_soil_health a) i =
        nth_error (h_soil_health h) (i * 4 + 3) /\
      nth_error (h_herbicide_residue a) i =
        nth_error (h_herbicide_residue h) (i * 4 + 3) /\
      nth_error (h_pesticide_residue a) i =
        nth_error (h_pesticide_residue h) (i * 4 + 3) /\
      nth_error (h_year a) i = nth_error (h_year h) (i * 4 + 3) /\
      nth_error (h_season a) i = nth_error (h_season h) (i * 4 + 3).
Proof.
  split; [apply extract_annual_data_none |].
  intros a H.
  destruct (extract_annual_data_some h a n_years H)
    as (E1 & E2 & E3 & E4 & E5 & E6 & E7 & E8 & E9 & E10 & E11).
  apply annual_series_some in E1, E2, E3, E4, E5, E6, E7, E8, E9, E10, E11.
  split.
  - unfold history_lengths.
    rewrite (proj1 E1), (proj1 E2), (proj1 E3), (proj1 E4), (proj1 E5),
      (proj1 E6), (proj1 E7), (proj1 E8), (proj1 E9), (proj1 E10),
      (proj1 E11).
    reflexivity.
  - intros i Hi.
    repeat split;
      match goal with
      | E : _ /\ (forall i, _ -> nth_error ?l i = _)
        |- nth_error ?l i = _ => apply E, Hi
      end.
Qed.

Lemma extract_annual_data_index_error_witness :
  extract_annual_data empty_history 1 = None.
Proof.
  apply (extract_annual_data_index_error empty_history 1).
  split; [lia |]. left. cbn. lia.
Defined.

Lemma nth_error_winter (N i : nat) :
  (i < N)%nat ->
  nth_error (concat (repeat SEASONS N)) (i * 4 + 3) = Some winter.
Proof.
  revert i. induction N as [| N IH]; intros i Hi; [lia |].
  cbn [repeat concat].
  destruct i as [| i]; [reflexivity |].
  rewrite nth_error_app2 by (cbn; lia).
  replace (S i * 4 + 3 - length SEASONS)%nat with (i * 4 + 3)%nat
    by (cbn; lia).
  apply IH. lia.
Qed.

Lemma nth_error_year_label (s N i : nat) :
  (i < N)%nat ->
  nth_error (flat_map (fun y => repeat (Z.of_nat y) 4) (seq s N))
            (i * 4 + 3)
  = Some (Z.of_nat (s + i)).
Proof.
  revert s i. induction N as [| N IH]; intros s i Hi; [lia |].
  cbn [seq flat_map].
  destruct i as [| i].
  - cbn. now rewrite Nat.add_0_r.
  - rewrite nth_error_app2 by (rewrite repeat_length; lia).
    rewrite repeat_length.
    replace (S i * 4 + 3 - 4)%nat with (i * 4 + 3)%nat by lia.
    rewrite IH by lia. do 2 f_equal. lia.
Qed.

(** X14: the annual data of a run.  From the history of N simulated years
    [extract_annual_data] with n_years <= N returns n_years entries per
    list, all of them winter snapshots, of the years 0 .. n_years-1 in
    order; with n_years > N it raises IndexError, so evaluating with the
    default of 30 years needs a run of at least 30 years. *)
Theorem annual_data_of_a_run (scenario_config : Scenario)
    (N n_years : nat) :
  ((n_years <= N)%nat ->
   exists a,
     extract_annual_data (run_simulation scenario_config N) n_years = Some a /\
     h_season a = repeat winter n_years /\
     h_year a = map Z.of_nat (seq 0 n_years) /\
     history_lengths a = repeat n_years 11) /\
  ((N < n_years)%nat ->
   extract_annual_data (run_simulation scenario_config N) n_years = None).
Proof.
  unfold run_simulation.
  pose proof (simulate_years_lengths scenario_config N) as Hlen.
  pose proof (simulate_years_seasons scenario_config N) as Hs.
  pose proof (simulate_years_years scenario_config N) as Hy.
  set (h := history (simulate_years N (init scenario_config))) in *.
  clearbody h.
  split; intros Hn.
  - destruct (extract_annual_data h n_years) as [a |] eqn:E.
    + exists a. split; [reflexivity |].
      destruct (extract_annual_data_some h a n_years E)
        as (E1 & E2 & E3 & E4 & E5 & E6 & E7 & E8 & E9 & E10 & E11).
      rewrite Hs in E11. rewrite Hy in E10.
      rewrite (annual_series_intro _ n_years (fun _ => winter)) in E11
        by (intros i Hi; apply nth_error_winter; lia).
      rewrite (annual_series_intro _ n_years Z.of_nat) in E10
        by (intros i Hi; apply nth_error_year_label; lia).
      injection E11 as E11. injection E10 as E10.
      split; [now rewrite <- E11, map_const, length_seq |].
      split; [now rewrite <- E10 |].
      apply annual_series_some in E1, E2, E3, E4, E5, E6, E7, E8, E9.
      unfold history_lengths.
      rewrite (proj1 E1), (proj1 E2), (proj1 E3), (proj1 E4), (proj1 E5),
        (proj1 E6), (proj1 E7), (proj1 E8), (proj1 E9),
        <- E10, <- E11, !length_map, length_seq.
      reflexivity.
    + exfalso. apply extract_annual_data_none in E.
      destruct E as [_ E]. rewrite Hlen in E.
      apply Exists_exists in E. destruct E as (x & Hin & Hx).
      apply repeat_spec in Hin. lia.
  - apply extract_annual_data_none. split; [lia |].
    rewrite Hlen. left. lia.
Qed.

Lemma annual_data_of_a_run_witness :
  (exists a, extract_annual_data (run_simulation birds_only 1) 1 = Some a) /\
  extract_annual_data (run_simulation birds_only 1) 30 = None.
Proof.
  destruct (annual_data_of_a_run birds_only 1 1) as [H1 _].
  destruct (annual_data_of_a_run birds_only 1 30) as [_ H2].
  split.
  - destruct (H1 ltac:(lia)) as (a & Ha & _). exists a. exact Ha.
  - apply H2. lia.
Defined.

(** ** Economic scores *)

Lemma py_min_np_upper (a : Q) (x : npfloat) : py_min_np a x <= a.
Proof. destruct x; cbn; [apply py_min_upper | lra]. Qed.

(** X15: [calculate_economic_scores] raises IndexError exactly when
    [use_herbicide] is off and the annual weed series is empty.
    Otherwise the costs lie between 0 and 43, they are 0 exactly when no
    chemical is used, no predator is introduced and the last annual weed
    value is at most 20; cost_efficiency never exceeds 100, and it is 100
    when there is no crop data ([nan] loses every comparison). *)
Theorem economic_scores_costs (annual_data : History) (config : Scenario) :
  (calculate_economic_scores annual_data config = None <->
   use_herbicide config = false /\ h_weed annual_data = []) /\
  forall e,
    calculate_economic_scores annual_data config = Some e ->
    yield e = np_mean (last_n 10 (h_crop annual_data)) /\
    cost_efficiency e <= 100 /\
    (h_crop annual_data = [] -> cost_efficiency e = 100) /\
    exists items,
      cost_items annual_data config = Some items /\
      let costs := fold_right Z.add 0%Z items in
      (0 <= costs <= 43)%Z /\
      (costs = 0%Z <->
       use_herbicide config = false /\ use_pesticide config = false /\
       introduce_birds config = false /\ introduce_bats config = false /\
       exists w, py_last (h_weed annual_data) = Some w /\ w <= 20).
Proof.
  unfold calculate_economic_scores, cost_items. cbv zeta.
  unfold COST_FACTORS.herbicide, COST_FACTORS.pesticide, COST_FACTORS.bird,
    COST_FACTORS.bat, COST_FACTORS.labor.
  destruct config as [uf uh up ib it uof ucc hs ps].
  cbn [use_herbicide use_pesticide introduce_birds introduce_bats].
  assert (Hlast : py_last (h_weed annual_data) = None
                  <-> h_weed annual_data = []).
  { unfold py_last. destruct (h_weed annual_data) as [| w ws];
      [tauto |].
    split; [| discriminate]. intros H. apply nth_error_None in H.
    cbn in H. lia. }
  destruct uh; cbn [negb].
  - split; [split; [discriminate | intros [H _]; discriminate] |].
    intros e H. injection H as <-. cbn [yield cost_efficiency].
    split; [reflexivity |]. split; [apply py_min_np_upper |].
    split; [intros Hc; rewrite Hc; reflexivity |].
    eexists. split; [reflexivity |]. cbv zeta.
    destruct up, ib, it; cbn; (split; [lia |]);
      (split; [discriminate | intros [H _]; discriminate]).
  - destruct (py_last (h_weed annual_data)) as [w |] eqn:Ew.
    + split.
      { split; [discriminate |]. intros [_ H].
        apply Hlast in H. discriminate. }
      intros e H. injection H as <-. cbn [yield cost_efficiency].
      split; [reflexivity |]. split; [apply py_min_np_upper |].
      split; [intros Hc; rewrite Hc; reflexivity |].
      eexists. split; [reflexivity |]. cbv zeta.
      destruct (Qltb_cases 20 w) as [[E Hw] | [E Hw]]; rewrite E;
        destruct up, ib, it; cbn; (split; [lia |]);
        (split;
         [ intros Hc;
           first [ discriminate Hc
                 | repeat split; exists w; split; [reflexivity | lra] ]
         | intros (_ & H1 & H2 & H3 & w' & H4 & H5);
           first [ reflexivity
                 | discriminate
                 | injection H4 as <-; lra ] ]).
    + split; [split; [intros _; split; [reflexivity | now apply Hlast]
                     | reflexivity] |].
      discriminate.
Qed.

Lemma economic_scores_costs_witness :
  calculate_economic_scores empty_history birds_only = None.
Proof.
  apply (economic_scores_costs empty_history birds_only).
  split; reflexivity.
Defined.

(** ** Summary text *)

(** X16: the summary is "System status average" exactly when no score
    leaves its middle band: for numeric scores, when
    60 <= stability <= 80, 40 <= biodiversity <= 70 and
    -0.5 <= soil_trend <= 0.5; a [nan] score never produces a phrase.  At
    most three phrases are joined; a [nan] stability reads like one in the
    middle band. *)
Theorem summary_average_iff (stability biodiversity soil_trend : Q) :
  (generate_evaluation_summary (Fin stability) (Fin biodiversity)
                               (Fin soil_trend)
   = "System status average"%string <->
   60 <= stability <= 80 /\ 40 <= biodiversity <= 70 /\
   -0.5 <= soil_trend <= 0.5) /\
  (length (summaries (Fin stability) (Fin biodiversity) (Fin soil_trend))
   <= 3)%nat /\
  generate_evaluation_summary NaN NaN NaN = "System status average"%string /\
  (forall b t : npfloat, summaries NaN b t = summaries (Fin 70) b t).
Proof.
  unfold generate_evaluation_summary, summaries.
  unfold THRESHOLDS.high_stability, THRESHOLDS.low_stability,
    THRESHOLDS.high_biodiversity, THRESHOLDS.low_biodiversity.
  cbn [np_gt np_lt].
  split; [| split; [| split; [reflexivity | reflexivity]]].
  - destruct (Qltb_cases 80 stability) as [[E1 H1] | [E1 H1]]; rewrite E1;
      [| destruct (Qltb_cases stability 60) as [[E2 H2] | [E2 H2]];
         rewrite E2];
      (destruct (Qltb_cases 70 biodiversity) as [[E3 H3] | [E3 H3]];
       rewrite E3;
       [| destruct (Qltb_cases biodiversity 40) as [[E4 H4] | [E4 H4]];
          rewrite E4]);
      (destruct (Qltb_cases 0.5 soil_trend) as [[E5 H5] | [E5 H5]];
       rewrite E5;
       [| destruct (Qltb_cases soil_trend (-0.5)) as [[E6 H6] | [E6 H6]];
          rewrite E6]);
      (split;
       [ intros H; first [ discriminate H | repeat split; lra ]
       | intros H; first [ reflexivity | exfalso; lra ] ]).
  - destruct (Qltb 80 stability); [| destruct (Qltb stability 60)];
      (destruct (Qltb 70 biodiversity);
       [| destruct (Qltb biodiversity 40)]);
      (destruct (Qltb 0.5 soil_trend);
       [| destruct (Qltb soil_trend (-0.5))]);
      cbn; lia.
Qed.

(** ** Long-term productivity *)









